(** * Goal accrual and periodic reset engine of gps-financeiro

    A shallow embedding of the goal operations of [src/js/utils.js]
    ([getStartOfDay], [getStartOfWeek], [getStartOfMonth], [addGoal],
    [getGoals], [updateGoal], [updateGoalsProgress], [checkGoalNeedsReset],
    [resetGoal], [checkAndResetGoals]) together with the parts of the
    JavaScript runtime they rest on: the [Date] arithmetic of ECMA-262
    (section 21.4.1), IEEE 754 binary64 numbers, [String], [||], [+],
    [toLowerCase] and [trim].

    Conventions of the model
    - A [Date] is its time value, an integer number of milliseconds since the
      epoch (UTC).  The range limit of time values (TimeClip) is not modelled.
    - Local time is UTC shifted by a fixed offset [LocalTZA]; changes of the
      offset (daylight saving) are not modelled.
    - A JavaScript number is a [spec_float] read at binary64.
    - A JavaScript string is a [string] whose characters are the code units
      U+0000 to U+00FF.
    - The store is the goals collection of the signed-in user, in the order
      in which the query of [getGoals] returns it.  A goal document has the
      fields of the schema ([name], [category], [type], [target], [current],
      [lastReset], [createdAt]), possibly an [id] field of its own, which is
      a string, and any other fields.
    - A reference [doc(db, 'users', uid, 'goals', id)] whose [id] is the id
      of no document of the collection denotes no document: a write through
      it is rejected.
    - One call runs at one reading [clientNow] of the client clock;
      [serverTimestamp()] is resolved by the store to [serverNow].
    - Reading the collection succeeds; a write is rejected when the store
      says so ([writeFails]) or when the document does not exist.

    After the engine come the other parts of the same file that are modelled:
    the ends of the day, week and month ([DateEnds]), the validators of the
    forms ([Validation]), the goal documents read and deleted one by one and
    the closing of a work session ([Db]), the texts of durations
    ([Durations]) and the page guard ([AuthGuard]). *)

From Stdlib Require Import ZArith Lia Bool List String Ascii.
From Stdlib Require Import SpecFloat.
From Stdlib Require DecimalString DecimalN.
Import ListNotations.

Local Open Scope Z_scope.

(** ** Calendar arithmetic of ECMA-262, section 21.4.1 *)

Module DateModel.

Definition msPerDay : Z := 86400000.

Definition Day (t : Z) : Z := t / msPerDay.

Definition TimeWithinDay (t : Z) : Z := t mod msPerDay.

Definition DayFromYear (y : Z) : Z :=
  365 * (y - 1970) + (y - 1969) / 4 - (y - 1901) / 100 + (y - 1601) / 400.

Definition TimeFromYear (y : Z) : Z := msPerDay * DayFromYear y.

Definition DaysInYear (y : Z) : Z :=
  if negb (y mod 4 =? 0) then 365
  else if negb (y mod 100 =? 0) then 366
  else if negb (y mod 400 =? 0) then 365
  else 366.

(** The largest [y] with [DayFromYear y <= d]: a first guess from the mean
    length of a year, moved by one year where the guess is off. *)
Definition yearFromDay (d : Z) : Z :=
  let y := 1970 + (d * 400) / 146097 in
  if d <? DayFromYear y then y - 1
  else if DayFromYear (y + 1) <=? d then y + 1
  else y.

Definition YearFromTime (t : Z) : Z := yearFromDay (Day t).

Definition DayWithinYear (t : Z) : Z := Day t - DayFromYear (YearFromTime t).

Definition InLeapYear (t : Z) : Z :=
  if DaysInYear (YearFromTime t) =? 366 then 1 else 0.

(** Number of days of the year before month [m] (0 = January). *)
Definition monthStart (leap m : Z) : Z :=
  match m with
  | 0 => 0
  | 1 => 31
  | 2 => 59 + leap
  | 3 => 90 + leap
  | 4 => 120 + leap
  | 5 => 151 + leap
  | 6 => 181 + leap
  | 7 => 212 + leap
  | 8 => 243 + leap
  | 9 => 273 + leap
  | 10 => 304 + leap
  | _ => 334 + leap
  end.

Definition monthOfDay (leap dwy : Z) : Z :=
  if dwy <? 31 then 0
  else if dwy <? 59 + leap then 1
  else if dwy <? 90 + leap then 2
  else if dwy <? 120 + leap then 3
  else if dwy <? 151 + leap then 4
  else if dwy <? 181 + leap then 5
  else if dwy <? 212 + leap then 6
  else if dwy <? 243 + leap then 7
  else if dwy <? 273 + leap then 8
  else if dwy <? 304 + leap then 9
  else if dwy <? 334 + leap then 10
  else 11.

Definition MonthFromTime (t : Z) : Z :=
  monthOfDay (InLeapYear t) (DayWithinYear t).

Definition DateFromTime (t : Z) : Z :=
  DayWithinYear t - monthStart (InLeapYear t) (MonthFromTime t) + 1.

Definition WeekDay (t : Z) : Z := (Day t + 4) mod 7.

Definition msPerHour : Z := 3600000.
Definition msPerMinute : Z := 60000.
Definition msPerSecond : Z := 1000.

Definition MakeTime (hour min sec ms : Z) : Z :=
  hour * msPerHour + min * msPerMinute + sec * msPerSecond + ms.

(** [MakeDay]: the day number of the first day of month [month] of year
    [year], moved by [date - 1] days. *)
Definition MakeDay (year month date : Z) : Z :=
  let ym := year + month / 12 in
  let mn := month mod 12 in
  let leap := if DaysInYear ym =? 366 then 1 else 0 in
  DayFromYear ym + monthStart leap mn + date - 1.

Definition MakeDate (day time : Z) : Z := day * msPerDay + time.

Section LocalTime.

Variable LocalTZA : Z.

Definition LocalTime (t : Z) : Z := t + LocalTZA.
Definition UTC (t : Z) : Z := t - LocalTZA.

(** Methods of [Date.prototype], on the time value of the receiver. *)
Definition getDay (d : Z) : Z := WeekDay (LocalTime d).

Definition getDate (d : Z) : Z := DateFromTime (LocalTime d).

Definition setDate (d : Z) (dt : Z) : Z :=
  let t := LocalTime d in
  UTC (MakeDate (MakeDay (YearFromTime t) (MonthFromTime t) dt) (TimeWithinDay t)).

Definition setHours (d : Z) (hour min sec ms : Z) : Z :=
  let t := LocalTime d in
  UTC (MakeDate (Day t) (MakeTime hour min sec ms)).

(** ** The window functions of utils.js *)

Definition getStartOfDay (date : Z) : Z :=
  let d := date in
  let d := setHours d 0 0 0 0 in
  d.

Definition getStartOfWeek (date : Z) : Z :=
  let d := date in
  let day := getDay d in
  let diff := getDate d - day + (if day =? 0 then -6 else 1) in
  let d := setDate d diff in
  let d := setHours d 0 0 0 0 in
  d.

Definition getStartOfMonth (date : Z) : Z :=
  let d := date in
  let d := setDate d 1 in
  let d := setHours d 0 0 0 0 in
  d.

End LocalTime.

End DateModel.

(** ** JavaScript values *)

Module JS.

Local Open Scope string_scope.

(** Numbers are IEEE 754 binary64 values. *)
Definition prec : Z := 53.
Definition emax : Z := 1024.

Definition num_add (x y : spec_float) : spec_float := SFadd prec emax x y.

Definition num_zero : spec_float := S754_zero false.
Definition num_one : spec_float := S754_finite false 4503599627370496 (-52).
Definition num_infinity : spec_float := S754_infinity false.

Definition num_isNaN (x : spec_float) : bool :=
  match x with
  | S754_nan => true
  | _ => false
  end.

(** The primitive values a goal field or a call argument can hold. *)
Inductive jsval : Type :=
| JUndefined
| JNull
| JBool (b : bool)
| JNum (x : spec_float)
| JStr (s : string).

Definition ToBoolean (v : jsval) : bool :=
  match v with
  | JUndefined => false
  | JNull => false
  | JBool b => b
  | JNum (S754_zero _) => false
  | JNum S754_nan => false
  | JNum _ => true
  | JStr s => negb (s =? "")
  end.

(** [a || b] *)
Definition js_or (a b : jsval) : jsval := if ToBoolean a then a else b.

Definition typeof_is_number (v : jsval) : bool :=
  match v with
  | JNum _ => true
  | _ => false
  end.

Definition typeof_is_string (v : jsval) : bool :=
  match v with
  | JStr _ => true
  | _ => false
  end.

(** ToNumber on the values that are not strings.  [js_add] concatenates as
    soon as one operand is a string, so it never asks for the number a string
    denotes, and the conversion of strings is left out: the [JStr] case below
    is not reached. *)
Definition ToNumber (v : jsval) : spec_float :=
  match v with
  | JUndefined => S754_nan
  | JNull => num_zero
  | JBool true => num_one
  | JBool false => num_zero
  | JNum x => x
  | JStr _ => S754_nan
  end.

(** *** Strings *)

Definition isWhiteSpace (c : ascii) : bool :=
  let n := N_of_ascii c in
  ((9 <=? n) && (n <=? 13) || (n =? 32) || (n =? 160))%N.

Definition lowerChar (c : ascii) : ascii :=
  let n := N_of_ascii c in
  if ((65 <=? n) && (n <=? 90))%N then ascii_of_N (n + 32)
  else if ((192 <=? n) && (n <=? 222) && negb (n =? 215))%N then ascii_of_N (n + 32)
  else c.

Fixpoint toLowerCase (s : string) : string :=
  match s with
  | EmptyString => EmptyString
  | String c r => String (lowerChar c) (toLowerCase r)
  end.

Fixpoint trimStart (s : string) : string :=
  match s with
  | EmptyString => EmptyString
  | String c r => if isWhiteSpace c then trimStart r else s
  end.

Fixpoint trimEnd (s : string) : string :=
  match s with
  | EmptyString => EmptyString
  | String c r =>
      match trimEnd r with
      | EmptyString => if isWhiteSpace c then EmptyString else String c EmptyString
      | r' => String c r'
      end
  end.

Definition trim (s : string) : string := trimEnd (trimStart s).

Section Host.

(** Number::toString of the host, which no operation of the engine inspects. *)
Variable NumberToString : spec_float -> string.

(** [String(v)] *)
Definition js_String (v : jsval) : string :=
  match v with
  | JUndefined => "undefined"
  | JNull => "null"
  | JBool true => "true"
  | JBool false => "false"
  | JNum x => NumberToString x
  | JStr s => s
  end.

(** [l + r] *)
Definition js_add (l r : jsval) : jsval :=
  match l, r with
  | JStr a, _ => JStr (a ++ js_String r)
  | _, JStr b => JStr (js_String l ++ b)
  | _, _ => JNum (num_add (ToNumber l) (ToNumber r))
  end.

End Host.

End JS.

(** ** The goals store and the operations of utils.js *)

Module Engine.

Import DateModel JS.
Local Open Scope string_scope.

(** The data of a goal document of [users/<uid>/goals], and any object with
    the fields of a goal.  A timestamp field holds the millisecond time value
    [toDate()] returns for it, or [None] when the document has no such field.
    [id_field] is the field named [id] of the data, which is not the id of the
    document: a document has one when the object given to [addGoal] had one.
    [otherFields] holds every other field. *)
Record GoalDoc : Type := mkGoalDoc {
  id_field : option string;
  name : jsval;
  category : jsval;
  type : jsval;
  target : jsval;
  current : jsval;
  lastReset : option Z;
  createdAt : option Z;
  otherFields : list (string * jsval)
}.

(** The object [getGoals] builds for a document:
    [{ id: doc.id, ...doc.data(), lastReset: <Date> }], given by its [id], the
    data that was spread into it and its [lastReset]. *)
Record Goal : Type := mkGoal {
  goal_id : string;
  goal_data : GoalDoc;
  goal_lastReset : Z
}.

Definition Store : Type := list (string * GoalDoc).

(** The sentinel of [serverTimestamp()]. *)
Inductive FieldValue : Type := serverTimestamp.

(** The argument of [updateDoc]: the fields the engine writes. *)
Record Patch : Type := mkPatch {
  set_current : option jsval;
  set_lastReset : option FieldValue
}.

(** Calls made against the store, oldest first.  [ok] tells whether the
    store accepted the write. *)
Inductive StoreCall : Type :=
| GetDocs
| UpdateDoc (id : string) (data : Patch) (ok : bool)
| AddDoc (id : string) (data : GoalDoc) (ok : bool).

Record State : Type := mkState {
  docs : Store;
  calls : list StoreCall
}.

Inductive Error : Type :=
| NotAuthenticated
| StoreError.

(** How an [async] function settles. *)
Inductive Outcome (A : Type) : Type :=
| Resolved (a : A)
| Rejected (e : Error).

Arguments Resolved {A} a.
Arguments Rejected {A} e.

(** What a call finds around it. *)
Record Env : Type := mkEnv {
  currentUser : option string;   (* auth.currentUser?.uid, not empty when signed in *)
  clientNow : Z;                 (* new Date() *)
  serverNow : Z;                 (* the value stored for serverTimestamp() *)
  writeFails : nat -> bool;      (* the store rejects the call made after n calls *)
  autoId : string                (* the id addDoc assigns *)
}.

Definition M (A : Type) : Type := State -> Outcome A * State.

Definition ret {A : Type} (a : A) : M A := fun st => (Resolved a, st).

Definition throw {A : Type} (e : Error) : M A := fun st => (Rejected e, st).

(** [await m; k]: a rejection of [m] is thrown and ends the caller. *)
Definition bind {A B : Type} (m : M A) (k : A -> M B) : M B :=
  fun st =>
    match m st with
    | (Resolved a, st') => k a st'
    | (Rejected e, st') => (Rejected e, st')
    end.

Notation "x <- m ;; k" := (bind m (fun x => k))
  (at level 61, m at next level, right associativity).
Notation "m ;;; k" := (bind m (fun _ => k))
  (at level 61, right associativity).

(** [for (const x of xs) { body }] *)
Fixpoint forOf {A : Type} (xs : list A) (body : A -> M unit) : M unit :=
  match xs with
  | [] => ret tt
  | x :: rest => body x ;;; forOf rest body
  end.

(** *** The store *)

Fixpoint lookup (id : string) (s : Store) : option GoalDoc :=
  match s with
  | [] => None
  | (k, d) :: rest => if k =? id then Some d else lookup id rest
  end.

Fixpoint replace (id : string) (d' : GoalDoc) (s : Store) : Store :=
  match s with
  | [] => []
  | (k, d) :: rest =>
      if k =? id then (k, d') :: rest else (k, d) :: replace id d' rest
  end.

Definition applyPatch (env : Env) (p : Patch) (d : GoalDoc) : GoalDoc :=
  {| id_field := id_field d;
     name := name d;
     category := category d;
     type := type d;
     target := target d;
     current := match set_current p with
                | Some v => v
                | None => current d
                end;
     lastReset := match set_lastReset p with
                  | Some serverTimestamp => Some (serverNow env)
                  | None => lastReset d
                  end;
     createdAt := createdAt d;
     otherFields := otherFields d |}.

(** [updateDoc(doc(db, 'users', uid, 'goals', id), data)]: rejected when the
    store fails or when [id] names no document of the collection. *)
Definition updateDoc (env : Env) (id : string) (data : Patch) : M unit :=
  fun st =>
    match lookup id (docs st) with
    | Some d =>
        if writeFails env (List.length (calls st)) then
          (Rejected StoreError,
           {| docs := docs st; calls := calls st ++ [UpdateDoc id data false] |})
        else
          (Resolved tt,
           {| docs := replace id (applyPatch env data d) (docs st);
              calls := calls st ++ [UpdateDoc id data true] |})
    | None =>
        (Rejected StoreError,
         {| docs := docs st; calls := calls st ++ [UpdateDoc id data false] |})
    end.

(** [addDoc(collection(db, 'users', uid, 'goals'), data)]; the new document
    is the most recent one of the collection. *)
Definition addDoc (env : Env) (data : GoalDoc) : M string :=
  fun st =>
    if writeFails env (List.length (calls st)) then
      (Rejected StoreError,
       {| docs := docs st; calls := calls st ++ [AddDoc (autoId env) data false] |})
    else
      (Resolved (autoId env),
       {| docs := (autoId env, data) :: docs st;
          calls := calls st ++ [AddDoc (autoId env) data true] |}).

(** [getDocs(query(goalsRef, orderBy('createdAt', 'desc')))] *)
Definition getDocs : M Store :=
  fun st => (Resolved (docs st), {| docs := docs st; calls := calls st ++ [GetDocs] |}).

Section Host.

Variable LocalTZA : Z.
Variable NumberToString : spec_float -> string.

(** *** Goals operations *)

(** [{ ...goal, current: 0, createdAt: serverTimestamp(),
       lastReset: serverTimestamp() }]: every field of the argument is
    stored, its [id] among them, and three are overwritten. *)
Definition addGoal (env : Env) (goal : GoalDoc) : M string :=
  match currentUser env with
  | None => throw NotAuthenticated
  | Some uid =>
      let goalData :=
        {| id_field := id_field goal;
           name := name goal;
           category := category goal;
           type := type goal;
           target := target goal;
           current := JNum num_zero;
           lastReset := Some (serverNow env);
           createdAt := Some (serverNow env);
           otherFields := otherFields goal |} in
      docRef <- addDoc env goalData ;;
      ret docRef
  end.

(** The arrow function [getGoals] maps over the documents:
    [{ id: doc.id, ...doc.data(),
       lastReset: doc.data().lastReset?.toDate() || new Date() }].
    The data is spread after [id: doc.id], so an [id] field of the data
    replaces the id of the document. *)
Definition goalOfDoc (env : Env) (doc : string * GoalDoc) : Goal :=
  {| goal_id := match id_field (snd doc) with
                | Some stored => stored
                | None => fst doc
                end;
     goal_data := snd doc;
     goal_lastReset := match lastReset (snd doc) with
                       | Some t => t
                       | None => clientNow env
                       end |}.

Definition getGoals (env : Env) : M (list Goal) :=
  match currentUser env with
  | None => ret []
  | Some uid =>
      snapshot <- getDocs ;;
      ret (map (goalOfDoc env) snapshot)
  end.

Definition updateGoal (env : Env) (goalId : string) (data : Patch) : M bool :=
  match currentUser env with
  | None => ret false
  | Some uid => updateDoc env goalId data ;;; ret true
  end.

(** [goal.lastReset] is a [Date] in every object [getGoals] builds, and the
    function is called on no other. *)
Definition checkGoalNeedsReset (env : Env) (goal : Goal) : bool :=
  let lastReset := goal_lastReset goal in
  let now := clientNow env in
  match type (goal_data goal) with
  | JStr ty =>
      if ty =? "daily" then
        (getStartOfDay LocalTZA lastReset <? getStartOfDay LocalTZA now)%Z
      else if ty =? "weekly" then
        (getStartOfWeek LocalTZA lastReset <? getStartOfWeek LocalTZA now)%Z
      else if ty =? "monthly" then
        (getStartOfMonth LocalTZA lastReset <? getStartOfMonth LocalTZA now)%Z
      else false
  | _ => false
  end.

(** [{ current: 0, lastReset: serverTimestamp() }] *)
Definition resetData : Patch :=
  {| set_current := Some (JNum num_zero);
     set_lastReset := Some serverTimestamp |}.

Definition resetGoal (env : Env) (goalId : string) : M unit :=
  match currentUser env with
  | None => ret tt
  | Some uid => updateDoc env goalId resetData
  end.

(** [!category || typeof category !== 'string'] *)
Definition invalidCategory (category : jsval) : bool :=
  negb (ToBoolean category) || negb (typeof_is_string category).

(** [typeof amount !== 'number' || amount <= 0 || isNaN(amount)]: the two
    comparisons are evaluated on numbers only. *)
Definition invalidAmount (amount : jsval) : bool :=
  match amount with
  | JNum x => SFleb x num_zero || num_isNaN x
  | _ => true
  end.

Definition normalizeCategory (category : jsval) : string :=
  trim (toLowerCase (js_String NumberToString category)).

(** The body of the loop of [updateGoalsProgress]. *)
Definition creditGoal (env : Env) (amount : jsval) (targetCategory : string)
    (goal : Goal) : M unit :=
  let goalCat := normalizeCategory (js_or (category (goal_data goal)) (JStr "")) in
  if negb (goalCat =? targetCategory) then ret tt
  else
    let shouldReset := checkGoalNeedsReset env goal in
    (if shouldReset then resetGoal env (goal_id goal) else ret tt) ;;;
    let oldValue :=
      if shouldReset then JNum num_zero
      else js_or (current (goal_data goal)) (JNum num_zero) in
    let newValue := js_add NumberToString oldValue amount in
    updateGoal env (goal_id goal)
      {| set_current := Some newValue; set_lastReset := None |} ;;;
    ret tt.

Definition updateGoalsProgress (env : Env) (amount category : jsval) : M unit :=
  if invalidCategory category then ret tt
  else if invalidAmount amount then ret tt
  else
    let targetCategory := normalizeCategory category in
    goals <- getGoals env ;;
    forOf goals (creditGoal env amount targetCategory).

Definition checkAndResetGoals (env : Env) : M unit :=
  goals <- getGoals env ;;
  forOf goals (fun goal =>
    if checkGoalNeedsReset env goal then resetGoal env (goal_id goal) else ret tt).

End Host.

End Engine.

(** ** Notions used to state the properties of the engine *)

Module Properties.

Import DateModel JS Engine.
Local Open Scope string_scope.

(** *** Windows *)

Inductive Window : Type := Daily | Weekly | Monthly.

(** The window kind a [type] field selects, if any. *)
Definition windowOf (ty : jsval) : option Window :=
  match ty with
  | JStr s =>
      if s =? "daily" then Some Daily
      else if s =? "weekly" then Some Weekly
      else if s =? "monthly" then Some Monthly
      else None
  | _ => None
  end.

Definition startOfWindow (tza : Z) (w : Window) (t : Z) : Z :=
  match w with
  | Daily => getStartOfDay tza t
  | Weekly => getStartOfWeek tza t
  | Monthly => getStartOfMonth tza t
  end.

(** Days elapsed since the last Monday, for the weekday [w] of [getDay]
    (0 = Sunday). *)
Definition daysSinceMonday (w : Z) : Z := if (w =? 0)%Z then 6 else w - 1.

(** Day number of the first day of the month day [d] lies in. *)
Definition monthStartDay (d : Z) : Z :=
  let y := yearFromDay d in
  let leap := if (DaysInYear y =? 366)%Z then 1 else 0 in
  DayFromYear y + monthStart leap (monthOfDay leap (d - DayFromYear y)).

(** *** Numbers and arguments *)

(** [0 <= x] *)
Definition nonNegative (x : spec_float) : bool := SFleb num_zero x.

(** [current] is a number with [current >= 0]. *)
Definition currentOk (d : GoalDoc) : bool :=
  match current d with
  | JNum c => nonNegative c
  | _ => false
  end.

(** A number greater than zero; [Infinity] is one. *)
Definition positiveNumber (v : jsval) : bool :=
  match v with
  | JNum x => SFltb num_zero x
  | _ => false
  end.

(** A finite number greater than zero. *)
Definition finitePositive (v : jsval) : bool :=
  match v with
  | JNum (S754_finite false _ _) => true
  | _ => false
  end.

Definition nonEmptyString (v : jsval) : bool :=
  match v with
  | JStr s => negb (s =? "")
  | _ => false
  end.

(** *** Stores, calls and runs *)

Definition uniqueIds (s : Store) : Prop := NoDup (map fst s).

(** The document is addressed by the id the store gave it: its data has no
    [id] field, or one that is the id of the document. *)
Definition ownId (doc : string * GoalDoc) : bool :=
  match id_field (snd doc) with
  | Some stored => stored =? fst doc
  | None => true
  end.

Definition ownIds (s : Store) : Prop := forall doc, In doc s -> ownId doc = true.

(** The fields of an object of [getGoals], as [addGoal] finds them when the
    object is handed to it (what [importUserData] does with the goals of an
    export). *)
Definition fieldsOf (goal : Goal) : GoalDoc :=
  {| id_field := Some (goal_id goal);
     name := name (goal_data goal);
     category := category (goal_data goal);
     type := type (goal_data goal);
     target := target (goal_data goal);
     current := current (goal_data goal);
     lastReset := Some (goal_lastReset goal);
     createdAt := createdAt (goal_data goal);
     otherFields := otherFields (goal_data goal) |}.

Definition noWriteFails (env : Env) : Prop := forall n, writeFails env n = false.

(** The store did not reject the call. *)
Definition accepted (c : StoreCall) : bool :=
  match c with
  | GetDocs => true
  | UpdateDoc _ _ ok => ok
  | AddDoc _ _ ok => ok
  end.

(** The call is a write against document [id]. *)
Definition writesTo (id : string) (c : StoreCall) : bool :=
  match c with
  | GetDocs => false
  | UpdateDoc k _ _ => k =? id
  | AddDoc k _ _ => k =? id
  end.

Definition lastReset_le (a b : option Z) : Prop :=
  match a, b with
  | Some x, Some y => x <= y
  | None, _ => True
  | Some _, None => False
  end.

(** The calls a run adds to the log settle in one of two ways: all of them
    accepted and the run resolved, or the run rejected by the store on its
    last call, the calls before it accepted. *)
Definition settled {A : Type} (out : Outcome A) (l : list StoreCall) : Prop :=
  match out with
  | Resolved _ => forallb accepted l = true
  | Rejected e =>
      e = StoreError /\
      exists l0 id data,
        l = (l0 ++ [UpdateDoc id data false])%list /\ forallb accepted l0 = true
  end.

(** What a logged call does to the documents: an accepted write is
    applied, a rejected one and a read change nothing. *)
Definition applyCall (env : Env) (s : Store) (c : StoreCall) : Store :=
  match c with
  | UpdateDoc id data true =>
      match lookup id s with
      | Some d => replace id (applyPatch env data d) s
      | None => s
      end
  | AddDoc id data true => (id, data) :: s
  | _ => s
  end.

Definition replay (env : Env) (l : list StoreCall) (s : Store) : Store :=
  fold_left (applyCall env) l s.

(** A run adds its calls to the log, leaves the documents as its accepted
    writes make them, and settles as described above. *)
Definition Settles {A : Type} (env : Env) (m : M A) : Prop :=
  forall st, exists l,
    calls (snd (m st)) = (calls st ++ l)%list /\
    docs (snd (m st)) = replay env l (docs st) /\
    settled (fst (m st)) l.

(** A run keeps a property of the documents. *)
Definition Preserves {A : Type} (I : Store -> Prop) (m : M A) : Prop :=
  forall st, I (docs st) -> I (docs (snd (m st))).

(** A run leaves document [id] alone: same contents, no write against it. *)
Definition Spares {A : Type} (id : string) (m : M A) : Prop :=
  forall st,
    lookup id (docs (snd (m st))) = lookup id (docs st) /\
    exists l, calls (snd (m st)) = (calls st ++ l)%list /\
              forallb (fun c => negb (writesTo id c)) l = true.

Section Host.

Variable LocalTZA : Z.
Variable NumberToString : spec_float -> string.

(** The goal's normalized category is the call's normalized category. *)
Definition sameCategory (d : GoalDoc) (category : jsval) : bool :=
  normalizeCategory NumberToString (js_or (Engine.category d) (JStr ""))
  =? normalizeCategory NumberToString category.

Definition resetDue (env : Env) (doc : string * GoalDoc) : bool :=
  checkGoalNeedsReset LocalTZA env (goalOfDoc env doc).

(** The value [updateGoalsProgress] writes to [current] of a matching goal. *)
Definition newValue (env : Env) (amount : jsval) (doc : string * GoalDoc) : jsval :=
  js_add NumberToString
    (if resetDue env doc then JNum num_zero
     else js_or (current (snd doc)) (JNum num_zero))
    amount.

Definition accrual (v : jsval) : Patch :=
  {| set_current := Some v; set_lastReset := None |}.

(** What one turn of the loop of [updateGoalsProgress] makes of a document
    and which calls it issues, when the store accepts every write. *)
Definition creditedDoc (env : Env) (amount category : jsval)
    (doc : string * GoalDoc) : GoalDoc :=
  if sameCategory (snd doc) category then
    applyPatch env (accrual (newValue env amount doc))
      (if resetDue env doc then applyPatch env resetData (snd doc) else snd doc)
  else snd doc.

Definition creditCalls (env : Env) (amount category : jsval)
    (doc : string * GoalDoc) : list StoreCall :=
  if sameCategory (snd doc) category then
    ((if resetDue env doc then [UpdateDoc (fst doc) resetData true] else [])
     ++ [UpdateDoc (fst doc) (accrual (newValue env amount doc)) true])%list
  else [].

(** The same for [checkAndResetGoals]. *)
Definition sweptDoc (env : Env) (doc : string * GoalDoc) : GoalDoc :=
  if resetDue env doc then applyPatch env resetData (snd doc) else snd doc.

Definition sweepCalls (env : Env) (doc : string * GoalDoc) : list StoreCall :=
  if resetDue env doc then [UpdateDoc (fst doc) resetData true] else [].

(** *** The operations of the engine *)

Inductive EngineOp : Type :=
| CreateGoal (goal : GoalDoc)
| ApplyEarnings (amount category : jsval)
| ExplicitReset (goalId : string)
| Sweep.

Definition runOp (env : Env) (op : EngineOp) (st : State) : State :=
  match op with
  | CreateGoal goal => snd (addGoal env goal st)
  | ApplyEarnings amount category =>
      snd (updateGoalsProgress LocalTZA NumberToString env amount category st)
  | ExplicitReset goalId => snd (resetGoal env goalId st)
  | Sweep => snd (checkAndResetGoals LocalTZA env st)
  end.

(** The stamp the store gives a reset lies in the day, the week and the
    month the client clock reads, or later. *)
Definition stampInWindow (env : Env) : Prop :=
  forall w, startOfWindow LocalTZA w (clientNow env)
            <= startOfWindow LocalTZA w (serverNow env).

(** Every stored [lastReset] was stamped no later than the store's clock
    reads now. *)
Definition stampedBefore (env : Env) (s : Store) : Prop :=
  forall id d t, In (id, d) s -> lastReset d = Some t -> t <= serverNow env.

Definition allCurrentOk (s : Store) : Prop :=
  forall id d, In (id, d) s -> currentOk d = true.

(** Against the documents [s0] a run started from, every document has kept
    its [lastReset] or received the stamp of the store. *)
Definition keptOrStamped (env : Env) (s0 s : Store) : Prop :=
  forall id d d',
    lookup id s0 = Some d -> lookup id s = Some d' ->
    lastReset d' = lastReset d \/ lastReset d' = Some (serverNow env).

Definition engineInv (env : Env) (s0 s : Store) : Prop :=
  allCurrentOk s /\ stampedBefore env s /\ keptOrStamped env s0 s.

(** The patch writes no [current] other than a number that is [>= 0]. *)
Definition patchOk (p : Patch) : bool :=
  match set_current p with
  | Some (JNum c) => nonNegative c
  | Some _ => false
  | None => true
  end.

End Host.

End Properties.

(** ** Sample data: the scenarios of the specification *)

Module Samples.

Import DateModel JS Engine Properties.
Local Open Scope string_scope.

(** UTC-3, the offset of Brasilia. *)
Definition tzBrasilia : Z := -3 * msPerHour.

(** A stand-in for Number::toString, exact on NaN, the infinities and zero;
    no sample prints a finite number. *)
Definition showNumber (x : spec_float) : string :=
  match x with
  | S754_nan => "NaN"
  | S754_infinity false => "Infinity"
  | S754_infinity true => "-Infinity"
  | S754_zero _ => "0"
  | S754_finite _ _ _ => ""
  end.

(** The number an integer denotes. *)
Definition num_of_Z (z : Z) : spec_float := binary_normalize prec emax z 0 false.

(** The instant at [hour]:00 local time on day number [day]. *)
Definition at_hour (day hour : Z) : Z :=
  UTC tzBrasilia (MakeDate day (MakeTime hour 0 0 0)).

(** Day 19791 is Saturday 2024-03-09, day 19792 Sunday 2024-03-10. *)
Definition yesterday : Z := 19791.
Definition today : Z := 19792.

Definition dailyGoal (cat : string) (cur : jsval) : GoalDoc :=
  {| id_field := None;
     name := JStr "meta";
     category := JStr cat;
     type := JStr "daily";
     target := JNum (num_of_Z 200);
     current := cur;
     lastReset := Some (at_hour yesterday 10);
     createdAt := Some (at_hour yesterday 10);
     otherFields := [] |}.

Definition receita50 : GoalDoc := dailyGoal "Receita " (JNum (num_of_Z 50)).
Definition km50 : GoalDoc := dailyGoal "km" (JNum (num_of_Z 50)).
Definition receitaNoCurrent : GoalDoc := dailyGoal "receita" JUndefined.

Definition receita7 : GoalDoc := dailyGoal "RECEITA" (JNum (num_of_Z 7)).

Definition sampleStore : State :=
  {| docs := [("a", receita50); ("b", km50); ("c", receita7)];
     calls := [] |}.

Definition freshStore : State :=
  {| docs := [("n", receitaNoCurrent)]; calls := [] |}.

Definition twenty : jsval := JNum (num_of_Z 20).

Definition envAt (now : Z) (fails : nat -> bool) : Env :=
  {| currentUser := Some "uid-1";
     clientNow := now;
     serverNow := now;
     writeFails := fails;
     autoId := "new" |}.

Definition never : nat -> bool := fun _ => false.

(** The store rejects the call made after [n] calls. *)
Definition failsAt (n : nat) : nat -> bool := fun k => Nat.eqb k n.

Definition yesterdayAfternoon : Env := envAt (at_hour yesterday 15) never.
Definition todayMorning : Env := envAt (at_hour today 9) never.

(** *** An export and its import *)

Definition importTime : Env := envAt (at_hour yesterday 12) never.

(** The object [getGoals] builds for goal "a", and the store after [addGoal]
    was given it, which is what [importUserData] does with each goal of an
    export. *)
Definition exportedA : GoalDoc := fieldsOf (goalOfDoc importTime ("a", receita50)).

Definition importedStore : State := snd (addGoal importTime exportedA sampleStore).

(** The same import into an account that has no goal. *)
Definition emptyStore : State := {| docs := []; calls := [] |}.

Definition importedAlone : State := snd (addGoal importTime exportedA emptyStore).

(** The object of goal "b" with its category changed to "receita" in the
    exported file. *)
Definition exportedB : GoalDoc :=
  {| id_field := Some "b";
     name := JStr "meta";
     category := JStr "receita";
     type := JStr "daily";
     target := JNum (num_of_Z 200);
     current := JNum (num_of_Z 50);
     lastReset := Some (at_hour yesterday 10);
     createdAt := Some (at_hour yesterday 10);
     otherFields := [] |}.

Definition crossedStore : State := snd (addGoal importTime exportedB sampleStore).

(** The document [addGoal] stores for an exported goal. *)
Definition copyOf (goal : GoalDoc) : GoalDoc :=
  {| id_field := id_field goal;
     name := name goal;
     category := category goal;
     type := type goal;
     target := target goal;
     current := JNum num_zero;
     lastReset := Some (at_hour yesterday 12);
     createdAt := Some (at_hour yesterday 12);
     otherFields := otherFields goal |}.

(** *** Clocks that disagree *)

(** The client reads five minutes past midnight, the store two minutes
    before it. *)
Definition skewedMidnight : Env :=
  {| currentUser := Some "uid-1";
     clientNow := at_hour today 0 + 5 * msPerMinute;
     serverNow := at_hour today 0 - 2 * msPerMinute;
     writeFails := never;
     autoId := "new" |}.

(** The store two minutes ahead of the client. *)
Definition storeAhead : Env :=
  {| currentUser := Some "uid-1";
     clientNow := at_hour today 9;
     serverNow := at_hour today 9 + 2 * msPerMinute;
     writeFails := never;
     autoId := "new" |}.

End Samples.

(** ** The end-of-window functions of utils.js *)

Module DateEnds.

Import DateModel.

(** Year-dependent leap day, number of days of a month, and the month that
    follows a month. *)
Definition leapOf (y : Z) : Z := if DaysInYear y =? 366 then 1 else 0.

Definition daysInMonth (y m : Z) : Z :=
  match m with
  | 1 => 28 + leapOf y
  | 3 | 5 | 8 | 10 => 30
  | _ => 31
  end.

Definition nextMonth (ym : Z * Z) : Z * Z :=
  if snd ym =? 11 then (fst ym + 1, 0) else (fst ym, snd ym + 1).

(** Day number of the first day of month [m] (0 to 11) of year [y]. *)
Definition firstOfMonth (ym : Z * Z) : Z :=
  DayFromYear (fst ym) + monthStart (leapOf (fst ym)) (snd ym).

Section LocalTime.

Variable LocalTZA : Z.

Definition getMonth (d : Z) : Z := MonthFromTime (LocalTime LocalTZA d).

Definition getFullYear (d : Z) : Z := YearFromTime (LocalTime LocalTZA d).

(** [setMonth(month)] keeps the day of the month and the time of day. *)
Definition setMonth (d : Z) (month : Z) : Z :=
  let t := LocalTime LocalTZA d in
  UTC LocalTZA
    (MakeDate (MakeDay (YearFromTime t) month (DateFromTime t)) (TimeWithinDay t)).

Definition getEndOfDay (date : Z) : Z :=
  let d := date in
  let d := setHours LocalTZA d 23 59 59 999 in
  d.

Definition getEndOfWeek (date : Z) : Z :=
  let d := date in
  let day := getDay LocalTZA d in
  let diff := 7 - day in
  let d := setDate LocalTZA d (getDate LocalTZA d + (if day =? 0 then 0 else diff)) in
  let d := setHours LocalTZA d 23 59 59 999 in
  d.

Definition getEndOfMonth (date : Z) : Z :=
  let d := date in
  let d := setMonth d (getMonth d + 1) in
  let d := setDate LocalTZA d 0 in
  let d := setHours LocalTZA d 23 59 59 999 in
  d.

(** The day of the month of [d] does not exist in the month that follows:
    [setMonth] then lands one month further. *)
Definition overflowsNextMonth (d : Z) : bool :=
  daysInMonth (fst (nextMonth (getFullYear d, getMonth d)))
              (snd (nextMonth (getFullYear d, getMonth d)))
  <? getDate LocalTZA d.

End LocalTime.

End DateEnds.

(** ** Form validation (utils.js) *)

Module Validation.

Import JS.
Local Open Scope string_scope.

(** Character classes of the regular expressions. *)
Definition isDigit (c : ascii) : bool :=
  let n := N_of_ascii c in ((48 <=? n) && (n <=? 57))%N.

Definition isLower (c : ascii) : bool :=
  let n := N_of_ascii c in ((97 <=? n) && (n <=? 122))%N.

Definition isUpper (c : ascii) : bool :=
  let n := N_of_ascii c in ((65 <=? n) && (n <=? 90))%N.

(** The class of the last test of [validatePassword], by character code:
    ! @ # $ % ^ & * ( ) , . ? quote : { } | < > *)
Definition isSpecial (c : ascii) : bool :=
  existsb (N.eqb (N_of_ascii c))
    [33; 64; 35; 36; 37; 94; 38; 42; 40; 41; 44; 46; 63; 34; 58; 123; 125; 124; 60; 62]%N.

(** [/[class]/.test(s)]: some character of [s] is in the class. *)
Fixpoint testClass (class : ascii -> bool) (s : string) : bool :=
  match s with
  | EmptyString => false
  | String c rest => class c || testClass class rest
  end.

(** [s.replace(/\D/g, '')] *)
Fixpoint removeNonDigits (s : string) : string :=
  match s with
  | EmptyString => EmptyString
  | String c rest =>
      if isDigit c then String c (removeNonDigits rest) else removeNonDigits rest
  end.

(** [s.slice(0, n)] and [s.slice(n)], for an index [n] that is not negative. *)
Fixpoint sliceTo (n : nat) (s : string) : string :=
  match n, s with
  | O, _ => EmptyString
  | S _, EmptyString => EmptyString
  | S n', String c rest => String c (sliceTo n' rest)
  end.

Fixpoint sliceFrom (n : nat) (s : string) : string :=
  match n, s with
  | O, _ => s
  | S _, EmptyString => EmptyString
  | S n', String _ rest => sliceFrom n' rest
  end.

(** [s.slice(a, b)] for [0 <= a <= b]. *)
Definition slice (a b : nat) (s : string) : string := sliceTo (b - a) (sliceFrom a s).

(** *** Passwords *)

Record PasswordResult : Type := mkPasswordResult {
  valid : bool;
  score : nat;
  messages : list string
}.

(** The text pushed for a short password, code unit by code unit. *)
Definition tooShort : string :=
  String "M" (String (ascii_of_N 195) (String (ascii_of_N 173) "nimo de 6 caracteres")).

Definition validatePassword (password : string) : PasswordResult :=
  let score := 0%nat in
  let messages := @nil string in
  let '(score, messages) :=
    if (String.length password <? 6)%nat
    then (score, (messages ++ [tooShort])%list)
    else (S score, messages) in
  let score := if (8 <=? String.length password)%nat then S score else score in
  let score :=
    if testClass isLower password && testClass isUpper password then S score else score in
  let score := if testClass isDigit password then S score else score in
  let score := if testClass isSpecial password then S score else score in
  {| valid := (2 <=? score)%nat && (6 <=? String.length password)%nat;
     score := score;
     messages := messages |}.

(** *** Phone numbers *)

Definition isValidPhone (phone : string) : bool :=
  let cleaned := removeNonDigits phone in
  (String.length cleaned =? 10)%nat || (String.length cleaned =? 11)%nat.

(** The listener [applyPhoneMask] installs: from the text of the field to
    the text it puts back. *)
Definition phoneMaskOnInput (fieldValue : string) : string :=
  let value := removeNonDigits fieldValue in
  let value := if (11 <? String.length value)%nat then slice 0 11 value else value in
  if (6 <? String.length value)%nat then
    "(" ++ slice 0 2 value ++ ") " ++ slice 2 7 value ++ "-" ++ sliceFrom 7 value
  else if (2 <? String.length value)%nat then
    "(" ++ slice 0 2 value ++ ") " ++ sliceFrom 2 value
  else if (0 <? String.length value)%nat then
    "(" ++ value
  else value.

(** The text the listener builds from at most 11 digits. *)
Definition phoneFormat (value : string) : string :=
  if (6 <? String.length value)%nat then
    "(" ++ slice 0 2 value ++ ") " ++ slice 2 7 value ++ "-" ++ sliceFrom 7 value
  else if (2 <? String.length value)%nat then
    "(" ++ slice 0 2 value ++ ") " ++ sliceFrom 2 value
  else if (0 <? String.length value)%nat then
    "(" ++ value
  else value.

(** *** E-mail addresses *)

(** The regular expressions of the form [^ a1 a2 ... an $] whose atoms are a
    literal character or [[class]+]. *)
Inductive Atom : Type :=
| Lit (c : ascii)
| OneOrMore (class : ascii -> bool).

(** [re.test(s)] for an anchored sequence of atoms. *)
Fixpoint matchesAll (re : list Atom) (s : string) {struct s} : bool :=
  match s with
  | EmptyString =>
      match re with
      | [] => true
      | _ => false
      end
  | String c rest =>
      match re with
      | [] => false
      | Lit a :: re' => Ascii.eqb c a && matchesAll re' rest
      | OneOrMore class :: re' =>
          class c && (matchesAll (OneOrMore class :: re') rest || matchesAll re' rest)
      end
  end.

(** [[^\s@]] *)
Definition notSpaceNorAt (c : ascii) : bool :=
  negb (isWhiteSpace c || Ascii.eqb c "@").

(** [/^[^\s@]+@[^\s@]+\.[^\s@]+$/] *)
Definition emailPattern : list Atom :=
  [OneOrMore notSpaceNorAt; Lit "@"; OneOrMore notSpaceNorAt; Lit ".";
   OneOrMore notSpaceNorAt].

Definition isValidEmail (email : string) : bool := matchesAll emailPattern email.

(** Every character of [s] is in the class. *)
Fixpoint allIn (class : ascii -> bool) (s : string) : bool :=
  match s with
  | EmptyString => true
  | String c rest => class c && allIn class rest
  end.

Fixpoint countChar (a : ascii) (s : string) : nat :=
  match s with
  | EmptyString => O
  | String c rest => (if Ascii.eqb c a then 1 else 0) + countChar a rest
  end.

(** A non-empty run of characters that are neither white space nor [@]. *)
Definition emailPart (w : string) : Prop :=
  w <> EmptyString /\ allIn notSpaceNorAt w = true.

End Validation.

(** ** Single goals and work sessions (the database operations of utils.js) *)

Module Db.

Import DateModel JS Engine.
Local Open Scope string_scope.

(** A session document of [users/<uid>/sessions]. *)
Record SessionDoc : Type := mkSessionDoc {
  startTime : option Z;
  endTime : option Z;
  duration : jsval;
  earnings : jsval;
  status : jsval;
  date : option Z
}.

(** The calls against the store that are not in the log of the goals
    collection: reading and deleting one goal, updating one session. *)
Inductive DbCall : Type :=
| GetGoalDoc (id : string)
| DeleteGoalDoc (id : string) (ok : bool)
| UpdateSessionDoc (id : string) (ok : bool).

Record Db : Type := mkDb {
  goalsDb : State;
  sessionDocs : list (string * SessionDoc);
  otherCalls : list DbCall
}.

(** [otherFails n]: the store rejects the write made after [n] of the other
    calls. *)
Record DbEnv : Type := mkDbEnv {
  goalsEnv : Env;
  otherFails : nat -> bool
}.

Definition DbM (A : Type) : Type := Db -> Outcome A * Db.

Definition dret {A : Type} (a : A) : DbM A := fun db => (Resolved a, db).

Definition dbind {A B : Type} (m : DbM A) (k : A -> DbM B) : DbM B :=
  fun db =>
    match m db with
    | (Resolved a, db') => k a db'
    | (Rejected e, db') => (Rejected e, db')
    end.

Notation "x <-- m ;; k" := (dbind m (fun x => k))
  (at level 61, m at next level, right associativity).
Notation "m ;;> k" := (dbind m (fun _ => k))
  (at level 61, right associativity).

(** An operation on the goals collection, run inside the database. *)
Definition onGoals {A : Type} (m : M A) : DbM A :=
  fun db =>
    let r := m (goalsDb db) in
    (fst r,
     {| goalsDb := snd r; sessionDocs := sessionDocs db; otherCalls := otherCalls db |}).

Definition logCall (c : DbCall) (db : Db) : list DbCall := (otherCalls db ++ [c])%list.

(** [getDoc(doc(db, 'users', uid, 'goals', id))]: the data of the document,
    or [None] when [exists()] is false. *)
Definition getDoc (id : string) : DbM (option GoalDoc) :=
  fun db =>
    (Resolved (lookup id (docs (goalsDb db))),
     {| goalsDb := goalsDb db; sessionDocs := sessionDocs db;
        otherCalls := logCall (GetGoalDoc id) db |}).

(** [deleteDoc(doc(db, 'users', uid, 'goals', id))]: succeeds whether or not
    the document exists. *)
Definition deleteDoc (env : DbEnv) (id : string) : DbM unit :=
  fun db =>
    if otherFails env (List.length (otherCalls db)) then
      (Rejected StoreError,
       {| goalsDb := goalsDb db; sessionDocs := sessionDocs db;
          otherCalls := logCall (DeleteGoalDoc id false) db |})
    else
      (Resolved tt,
       {| goalsDb := {| docs := filter (fun p => negb (fst p =? id)) (docs (goalsDb db));
                        calls := calls (goalsDb db) |};
          sessionDocs := sessionDocs db;
          otherCalls := logCall (DeleteGoalDoc id true) db |}).

Fixpoint lookupSession (id : string) (s : list (string * SessionDoc)) : option SessionDoc :=
  match s with
  | [] => None
  | (k, d) :: rest => if k =? id then Some d else lookupSession id rest
  end.

Fixpoint replaceSession (id : string) (d' : SessionDoc) (s : list (string * SessionDoc))
  : list (string * SessionDoc) :=
  match s with
  | [] => []
  | (k, d) :: rest =>
      if k =? id then (k, d') :: rest else (k, d) :: replaceSession id d' rest
  end.

(** A session document after
    [{ endTime: serverTimestamp(), duration, earnings, status: 'completed' }]
    is written to it. *)
Definition completed (env : DbEnv) (duration earnings : jsval) (d : SessionDoc)
  : SessionDoc :=
  {| startTime := startTime d;
     endTime := Some (serverNow (goalsEnv env));
     duration := duration;
     earnings := earnings;
     status := JStr "completed";
     date := date d |}.

(** [updateDoc(doc(db, 'users', uid, 'sessions', id),
      { endTime: serverTimestamp(), duration, earnings, status: 'completed' })] *)
Definition completeSessionDoc (env : DbEnv) (id : string) (duration earnings : jsval)
  : DbM unit :=
  fun db =>
    match lookupSession id (sessionDocs db) with
    | Some d =>
        if otherFails env (List.length (otherCalls db)) then
          (Rejected StoreError,
           {| goalsDb := goalsDb db; sessionDocs := sessionDocs db;
              otherCalls := logCall (UpdateSessionDoc id false) db |})
        else
          (Resolved tt,
           {| goalsDb := goalsDb db;
              sessionDocs :=
                replaceSession id (completed env duration earnings d) (sessionDocs db);
              otherCalls := logCall (UpdateSessionDoc id true) db |})
    | None =>
        (Rejected StoreError,
         {| goalsDb := goalsDb db; sessionDocs := sessionDocs db;
            otherCalls := logCall (UpdateSessionDoc id false) db |})
    end.

Section Host.

Variable LocalTZA : Z.
Variable NumberToString : spec_float -> string.

(** The number a string denotes (StringToNumber of the host), asked for
    when [earnings > 0] compares a string. *)
Variable StringToNumber : string -> spec_float.

(** [v > 0] *)
Definition js_gt_zero (v : jsval) : bool :=
  match v with
  | JStr s => SFltb num_zero (StringToNumber s)
  | _ => SFltb num_zero (ToNumber v)
  end.

(** The object [{ id: docSnap.id, ...docSnap.data() }] is given by the two
    things it is built from, the id of the snapshot and its data; [None] is
    [null]. *)
Definition getGoal (env : DbEnv) (goalId : string) : DbM (option (string * GoalDoc)) :=
  match currentUser (goalsEnv env) with
  | None => dret None
  | Some uid =>
      docSnap <-- getDoc goalId ;;
      match docSnap with
      | None => dret None
      | Some data => dret (Some (goalId, data))
      end
  end.

Definition deleteGoal (env : DbEnv) (goalId : string) : DbM bool :=
  match currentUser (goalsEnv env) with
  | None => dret false
  | Some uid => deleteDoc env goalId ;;> dret true
  end.

Definition endSession (env : DbEnv) (sessionId : string) (duration earnings : jsval)
  : DbM bool :=
  match currentUser (goalsEnv env) with
  | None => dret false
  | Some uid =>
      completeSessionDoc env sessionId duration earnings ;;>
      (if js_gt_zero earnings
       then onGoals (updateGoalsProgress LocalTZA NumberToString (goalsEnv env)
                       earnings (JStr "receita"))
       else dret tt) ;;>
      dret true
  end.

End Host.

End Db.

(** ** Sample data for sessions *)

Module DbSamples.

Import DateModel JS Engine Db Samples.
Local Open Scope string_scope.

(** A stand-in for StringToNumber; no sample compares a text with zero. *)
Definition noNumber (s : string) : spec_float := S754_nan.

Definition activeSession : SessionDoc :=
  {| startTime := Some (at_hour today 6);
     endTime := None;
     duration := JNum num_zero;
     earnings := JNum num_zero;
     status := JStr "active";
     date := Some (at_hour today 0) |}.

Definition sampleDb : Db :=
  {| goalsDb := sampleStore;
     sessionDocs := [("s1", activeSession)];
     otherCalls := [] |}.

Definition dbEnv (env : Env) (fails : nat -> bool) : DbEnv :=
  {| goalsEnv := env; otherFails := fails |}.

Definition signedOut : Env :=
  {| currentUser := None;
     clientNow := at_hour today 9;
     serverNow := at_hour today 9;
     writeFails := never;
     autoId := "new" |}.

Definition threeHours : jsval := JNum (num_of_Z 10800).

End DbSamples.

(** ** The windows and the category match in the words of the specification *)

Module Stated.

Import DateModel JS Engine Properties Validation.
Local Open Scope string_scope.
Local Open Scope Z_scope.

Section Windows.

Variable LocalTZA : Z.

(** The instant [s] reads 00:00:00.000 on the local clock. *)
Definition atMidnight (s : Z) : Prop := TimeWithinDay (LocalTime LocalTZA s) = 0.

(** [startOfDay(t)]: [t] truncated to 00:00:00.000, same calendar day. *)
Definition startOfDayOf (t s : Z) : Prop :=
  atMidnight s /\ Day (LocalTime LocalTZA s) = Day (LocalTime LocalTZA t).

(** [startOfWeek(t)]: Monday 00:00:00.000 of the week containing [t]. *)
Definition startOfWeekOf (t s : Z) : Prop :=
  atMidnight s /\ WeekDay (LocalTime LocalTZA s) = 1 /\ s <= t < s + 7 * msPerDay.

(** [startOfMonth(t)]: first calendar day of [t]'s month, 00:00:00.000. *)
Definition startOfMonthOf (t s : Z) : Prop :=
  atMidnight s /\
  DateFromTime (LocalTime LocalTZA s) = 1 /\
  MonthFromTime (LocalTime LocalTZA s) = MonthFromTime (LocalTime LocalTZA t) /\
  YearFromTime (LocalTime LocalTZA s) = YearFromTime (LocalTime LocalTZA t).

End Windows.

(** The text [t] is [s] without the white space at its two ends. *)
Definition noSpaceAtEnds (t : string) : Prop :=
  (forall c r, t = String c r -> isWhiteSpace c = false) /\
  (forall l c, t = (l ++ String c "")%string -> isWhiteSpace c = false).

Definition trimOf (s t : string) : Prop :=
  exists l r,
    s = (l ++ t ++ r)%string /\
    allIn isWhiteSpace l = true /\ allIn isWhiteSpace r = true /\
    noSpaceAtEnds t.

(** The text [t] is [s] with every capital letter replaced by its small
    letter. *)
Fixpoint lowerOf (s t : string) : Prop :=
  match s, t with
  | EmptyString, EmptyString => True
  | String a s', String b t' => b = lowerChar a /\ lowerOf s' t'
  | _, _ => False
  end.

(** Trimming white space and lower-casing. *)
Definition normalOf (s t : string) : Prop :=
  exists u, trimOf s u /\ lowerOf u t.

End Stated.

(** ** Durations as text ([src/js/utils.js])

    [seconds] is a whole number of seconds from 0 to 2^53, the range in which
    the divisions and [Math.floor] of the source are exact and [String]
    prints plain decimal digits. *)

Module Durations.

Local Open Scope string_scope.
Local Open Scope N_scope.

(** [String(n)] for a whole number [n >= 0]. *)
Definition String_of_N (n : N) : string := DecimalString.NilEmpty.string_of_uint (N.to_uint n).

Fixpoint repeatChar (fill : ascii) (n : nat) : string :=
  match n with
  | O => ""
  | S k => String fill (repeatChar fill k)
  end.

(** [s.padStart(targetLength, fill)] for a filler of one character. *)
Definition padStart (targetLength : nat) (fill : ascii) (s : string) : string :=
  repeatChar fill (targetLength - String.length s) ++ s.

Definition formatDuration (seconds : N) : string :=
  let hours := seconds / 3600 in
  let minutes := (seconds mod 3600) / 60 in
  let secs := seconds mod 60 in
  padStart 2 "0" (String_of_N hours) ++ ":" ++
  padStart 2 "0" (String_of_N minutes) ++ ":" ++
  padStart 2 "0" (String_of_N secs).

Definition formatDurationHuman (seconds : N) : string :=
  let hours := seconds / 3600 in
  let minutes := (seconds mod 3600) / 60 in
  if 0 <? hours then String_of_N hours ++ "h " ++ String_of_N minutes ++ "m"
  else String_of_N minutes ++ "m".

(** The whole numbers the source computes with exactly. *)
Definition safeSeconds (seconds : N) : Prop := seconds <= 2 ^ 53.

(** The whole number a run of decimal digits denotes. *)
Definition readN (s : string) : option N :=
  option_map N.of_uint (DecimalString.NilEmpty.uint_of_string s).

End Durations.

(** ** The page guard ([requireAuth]) *)

Module AuthGuard.

Import JS.
Local Open Scope string_scope.









End AuthGuard.

Module GuardSamples.

Import JS AuthGuard.
Local Open Scope string_scope.


End GuardSamples.

(** * Facts and proofs *)

Import DateModel JS Engine Properties.

(** ** The calendar *)

Lemma msPerDay_pos : 0 < msPerDay.
Proof. reflexivity. Qed.

Lemma Day_MakeDate (day time : Z) :
  0 <= time < msPerDay -> Day (MakeDate day time) = day.
Proof.
  intros H. unfold Day, MakeDate.
  rewrite Z.add_comm, Z.div_add by (unfold msPerDay; lia).
  rewrite Z.div_small; lia.
Qed.

Lemma TimeWithinDay_bound (t : Z) : 0 <= TimeWithinDay t < msPerDay.
Proof. unfold TimeWithinDay. apply Z.mod_pos_bound. reflexivity. Qed.

Lemma Day_decompose (t : Z) : t = Day t * msPerDay + TimeWithinDay t.
Proof.
  unfold Day, TimeWithinDay.
  pose proof (Z.div_mod t msPerDay). unfold msPerDay in *. lia.
Qed.

Lemma Day_mono (s t : Z) : s <= t -> Day s <= Day t.
Proof. intros H. unfold Day. apply Z.div_le_mono; [reflexivity | exact H]. Qed.

Lemma MonthFromTime_range (t : Z) : 0 <= MonthFromTime t <= 11.
Proof.
  unfold MonthFromTime, monthOfDay.
  repeat match goal with
         | |- context [if ?c then _ else _] => destruct c
         end; lia.
Qed.

Lemma monthStart_small (leap m : Z) : 0 <= m <= 11 -> monthStart leap (m mod 12) = monthStart leap m.
Proof. intros H. rewrite Z.mod_small by lia. reflexivity. Qed.

(** MakeDay undoes YearFromTime, MonthFromTime and DateFromTime. *)
Lemma MakeDay_of_time (t k : Z) :
  MakeDay (YearFromTime t) (MonthFromTime t) (DateFromTime t + k) = Day t + k.
Proof.
  pose proof (MonthFromTime_range t) as Hm.
  unfold MakeDay.
  rewrite Z.div_small, Z.mod_small, Z.add_0_r by lia.
  unfold DateFromTime, DayWithinYear, InLeapYear. lia.
Qed.

Lemma getStartOfDay_eq tza t : getStartOfDay tza t = Day (t + tza) * msPerDay - tza.
Proof.
  unfold getStartOfDay, setHours, UTC, MakeDate, MakeTime, LocalTime. lia.
Qed.

Lemma setDate_shift tza t k :
  setDate tza t (getDate tza t + k)
  = (Day (t + tza) + k) * msPerDay + TimeWithinDay (t + tza) - tza.
Proof.
  unfold setDate, getDate, LocalTime, UTC. rewrite MakeDay_of_time. reflexivity.
Qed.

Lemma setHours_midnight tza d : setHours tza d 0 0 0 0 = Day (d + tza) * msPerDay - tza.
Proof. unfold setHours, UTC, MakeDate, MakeTime, LocalTime. lia. Qed.

Lemma getStartOfWeek_eq tza t :
  getStartOfWeek tza t
  = (Day (t + tza) - daysSinceMonday (getDay tza t)) * msPerDay - tza.
Proof.
  unfold getStartOfWeek.
  set (w := getDay tza t).
  replace (getDate tza t - w + (if w =? 0 then -6 else 1))
    with (getDate tza t + - daysSinceMonday w)
    by (unfold daysSinceMonday; destruct (Z.eqb_spec w 0); lia).
  rewrite setHours_midnight, setDate_shift.
  match goal with
  | |- Day ?x * _ - _ = _ =>
      replace x with (MakeDate (Day (t + tza) + - daysSinceMonday w) (TimeWithinDay (t + tza)))
        by (unfold MakeDate; lia)
  end.
  rewrite Day_MakeDate by apply TimeWithinDay_bound.
  lia.
Qed.

Lemma getStartOfWeek_floor tza t :
  getStartOfWeek tza t = (7 * ((Day (t + tza) + 3) / 7) - 3) * msPerDay - tza.
Proof.
  rewrite getStartOfWeek_eq. unfold daysSinceMonday, getDay, WeekDay, LocalTime.
  f_equal. f_equal.
  destruct (Z.eqb_spec ((Day (t + tza) + 4) mod 7) 0); Z.div_mod_to_equations; lia.
Qed.

Lemma getStartOfDay_mono tza s t : s <= t -> getStartOfDay tza s <= getStartOfDay tza t.
Proof.
  intros H. rewrite !getStartOfDay_eq.
  pose proof (Day_mono (s + tza) (t + tza)). unfold msPerDay. lia.
Qed.

Lemma getStartOfWeek_mono tza s t : s <= t -> getStartOfWeek tza s <= getStartOfWeek tza t.
Proof.
  intros H. rewrite !getStartOfWeek_floor.
  pose proof (Day_mono (s + tza) (t + tza)) as Hd.
  assert ((Day (s + tza) + 3) / 7 <= (Day (t + tza) + 3) / 7)
    by (apply Z.div_le_mono; lia).
  unfold msPerDay. lia.
Qed.

Lemma yearFromDay_spec d : DayFromYear (yearFromDay d) <= d < DayFromYear (yearFromDay d + 1).
Proof.
  unfold yearFromDay.
  destruct (Z.ltb_spec d (DayFromYear (1970 + d * 400 / 146097))) as [H|H].
  - replace (1970 + d * 400 / 146097 - 1 + 1) with (1970 + d * 400 / 146097) by lia.
    unfold DayFromYear in *. Z.div_mod_to_equations; lia.
  - destruct (Z.leb_spec (DayFromYear (1970 + d * 400 / 146097 + 1)) d) as [H1|H1].
    + unfold DayFromYear in *. Z.div_mod_to_equations; lia.
    + lia.
Qed.

Lemma DayFromYear_step y : DayFromYear (y + 1) = DayFromYear y + DaysInYear y.
Proof.
  unfold DayFromYear, DaysInYear.
  destruct (Z.eqb_spec (y mod 4) 0); cbn [negb];
  [destruct (Z.eqb_spec (y mod 100) 0); cbn [negb];
   [destruct (Z.eqb_spec (y mod 400) 0); cbn [negb]|]|];
  Z.div_mod_to_equations; lia.
Qed.

Lemma DaysInYear_range y : DaysInYear y = 365 \/ DaysInYear y = 366.
Proof.
  unfold DaysInYear.
  destruct (y mod 4 =? 0), (y mod 100 =? 0), (y mod 400 =? 0); simpl; auto.
Qed.

Lemma DayFromYear_lt y z : y < z -> DayFromYear y < DayFromYear z.
Proof.
  intros H. unfold DayFromYear. Z.div_mod_to_equations. lia.
Qed.

Lemma yearFromDay_mono c d : c <= d -> yearFromDay c <= yearFromDay d.
Proof.
  intros H.
  pose proof (yearFromDay_spec c) as Hc. pose proof (yearFromDay_spec d) as Hd.
  destruct (Z_le_gt_dec (yearFromDay c) (yearFromDay d)) as [|Hgt]; [assumption|].
  assert (DayFromYear (yearFromDay d + 1) <= DayFromYear (yearFromDay c)).
  { destruct (Z.eq_dec (yearFromDay d + 1) (yearFromDay c)) as [->|]; [lia|].
    apply Z.lt_le_incl, DayFromYear_lt. lia. }
  lia.
Qed.

Lemma monthStart_le leap dwy : 0 <= leap <= 1 -> 0 <= dwy -> monthStart leap (monthOfDay leap dwy) <= dwy.
Proof.
  intros Hl Hd. unfold monthOfDay.
  repeat match goal with
         | |- context [if ?a <? ?b then _ else _] => destruct (Z.ltb_spec a b)
         end; unfold monthStart; lia.
Qed.

Lemma monthStart_mono leap c d :
  0 <= leap <= 1 -> c <= d ->
  monthStart leap (monthOfDay leap c) <= monthStart leap (monthOfDay leap d).
Proof.
  intros Hl H. unfold monthOfDay.
  repeat match goal with
         | |- context [if ?a <? ?b then _ else _] => destruct (Z.ltb_spec a b)
         end; unfold monthStart; lia.
Qed.

Lemma monthStart_bound leap m : 0 <= leap <= 1 -> 0 <= monthStart leap m <= 335.
Proof. intros H. unfold monthStart. destruct m as [|p|p]; try lia.
  do 4 (try destruct p as [p|p|]; try lia). Qed.



Lemma monthStartDay_mono c d : c <= d -> monthStartDay c <= monthStartDay d.
Proof.
  intros H. unfold monthStartDay.
  pose proof (yearFromDay_mono c d H) as Hy.
  pose proof (yearFromDay_spec c) as Hc. pose proof (yearFromDay_spec d) as Hd.
  cbv zeta.
  set (yc := yearFromDay c) in *. set (yd := yearFromDay d) in *.
  set (lc := if DaysInYear yc =? 366 then 1 else 0).
  set (ld := if DaysInYear yd =? 366 then 1 else 0).
  assert (0 <= lc <= 1) by (unfold lc; destruct (DaysInYear yc =? 366); lia).
  assert (0 <= ld <= 1) by (unfold ld; destruct (DaysInYear yd =? 366); lia).
  destruct (Z.eq_dec yc yd) as [E|NE].
  - assert (lc = ld) as El by (unfold lc, ld; rewrite E; reflexivity).
    rewrite El, E.
    apply Z.add_le_mono_l. apply monthStart_mono; lia.
  - pose proof (monthStart_le lc (c - DayFromYear yc) ltac:(lia) ltac:(lia)) as B1.
    pose proof (monthStart_bound ld (monthOfDay ld (d - DayFromYear yd)) ltac:(lia)) as B2.
    assert (DayFromYear (yc + 1) <= DayFromYear yd) as B3.
    { destruct (Z.eq_dec (yc + 1) yd) as [<-|]; [lia|].
      apply Z.lt_le_incl, DayFromYear_lt. lia. }
    revert B1 B2 B3 Hc Hd.
    generalize (monthStart lc (monthOfDay lc (c - DayFromYear yc))).
    generalize (monthStart ld (monthOfDay ld (d - DayFromYear yd))).
    generalize (DayFromYear yc) (DayFromYear (yc + 1)) (DayFromYear yd).
    intros. lia.
Qed.

Lemma setDate_eq tza t n :
  setDate tza t n
  = (Day (t + tza) + (n - getDate tza t)) * msPerDay + TimeWithinDay (t + tza) - tza.
Proof.
  rewrite <- setDate_shift. f_equal. lia.
Qed.

Lemma monthStartDay_eq t :
  monthStartDay (Day t) = Day t + (1 - DateFromTime t).
Proof.
  unfold monthStartDay, DateFromTime, DayWithinYear, MonthFromTime, InLeapYear,
    DayWithinYear, YearFromTime.
  cbv zeta.
  generalize (monthStart (if DaysInYear (yearFromDay (Day t)) =? 366 then 1 else 0)
       (monthOfDay (if DaysInYear (yearFromDay (Day t)) =? 366 then 1 else 0)
          (Day t - DayFromYear (yearFromDay (Day t))))).
  intros z. lia.
Qed.

Lemma getStartOfMonth_eq tza t :
  getStartOfMonth tza t = monthStartDay (Day (t + tza)) * msPerDay - tza.
Proof.
  unfold getStartOfMonth.
  rewrite setHours_midnight, setDate_eq.
  match goal with
  | |- Day ?x * _ - _ = _ =>
      replace x with (MakeDate (Day (t + tza) + (1 - getDate tza t)) (TimeWithinDay (t + tza)))
        by (unfold MakeDate; lia)
  end.
  rewrite Day_MakeDate by apply TimeWithinDay_bound.
  rewrite monthStartDay_eq. reflexivity.
Qed.

Lemma getStartOfMonth_mono tza s t : s <= t -> getStartOfMonth tza s <= getStartOfMonth tza t.
Proof.
  intros H. rewrite !getStartOfMonth_eq.
  pose proof (monthStartDay_mono _ _ (Day_mono (s + tza) (t + tza) ltac:(lia))).
  unfold msPerDay. lia.
Qed.

(** ** Numbers *)

Lemma shr_1_nonneg mrs : 0 <= shr_m mrs -> 0 <= shr_m (shr_1 mrs).
Proof.
  destruct mrs as [m r s]. simpl. intros H.
  destruct m as [|p|p]; simpl; try lia; destruct p; simpl; lia.
Qed.

Lemma iter_shr_1_nonneg p mrs : 0 <= shr_m mrs -> 0 <= shr_m (iter_pos shr_1 p mrs).
Proof.
  revert mrs. induction p as [p IH|p IH|]; intros mrs H; simpl.
  - apply IH, IH, shr_1_nonneg, H.
  - apply IH, IH, H.
  - apply shr_1_nonneg, H.
Qed.

Lemma shr_nonneg mrs e n : 0 <= shr_m mrs -> 0 <= shr_m (fst (shr mrs e n)).
Proof.
  intros H. unfold shr. destruct n; simpl; auto using iter_shr_1_nonneg.
Qed.

Lemma shr_record_of_loc_m m l : shr_m (shr_record_of_loc m l) = m.
Proof. destruct l as [|[]]; reflexivity. Qed.

Lemma shr_fexp_nonneg m e l : 0 <= m -> 0 <= shr_m (fst (shr_fexp prec emax m e l)).
Proof.
  intros H. unfold shr_fexp. apply shr_nonneg. rewrite shr_record_of_loc_m. exact H.
Qed.

Lemma round_nearest_even_nonneg m l : 0 <= m -> 0 <= round_nearest_even m l.
Proof.
  intros H. unfold round_nearest_even. destruct l as [|[]]; try lia.
  destruct (Z.even m); lia.
Qed.

Lemma binary_round_aux_nonneg m e l :
  0 <= m -> nonNegative (binary_round_aux prec emax false m e l) = true.
Proof.
  intros H. unfold binary_round_aux.
  pose proof (shr_fexp_nonneg m e l H) as H1.
  destruct (shr_fexp prec emax m e l) as [mrs' e']. simpl in H1.
  pose proof (shr_fexp_nonneg _ e' loc_Exact
                (round_nearest_even_nonneg _ (loc_of_shr_record mrs') H1)) as H2.
  destruct (shr_fexp prec emax (round_nearest_even (shr_m mrs') (loc_of_shr_record mrs')) e' loc_Exact)
    as [mrs'' e''].
  simpl in H2.
  destruct (shr_m mrs'') as [|p|p]; [reflexivity | | lia].
  destruct (e'' <=? emax - prec); reflexivity.
Qed.

Lemma binary_round_nonneg m e : nonNegative (binary_round prec emax false m e) = true.
Proof.
  unfold binary_round.
  destruct (shl_align m e (fexp prec emax (Z.pos (digits2_pos m) + e))) as [mz ez].
  apply binary_round_aux_nonneg. lia.
Qed.

Lemma num_add_nonneg c a :
  nonNegative c = true -> invalidAmount (JNum a) = false ->
  nonNegative (num_add c a) = true.
Proof.
  intros Hc Ha.
  destruct a as [sa|[]| |[] ma ea]; try discriminate Ha;
  destruct c as [sc|[]| |[] mc ec]; try discriminate Hc; try reflexivity.
  unfold num_add, SFadd. cbv [cond_Zopp].
  rewrite <- Pos2Z.inj_add. cbv [binary_normalize]. apply binary_round_nonneg.
Qed.

Lemma num_add_zero_l s a :
  invalidAmount (JNum a) = false -> num_add (S754_zero s) a = a.
Proof.
  intros Ha.
  destruct a as [sa|[]| |[] ma ea]; try discriminate Ha; reflexivity.
Qed.

(** ** Windows *)

Lemma getStartOfDay_le tza t : getStartOfDay tza t <= t < getStartOfDay tza t + msPerDay.
Proof.
  rewrite getStartOfDay_eq.
  pose proof (Day_decompose (t + tza)). pose proof (TimeWithinDay_bound (t + tza)). lia.
Qed.

Lemma daysSinceMonday_range tza t : 0 <= daysSinceMonday (getDay tza t) <= 6.
Proof.
  unfold daysSinceMonday, getDay, WeekDay.
  pose proof (Z.mod_pos_bound (Day (LocalTime tza t) + 4) 7 ltac:(lia)).
  destruct (Z.eqb_spec ((Day (LocalTime tza t) + 4) mod 7) 0); lia.
Qed.

Lemma getStartOfWeek_le tza t : getStartOfWeek tza t <= t < getStartOfWeek tza t + 7 * msPerDay.
Proof.
  rewrite getStartOfWeek_eq.
  pose proof (daysSinceMonday_range tza t).
  pose proof (Day_decompose (t + tza)). pose proof (TimeWithinDay_bound (t + tza)).
  unfold msPerDay in *. lia.
Qed.

Lemma Day_of_midnight d tza : Day (d * msPerDay - tza + tza) = d.
Proof.
  replace (d * msPerDay - tza + tza) with (MakeDate d 0) by (unfold MakeDate; lia).
  apply Day_MakeDate. unfold msPerDay. lia.
Qed.

Lemma getStartOfWeek_monday tza t : getDay tza (getStartOfWeek tza t) = 1.
Proof.
  rewrite getStartOfWeek_floor. unfold getDay, WeekDay, LocalTime.
  rewrite Day_of_midnight.
  Z.div_mod_to_equations. lia.
Qed.

Lemma getStartOfWeek_midnight tza t : TimeWithinDay (LocalTime tza (getStartOfWeek tza t)) = 0.
Proof.
  rewrite getStartOfWeek_eq. unfold TimeWithinDay, LocalTime.
  replace ((Day (t + tza) - daysSinceMonday (getDay tza t)) * msPerDay - tza + tza)
    with ((Day (t + tza) - daysSinceMonday (getDay tza t)) * msPerDay) by lia.
  apply Z.mod_mul. unfold msPerDay. lia.
Qed.

Lemma monthStartDay_le d : monthStartDay d <= d.
Proof.
  unfold monthStartDay. cbv zeta.
  pose proof (yearFromDay_spec d) as Hd.
  set (y := yearFromDay d) in *.
  set (leap := if DaysInYear y =? 366 then 1 else 0).
  assert (0 <= leap <= 1) by (unfold leap; destruct (DaysInYear y =? 366); lia).
  pose proof (monthStart_le leap (d - DayFromYear y) ltac:(lia) ltac:(lia)). lia.
Qed.

Lemma getStartOfMonth_le tza t : getStartOfMonth tza t <= t.
Proof.
  rewrite getStartOfMonth_eq.
  pose proof (monthStartDay_le (Day (t + tza))).
  pose proof (Day_decompose (t + tza)). pose proof (TimeWithinDay_bound (t + tza)).
  unfold msPerDay in *. lia.
Qed.

Lemma startOfWindow_le tza w t : startOfWindow tza w t <= t.
Proof.
  destruct w; simpl.
  - apply getStartOfDay_le.
  - apply getStartOfWeek_le.
  - apply getStartOfMonth_le.
Qed.

Lemma startOfWindow_mono tza w s t : s <= t -> startOfWindow tza w s <= startOfWindow tza w t.
Proof.
  destruct w; simpl.
  - apply getStartOfDay_mono.
  - apply getStartOfWeek_mono.
  - apply getStartOfMonth_mono.
Qed.

(** [yearFromDay] is the largest year that starts no later than the day, as
    ECMA-262 defines YearFromTime. *)
Lemma yearFromDay_unique d y :
  DayFromYear y <= d < DayFromYear (y + 1) -> yearFromDay d = y.
Proof.
  intros H. pose proof (yearFromDay_spec d) as S.
  destruct (Z.lt_trichotomy (yearFromDay d) y) as [L|[E|G]]; [exfalso|exact E|exfalso].
  - assert (DayFromYear (yearFromDay d + 1) <= DayFromYear y).
    { destruct (Z.eq_dec (yearFromDay d + 1) y) as [->|]; [lia|].
      apply Z.lt_le_incl, DayFromYear_lt. lia. }
    lia.
  - assert (DayFromYear (y + 1) <= DayFromYear (yearFromDay d)).
    { destruct (Z.eq_dec (y + 1) (yearFromDay d)) as [->|]; [lia|].
      apply Z.lt_le_incl, DayFromYear_lt. lia. }
    lia.
Qed.

Lemma yearFromDay_largest d y : DayFromYear y <= d -> y <= yearFromDay d.
Proof.
  intros H. pose proof (yearFromDay_spec d) as S.
  destruct (Z_le_gt_dec y (yearFromDay d)) as [|G]; [assumption|exfalso].
  assert (DayFromYear (yearFromDay d + 1) <= DayFromYear y).
  { destruct (Z.eq_dec (yearFromDay d + 1) y) as [->|]; [lia|].
    apply Z.lt_le_incl, DayFromYear_lt. lia. }
  lia.
Qed.

Lemma monthOfDay_range leap dwy : 0 <= monthOfDay leap dwy <= 11.
Proof.
  unfold monthOfDay.
  repeat match goal with
         | |- context [if ?c then _ else _] => destruct c
         end; lia.
Qed.

Lemma monthOfDay_monthStart leap m :
  0 <= leap <= 1 -> 0 <= m <= 11 -> monthOfDay leap (monthStart leap m) = m.
Proof.
  intros Hl Hm.
  assert (C : m = 0 \/ m = 1 \/ m = 2 \/ m = 3 \/ m = 4 \/ m = 5 \/ m = 6 \/
              m = 7 \/ m = 8 \/ m = 9 \/ m = 10 \/ m = 11) by lia.
  assert (L : leap = 0 \/ leap = 1) by lia.
  destruct L as [-> | ->];
    repeat (destruct C as [-> | C]; [reflexivity|]); subst m; reflexivity.
Qed.

Lemma monthStartDay_year d : yearFromDay (monthStartDay d) = yearFromDay d.
Proof.
  apply yearFromDay_unique.
  pose proof (yearFromDay_spec d) as S.
  pose proof (monthStartDay_le d) as L.
  unfold monthStartDay in *. cbv zeta in *.
  set (y := yearFromDay d) in *.
  set (leap := if DaysInYear y =? 366 then 1 else 0) in *.
  assert (0 <= leap <= 1) by (unfold leap; destruct (DaysInYear y =? 366); lia).
  pose proof (monthStart_bound leap (monthOfDay leap (d - DayFromYear y)) ltac:(lia)).
  lia.
Qed.

(** The first day of a month is the first day of its own month. *)
Lemma monthStartDay_idem d : monthStartDay (monthStartDay d) = monthStartDay d.
Proof.
  unfold monthStartDay at 1. cbv zeta. rewrite monthStartDay_year.
  unfold monthStartDay. cbv zeta.
  set (y := yearFromDay d).
  set (leap := if DaysInYear y =? 366 then 1 else 0).
  assert (0 <= leap <= 1) by (unfold leap; destruct (DaysInYear y =? 366); lia).
  replace (DayFromYear y + monthStart leap (monthOfDay leap (d - DayFromYear y))
           - DayFromYear y)
    with (monthStart leap (monthOfDay leap (d - DayFromYear y))) by lia.
  rewrite monthOfDay_monthStart; [reflexivity | lia | apply monthOfDay_range].
Qed.

Lemma getStartOfDay_idem tza t :
  getStartOfDay tza (getStartOfDay tza t) = getStartOfDay tza t.
Proof.
  rewrite (getStartOfDay_eq tza (getStartOfDay tza t)).
  rewrite getStartOfDay_eq, Day_of_midnight. reflexivity.
Qed.

Lemma getStartOfWeek_idem tza t :
  getStartOfWeek tza (getStartOfWeek tza t) = getStartOfWeek tza t.
Proof.
  rewrite (getStartOfWeek_floor tza (getStartOfWeek tza t)).
  rewrite getStartOfWeek_floor, Day_of_midnight.
  f_equal. f_equal. Z.div_mod_to_equations. lia.
Qed.

Lemma getStartOfMonth_idem tza t :
  getStartOfMonth tza (getStartOfMonth tza t) = getStartOfMonth tza t.
Proof.
  rewrite (getStartOfMonth_eq tza (getStartOfMonth tza t)).
  rewrite getStartOfMonth_eq, Day_of_midnight, monthStartDay_idem. reflexivity.
Qed.

Lemma startOfWindow_idem tza w t :
  startOfWindow tza w (startOfWindow tza w t) = startOfWindow tza w t.
Proof.
  destruct w; simpl.
  - apply getStartOfDay_idem.
  - apply getStartOfWeek_idem.
  - apply getStartOfMonth_idem.
Qed.

(** The instants from the start of a window up to [t] are in the window of
    [t]: they have the same start. *)
Lemma startOfWindow_same tza w t u :
  startOfWindow tza w t <= u <= t -> startOfWindow tza w u = startOfWindow tza w t.
Proof.
  intros [H1 H2].
  pose proof (startOfWindow_mono tza w _ _ H1) as M1.
  pose proof (startOfWindow_mono tza w _ _ H2) as M2.
  rewrite startOfWindow_idem in M1. lia.
Qed.

(** The month window starts on day 1 of the month and year of [t], at
    local midnight. *)
Lemma getStartOfMonth_first tza t :
  let s := LocalTime tza (getStartOfMonth tza t) in
  DateFromTime s = 1 /\
  MonthFromTime s = MonthFromTime (LocalTime tza t) /\
  YearFromTime s = YearFromTime (LocalTime tza t) /\
  TimeWithinDay s = 0.
Proof.
  cbv zeta. unfold LocalTime. rewrite getStartOfMonth_eq.
  assert (D : Day (monthStartDay (Day (t + tza)) * msPerDay - tza + tza)
              = monthStartDay (Day (t + tza))) by apply Day_of_midnight.
  assert (Y : YearFromTime (monthStartDay (Day (t + tza)) * msPerDay - tza + tza)
              = YearFromTime (t + tza)).
  { unfold YearFromTime. rewrite D. apply monthStartDay_year. }
  assert (M : MonthFromTime (monthStartDay (Day (t + tza)) * msPerDay - tza + tza)
              = MonthFromTime (t + tza)).
  { unfold MonthFromTime, InLeapYear, DayWithinYear. rewrite Y, D.
    unfold YearFromTime, monthStartDay. cbv zeta.
    set (y := yearFromDay (Day (t + tza))).
    set (leap := if DaysInYear y =? 366 then 1 else 0).
    assert (0 <= leap <= 1) by (unfold leap; destruct (DaysInYear y =? 366); lia).
    replace (DayFromYear y + monthStart leap (monthOfDay leap (Day (t + tza) - DayFromYear y))
             - DayFromYear y)
      with (monthStart leap (monthOfDay leap (Day (t + tza) - DayFromYear y))) by lia.
    rewrite monthOfDay_monthStart; [reflexivity | lia | apply monthOfDay_range]. }
  split; [|split; [exact M | split; [exact Y|]]].
  - unfold DateFromTime. rewrite M. unfold DayWithinYear, InLeapYear. rewrite Y, D.
    unfold MonthFromTime, InLeapYear, DayWithinYear, YearFromTime, monthStartDay.
    cbv zeta. lia.
  - unfold TimeWithinDay.
    replace (monthStartDay (Day (t + tza)) * msPerDay - tza + tza)
      with (monthStartDay (Day (t + tza)) * msPerDay) by lia.
    apply Z.mod_mul. unfold msPerDay. lia.
Qed.

(** C8. [getStartOfWeek] returns the Monday 00:00:00.000 (local time) of the
    week containing the instant [t]: the midnight that starts the day of [t],
    moved back by six days when [t] falls on a Sunday ([getDay] 0) and by
    [weekday - 1] days on every other weekday, which is no move at all on a
    Monday ([getDay] 1). *)
Theorem getStartOfWeek_is_monday_of_week :
  forall tza t,
    let w := getDay tza t in
    getStartOfWeek tza t
      = getStartOfDay tza t - (if w =? 0 then 6 else w - 1) * msPerDay /\
    getDay tza (getStartOfWeek tza t) = 1 /\
    TimeWithinDay (LocalTime tza (getStartOfWeek tza t)) = 0 /\
    getStartOfWeek tza t <= t < getStartOfWeek tza t + 7 * msPerDay.
Proof.
  intros tza t w.
  split; [|split; [|split]].
  - rewrite getStartOfWeek_eq, getStartOfDay_eq. fold w. unfold daysSinceMonday. lia.
  - apply getStartOfWeek_monday.
  - apply getStartOfWeek_midnight.
  - apply getStartOfWeek_le.
Qed.

Lemma checkGoalNeedsReset_window tza env goal :
  checkGoalNeedsReset tza env goal
  = match windowOf (type (goal_data goal)) with
    | Some w =>
        startOfWindow tza w (goal_lastReset goal)
        <? startOfWindow tza w (clientNow env)
    | None => false
    end.
Proof.
  unfold checkGoalNeedsReset, windowOf.
  destruct (type (goal_data goal)) as [ | | b | x | ty];
    [reflexivity | reflexivity | reflexivity | reflexivity | ].
  cbv zeta.
  destruct (String.eqb ty "daily"); [unfold startOfWindow; reflexivity|].
  destruct (String.eqb ty "weekly"); [unfold startOfWindow; reflexivity|].
  destruct (String.eqb ty "monthly"); [unfold startOfWindow|]; reflexivity.
Qed.

(** *** The window starts in the words of the specification *)

Import Stated.

Lemma getStartOfDay_stated tza t : startOfDayOf tza t (getStartOfDay tza t).
Proof.
  unfold startOfDayOf, atMidnight, LocalTime. rewrite getStartOfDay_eq.
  rewrite Day_of_midnight. split; [|reflexivity].
  unfold TimeWithinDay.
  replace (Day (t + tza) * msPerDay - tza + tza) with (Day (t + tza) * msPerDay) by lia.
  apply Z.mod_mul. unfold msPerDay. lia.
Qed.

Lemma startOfDayOf_unique tza t s : startOfDayOf tza t s -> s = getStartOfDay tza t.
Proof.
  unfold startOfDayOf, atMidnight, LocalTime. intros [M D].
  rewrite getStartOfDay_eq, <- D.
  pose proof (Day_decompose (s + tza)). lia.
Qed.

Lemma getDay_eq tza d : getDay tza d = WeekDay (LocalTime tza d).
Proof. reflexivity. Qed.

Lemma getStartOfWeek_stated tza t : startOfWeekOf tza t (getStartOfWeek tza t).
Proof.
  pose proof (getStartOfWeek_midnight tza t) as M.
  pose proof (getStartOfWeek_monday tza t) as W. rewrite getDay_eq in W.
  pose proof (getStartOfWeek_le tza t) as B.
  unfold startOfWeekOf, atMidnight. exact (conj M (conj W B)).
Qed.

Lemma startOfWeekOf_unique tza t s : startOfWeekOf tza t s -> s = getStartOfWeek tza t.
Proof.
  unfold startOfWeekOf, atMidnight, LocalTime, WeekDay. intros (M & W & B).
  rewrite getStartOfWeek_floor.
  pose proof (Day_decompose (s + tza)) as Ds.
  pose proof (Day_decompose (t + tza)) as Dt.
  pose proof (TimeWithinDay_bound (t + tza)) as Bt.
  rewrite M in Ds.
  generalize dependent (Day (s + tza)). generalize dependent (Day (t + tza)).
  generalize dependent (TimeWithinDay (t + tza)).
  intros r Br dt Dt ds W Ds. unfold msPerDay in *.
  assert (ds <= dt < ds + 7) by lia.
  assert (ds = 7 * ((dt + 3) / 7) - 3) by (Z.div_mod_to_equations; lia).
  lia.
Qed.

Lemma getStartOfMonth_stated tza t : startOfMonthOf tza t (getStartOfMonth tza t).
Proof.
  pose proof (getStartOfMonth_first tza t) as H. cbv zeta in H.
  destruct H as (D & M & Y & T).
  unfold startOfMonthOf, atMidnight. exact (conj T (conj D (conj M Y))).
Qed.

Lemma startOfMonthOf_unique tza t s : startOfMonthOf tza t s -> s = getStartOfMonth tza t.
Proof.
  unfold startOfMonthOf, atMidnight, LocalTime. intros (T & D & M & Y).
  rewrite getStartOfMonth_eq.
  pose proof (Day_decompose (s + tza)) as Ds. rewrite T in Ds.
  pose proof (monthStartDay_eq (s + tza)) as E. rewrite D in E.
  assert (E' : monthStartDay (Day (s + tza)) = monthStartDay (Day (t + tza))).
  { unfold monthStartDay. cbv zeta.
    unfold MonthFromTime, InLeapYear, DayWithinYear, YearFromTime in M, Y.
    rewrite Y in *. rewrite M. reflexivity. }
  lia.
Qed.

Lemma due_by_type tza env goal :
  let last := goal_lastReset goal in
  let now := clientNow env in
  let due := checkGoalNeedsReset tza env goal in
  (type (goal_data goal) = JStr "daily" ->
   due = (getStartOfDay tza last <? getStartOfDay tza now)) /\
  (type (goal_data goal) = JStr "weekly" ->
   due = (getStartOfWeek tza last <? getStartOfWeek tza now)) /\
  (type (goal_data goal) = JStr "monthly" ->
   due = (getStartOfMonth tza last <? getStartOfMonth tza now)) /\
  (type (goal_data goal) <> JStr "daily" ->
   type (goal_data goal) <> JStr "weekly" ->
   type (goal_data goal) <> JStr "monthly" ->
   due = false).
Proof.
  cbv zeta. unfold checkGoalNeedsReset.
  destruct (type (goal_data goal)) as [ | | b | x | ty];
    try (repeat split; intros; first [discriminate | reflexivity]).
  cbv zeta.
  destruct (String.eqb_spec ty "daily") as [->|N1].
  { repeat split; intros; first [reflexivity | discriminate | congruence]. }
  destruct (String.eqb_spec ty "weekly") as [->|N2].
  { repeat split; intros; first [reflexivity | discriminate | congruence]. }
  destruct (String.eqb_spec ty "monthly") as [->|N3].
  { repeat split; intros; first [reflexivity | discriminate | congruence]. }
  repeat split; intros; first [reflexivity | congruence].
Qed.

(** C2. A reset is due exactly when the start of the window of the goal's
    [lastReset] is strictly earlier than the start of the window of the
    current instant, the window being the local day for type [daily], the
    week from Monday for [weekly] and the calendar month for [monthly]; with
    any other type, or none, it is never due.  The start of a window is the
    instant the specification describes: local midnight of the same calendar
    day, Monday at local midnight with the instant in the seven days from it,
    local midnight of day 1 of the same month and year.  There is one such
    instant in each case. *)
Theorem checkGoalNeedsReset_iff_window_start_earlier :
  forall tza env goal,
    let last := goal_lastReset goal in
    let now := clientNow env in
    let due := checkGoalNeedsReset tza env goal in
    (type (goal_data goal) = JStr "daily" ->
     (exists a b, startOfDayOf tza last a /\ startOfDayOf tza now b) /\
     (forall a b, startOfDayOf tza last a -> startOfDayOf tza now b ->
                  (due = true <-> a < b))) /\
    (type (goal_data goal) = JStr "weekly" ->
     (exists a b, startOfWeekOf tza last a /\ startOfWeekOf tza now b) /\
     (forall a b, startOfWeekOf tza last a -> startOfWeekOf tza now b ->
                  (due = true <-> a < b))) /\
    (type (goal_data goal) = JStr "monthly" ->
     (exists a b, startOfMonthOf tza last a /\ startOfMonthOf tza now b) /\
     (forall a b, startOfMonthOf tza last a -> startOfMonthOf tza now b ->
                  (due = true <-> a < b))) /\
    (type (goal_data goal) <> JStr "daily" ->
     type (goal_data goal) <> JStr "weekly" ->
     type (goal_data goal) <> JStr "monthly" ->
     due = false).
Proof.
  intros tza env goal last now due.
  destruct (due_by_type tza env goal) as (Hd & Hw & Hm & Hn).
  fold last now due in Hd, Hw, Hm, Hn.
  split; [|split; [|split]].
  - intros E. split.
    + exists (getStartOfDay tza last), (getStartOfDay tza now).
      split; apply getStartOfDay_stated.
    + intros a b Ha Hb. apply startOfDayOf_unique in Ha, Hb. subst a b.
      rewrite (Hd E). apply Z.ltb_lt.
  - intros E. split.
    + exists (getStartOfWeek tza last), (getStartOfWeek tza now).
      split; apply getStartOfWeek_stated.
    + intros a b Ha Hb. apply startOfWeekOf_unique in Ha, Hb. subst a b.
      rewrite (Hw E). apply Z.ltb_lt.
  - intros E. split.
    + exists (getStartOfMonth tza last), (getStartOfMonth tza now).
      split; apply getStartOfMonth_stated.
    + intros a b Ha Hb. apply startOfMonthOf_unique in Ha, Hb. subst a b.
      rewrite (Hm E). apply Z.ltb_lt.
  - exact Hn.
Qed.

Example window_examples :
  windowOf (JStr "daily") = Some Daily /\ windowOf (JStr "weekly") = Some Weekly /\
  windowOf (JStr "monthly") = Some Monthly /\ windowOf (JStr "yearly") = None /\
  windowOf JUndefined = None /\ windowOf (JStr "Daily") = None.
Proof. repeat split. Qed.

(** ** The store *)

Lemma lookup_replace_same id d' s :
  lookup id (replace id d' s)
  = match lookup id s with Some _ => Some d' | None => None end.
Proof.
  induction s as [|[k d] s IH]; simpl; [reflexivity|].
  destruct (String.eqb_spec k id) as [E|N]; simpl.
  - rewrite (proj2 (String.eqb_eq k id) E). reflexivity.
  - rewrite (proj2 (String.eqb_neq k id) N). exact IH.
Qed.

Lemma lookup_replace_other id id' d' s :
  id' <> id -> lookup id' (replace id d' s) = lookup id' s.
Proof.
  intros N. induction s as [|[k d] s IH]; simpl; [reflexivity|].
  destruct (String.eqb_spec k id) as [E|N']; simpl.
  - subst k. rewrite (proj2 (String.eqb_neq id id')) by congruence. reflexivity.
  - destruct (String.eqb k id'); [reflexivity | exact IH].
Qed.

Lemma keys_replace id d' s : map fst (replace id d' s) = map fst s.
Proof.
  induction s as [|[k d] s IH]; simpl; [reflexivity|].
  destruct (String.eqb k id); simpl; [reflexivity | now rewrite IH].
Qed.

Lemma replace_lookup id d s : lookup id s = Some d -> replace id d s = s.
Proof.
  induction s as [|[k d0] s IH]; simpl; [reflexivity|].
  destruct (String.eqb k id); intros H.
  - now inversion H.
  - now rewrite IH.
Qed.

Lemma replace_replace id d1 d2 s : replace id d2 (replace id d1 s) = replace id d2 s.
Proof.
  induction s as [|[k d] s IH]; simpl; [reflexivity|].
  destruct (String.eqb k id) eqn:E; simpl; rewrite E; [reflexivity | now rewrite IH].
Qed.

Lemma lookup_Some_In id d s : lookup id s = Some d -> In (id, d) s.
Proof.
  induction s as [|[k d0] s IH]; simpl; [discriminate|].
  destruct (String.eqb_spec k id) as [E|N]; intros H.
  - inversion H. subst. now left.
  - right. now apply IH.
Qed.

Lemma lookup_None_notin id s : lookup id s = None -> ~ In id (map fst s).
Proof.
  induction s as [|[k d0] s IH]; simpl; [tauto|].
  destruct (String.eqb_spec k id) as [E|N]; [discriminate|].
  intros H [E|I]; [contradiction | now apply IH].
Qed.

Lemma In_lookup id d s : uniqueIds s -> In (id, d) s -> lookup id s = Some d.
Proof.
  unfold uniqueIds.
  induction s as [|[k d0] s IH]; simpl; [tauto|].
  intros U [E|I].
  - inversion E. subst. now rewrite String.eqb_refl.
  - inversion U as [|? ? Hn Hu]. subst.
    destruct (String.eqb_spec k id) as [E|N].
    + subst k. exfalso. apply Hn. apply (in_map fst) in I. exact I.
    + now apply IH.
Qed.

Lemma In_replace k d id d' s :
  In (k, d) (replace id d' s) -> In (k, d) s \/ (k = id /\ d = d').
Proof.
  induction s as [|[k0 d0] s IH]; simpl; [tauto|].
  destruct (String.eqb_spec k0 id) as [E|N]; simpl.
  - intros [H|H]; [inversion H; subst; now right | left; now right].
  - intros [H|H]; [left; now left|].
    destruct (IH H) as [H'|H']; [left; now right | now right].
Qed.

Lemma lookup_app_notin id pre suf :
  ~ In id (map fst pre) -> lookup id (pre ++ suf) = lookup id suf.
Proof.
  induction pre as [|[k d] pre IH]; simpl; [reflexivity|].
  intros H. destruct (String.eqb_spec k id) as [E|N]; [tauto|].
  apply IH. tauto.
Qed.

Lemma replace_app_notin id d' pre suf :
  ~ In id (map fst pre) -> replace id d' (pre ++ suf) = pre ++ replace id d' suf.
Proof.
  induction pre as [|[k d] pre IH]; simpl; [reflexivity|].
  intros H. destruct (String.eqb_spec k id) as [E|N]; [tauto|].
  rewrite IH by tauto. reflexivity.
Qed.

Lemma lookup_map_doc (F : string * GoalDoc -> GoalDoc) id d s :
  lookup id s = Some d ->
  lookup id (map (fun p => (fst p, F p)) s) = Some (F (id, d)).
Proof.
  induction s as [|[k d0] s IH]; simpl; [discriminate|].
  destruct (String.eqb_spec k id) as [E|N]; intros H.
  - inversion H. subst. reflexivity.
  - now apply IH.
Qed.

Lemma keys_map_doc (F : string * GoalDoc -> GoalDoc) s :
  map fst (map (fun p => (fst p, F p)) s) = map fst s.
Proof. rewrite map_map. reflexivity. Qed.

Lemma forallb_app_true {A} (f : A -> bool) l1 l2 :
  forallb f l1 = true -> forallb f l2 = true -> forallb f (l1 ++ l2) = true.
Proof. intros H1 H2. rewrite forallb_app, H1, H2. reflexivity. Qed.

Lemma state_eta st : {| docs := docs st; calls := calls st |} = st.
Proof. now destruct st. Qed.

(** ** Runs of the monad *)

Section Runs.

Context {A B : Type}.

Lemma bind_resolved (m : M A) (k : A -> M B) st a st' :
  m st = (Resolved a, st') -> bind m k st = k a st'.
Proof. intros H. unfold bind. now rewrite H. Qed.

Lemma bind_rejected (m : M A) (k : A -> M B) st e st' :
  m st = (Rejected e, st') -> bind m k st = (Rejected e, st').
Proof. intros H. unfold bind. now rewrite H. Qed.

Lemma settled_app (out : Outcome B) l1 l2 :
  forallb accepted l1 = true -> settled out l2 -> settled out (l1 ++ l2).
Proof.
  intros H1. destruct out as [b|e]; simpl.
  - intros H2. now apply forallb_app_true.
  - intros [He (l0 & id & data & E & H0)]. split; [exact He|].
    exists (l1 ++ l0), id, data. split.
    + rewrite E, app_assoc. reflexivity.
    + now apply forallb_app_true.
Qed.

Lemma Settles_ret env (a : A) : Settles env (ret a).
Proof.
  intros st. exists []. simpl. rewrite app_nil_r. repeat split.
Qed.

Lemma Settles_bind env (m : M A) (k : A -> M B) :
  Settles env m -> (forall a, Settles env (k a)) -> Settles env (bind m k).
Proof.
  intros Hm Hk st. unfold bind.
  destruct (Hm st) as (l1 & E1 & D1 & S1).
  destruct (m st) as [[a|e] st1]; simpl in *.
  - destruct (Hk a st1) as (l2 & E2 & D2 & S2).
    exists (l1 ++ l2). split; [|split].
    + rewrite E2, E1, app_assoc. reflexivity.
    + unfold replay in *. rewrite fold_left_app, <- D1. exact D2.
    + now apply settled_app.
  - exists l1. split; [exact E1 | split; [exact D1 | exact S1]].
Qed.

Lemma Preserves_ret (I : Store -> Prop) (a : A) : Preserves I (ret a).
Proof. intros st H. exact H. Qed.

Lemma Preserves_bind (I : Store -> Prop) (m : M A) (k : A -> M B) :
  Preserves I m -> (forall a, Preserves I (k a)) -> Preserves I (bind m k).
Proof.
  intros Hm Hk st H. unfold bind.
  specialize (Hm st H). destruct (m st) as [[a|e] st1]; simpl in *.
  - now apply Hk.
  - exact Hm.
Qed.

Lemma Spares_ret id (a : A) : Spares id (ret a).
Proof.
  intros st. split; [reflexivity|]. exists []. simpl. rewrite app_nil_r. now split.
Qed.

Lemma Spares_bind id (m : M A) (k : A -> M B) :
  Spares id m -> (forall a, Spares id (k a)) -> Spares id (bind m k).
Proof.
  intros Hm Hk st. unfold bind.
  destruct (Hm st) as (L1 & l1 & E1 & W1).
  destruct (m st) as [[a|e] st1]; simpl in *.
  - destruct (Hk a st1) as (L2 & l2 & E2 & W2). split.
    + now rewrite L2.
    + exists (l1 ++ l2). split.
      * rewrite E2, E1, app_assoc. reflexivity.
      * now apply forallb_app_true.
  - split; [exact L1|]. exists l1. now split.
Qed.

End Runs.

Lemma Settles_forOf {X} env (xs : list X) (body : X -> M unit) :
  (forall x, Settles env (body x)) -> Settles env (forOf xs body).
Proof.
  intros H. induction xs as [|x xs IH]; simpl.
  - apply Settles_ret.
  - apply Settles_bind; [apply H | intros _; exact IH].
Qed.

Lemma Preserves_forOf {X} (I : Store -> Prop) (xs : list X) (body : X -> M unit) :
  (forall x, In x xs -> Preserves I (body x)) -> Preserves I (forOf xs body).
Proof.
  induction xs as [|x xs IH]; intros H; simpl.
  - apply Preserves_ret.
  - apply Preserves_bind; [apply H; now left | intros _; apply IH].
    intros y Hy. apply H. now right.
Qed.

Lemma Spares_forOf {X} id (xs : list X) (body : X -> M unit) :
  (forall x, In x xs -> Spares id (body x)) -> Spares id (forOf xs body).
Proof.
  induction xs as [|x xs IH]; intros H; simpl.
  - apply Spares_ret.
  - apply Spares_bind; [apply H; now left | intros _; apply IH].
    intros y Hy. apply H. now right.
Qed.

(** *** Calls of the store *)

Lemma Settles_getDocs env : Settles env getDocs.
Proof. intros st. exists [GetDocs]. simpl. repeat split. Qed.

Lemma Settles_updateDoc env id data : Settles env (updateDoc env id data).
Proof.
  intros st. unfold updateDoc.
  destruct (lookup id (docs st)) as [d|] eqn:L;
    [destruct (writeFails env (List.length (calls st)))|]; simpl.
  - exists [UpdateDoc id data false]. split; [reflexivity|]. split; [reflexivity|].
    split; [reflexivity|]. exists [], id, data. now split.
  - exists [UpdateDoc id data true]. split; [reflexivity|]. split; [|reflexivity].
    simpl. now rewrite L.
  - exists [UpdateDoc id data false]. split; [reflexivity|]. split; [reflexivity|].
    split; [reflexivity|]. exists [], id, data. now split.
Qed.

Lemma Spares_getDocs id : Spares id getDocs.
Proof.
  intros st. simpl. split; [reflexivity|]. exists [GetDocs]. now split.
Qed.

Lemma Spares_updateDoc env id id' data :
  id' <> id -> Spares id (updateDoc env id' data).
Proof.
  intros N st. unfold updateDoc.
  assert (W : forall ok, forallb (fun c => negb (writesTo id c)) [UpdateDoc id' data ok] = true).
  { intros ok. simpl. rewrite (proj2 (String.eqb_neq id' id) N). reflexivity. }
  destruct (lookup id' (docs st)) as [d|];
    [destruct (writeFails env (List.length (calls st)))|]; simpl.
  - split; [reflexivity|]. eexists. split; [reflexivity | apply W].
  - split; [apply lookup_replace_other; congruence|].
    eexists. split; [reflexivity | apply W].
  - split; [reflexivity|]. eexists. split; [reflexivity | apply W].
Qed.

Lemma Preserves_getDocs (I : Store -> Prop) : Preserves I getDocs.
Proof. intros st H. exact H. Qed.

Lemma updateDoc_accepted env id data st d :
  noWriteFails env -> lookup id (docs st) = Some d ->
  updateDoc env id data st
  = (Resolved tt,
     {| docs := replace id (applyPatch env data d) (docs st);
        calls := calls st ++ [UpdateDoc id data true] |}).
Proof.
  intros F L. unfold updateDoc. now rewrite L, F.
Qed.

Lemma getGoals_signed_in {B} env uid (k : list Goal -> M B) st :
  currentUser env = Some uid ->
  bind (getGoals env) k st
  = k (map (goalOfDoc env) (docs st))
      {| docs := docs st; calls := calls st ++ [GetDocs] |}.
Proof. intros H. unfold getGoals. rewrite H. reflexivity. Qed.

Lemma getGoals_signed_out {B} env (k : list Goal -> M B) st :
  currentUser env = None -> bind (getGoals env) k st = k [] st.
Proof. intros H. unfold getGoals. rewrite H. reflexivity. Qed.

Create HintDb runs.

#[export] Hint Resolve Settles_ret Settles_bind Settles_forOf Settles_getDocs
  Settles_updateDoc Spares_ret Spares_bind Spares_getDocs Spares_updateDoc
  Preserves_ret Preserves_bind Preserves_getDocs : runs.

(** ** The loops of the engine when the store accepts every write *)

Section AcceptedRuns.

Variable LocalTZA : Z.
Variable NumberToString : spec_float -> string.
Variable env : Env.
Hypothesis accepts : noWriteFails env.

Lemma goal_id_own p : ownId p = true -> goal_id (goalOfDoc env p) = fst p.
Proof.
  unfold ownId, goalOfDoc. cbn [goal_id].
  destruct (id_field (snd p)) as [stored|]; [|reflexivity].
  intros H. now apply String.eqb_eq.
Qed.

(** A loop whose turn for a document rewrites that document and logs some
    calls does so for every document, in order. *)
Lemma forOf_run (body : Goal -> M unit)
    (h : string * GoalDoc -> GoalDoc) (w : string * GoalDoc -> list StoreCall) :
  (forall p st,
      ownId p = true ->
      lookup (fst p) (docs st) = Some (snd p) ->
      body (goalOfDoc env p) st
      = (Resolved tt,
         {| docs := replace (fst p) (h p) (docs st); calls := calls st ++ w p |})) ->
  forall suf pre cs,
    uniqueIds (pre ++ suf) ->
    (forall p, In p suf -> ownId p = true) ->
    forOf (map (goalOfDoc env) suf) body {| docs := pre ++ suf; calls := cs |}
    = (Resolved tt,
       {| docs := pre ++ map (fun p => (fst p, h p)) suf;
          calls := cs ++ flat_map w suf |}).
Proof.
  intros Hbody. induction suf as [|p suf IH]; intros pre cs U O; simpl.
  - unfold ret. now rewrite !app_nil_r.
  - assert (Hn : ~ In (fst p) (map fst pre)).
    { unfold uniqueIds in U. rewrite map_app in U. simpl in U.
      apply NoDup_remove_2 in U. intros HI. apply U, in_or_app. now left. }
    erewrite bind_resolved; cycle 1.
    { apply Hbody; [apply O; now left|].
      simpl. rewrite lookup_app_notin by exact Hn.
      destruct p as [k d]. simpl. now rewrite String.eqb_refl. }
    simpl. rewrite replace_app_notin by exact Hn.
    destruct p as [k d]. simpl. rewrite String.eqb_refl.
    change (pre ++ (k, h (k, d)) :: suf) with (pre ++ [(k, h (k, d))] ++ suf).
    rewrite app_assoc, IH.
    + rewrite <- !app_assoc. reflexivity.
    + unfold uniqueIds in *. rewrite <- app_assoc.
      rewrite map_app in *. exact U.
    + intros q Hq. apply O. now right.
Qed.

Lemma creditGoal_run uid amount category p st :
  currentUser env = Some uid ->
  ownId p = true ->
  lookup (fst p) (docs st) = Some (snd p) ->
  creditGoal LocalTZA NumberToString env amount
    (normalizeCategory NumberToString category) (goalOfDoc env p) st
  = (Resolved tt,
     {| docs := replace (fst p)
                  (creditedDoc LocalTZA NumberToString env amount category p) (docs st);
        calls := calls st
                 ++ creditCalls LocalTZA NumberToString env amount category p |}).
Proof.
  intros Hu Ho L. unfold creditGoal. rewrite (goal_id_own p Ho).
  destruct p as [k d]. simpl in L.
  unfold creditedDoc, creditCalls, sameCategory, newValue, resetDue.
  cbn [goal_data goalOfDoc fst snd].
  destruct (String.eqb _ _); cbn [negb].
  - unfold resetGoal, updateGoal. rewrite Hu.
    destruct (checkGoalNeedsReset LocalTZA env (goalOfDoc env (k, d))).
    + erewrite bind_resolved by (apply updateDoc_accepted; eassumption).
      erewrite bind_resolved; cycle 1.
      { erewrite bind_resolved; [reflexivity|].
        apply updateDoc_accepted; [exact accepts|].
        cbn [docs]. rewrite lookup_replace_same, L. reflexivity. }
      unfold ret. cbn [docs calls]. rewrite replace_replace, <- app_assoc. reflexivity.
    + erewrite bind_resolved by reflexivity.
      erewrite bind_resolved; cycle 1.
      { erewrite bind_resolved; [reflexivity|].
        apply updateDoc_accepted; eassumption. }
      reflexivity.
  - unfold ret. rewrite replace_lookup by exact L. rewrite app_nil_r.
    now rewrite state_eta.
Qed.

Lemma sweepGoal_run uid p st :
  currentUser env = Some uid ->
  ownId p = true ->
  lookup (fst p) (docs st) = Some (snd p) ->
  (if checkGoalNeedsReset LocalTZA env (goalOfDoc env p)
   then resetGoal env (goal_id (goalOfDoc env p)) else ret tt) st
  = (Resolved tt,
     {| docs := replace (fst p) (sweptDoc LocalTZA env p) (docs st);
        calls := calls st ++ sweepCalls LocalTZA env p |}).
Proof.
  intros Hu Ho L. rewrite (goal_id_own p Ho). unfold sweptDoc, sweepCalls, resetDue.
  destruct (checkGoalNeedsReset LocalTZA env (goalOfDoc env p)).
  - unfold resetGoal. rewrite Hu. apply updateDoc_accepted; assumption.
  - unfold ret. rewrite replace_lookup by exact L. rewrite app_nil_r.
    now rewrite state_eta.
Qed.

Lemma updateGoalsProgress_run uid amount category st :
  currentUser env = Some uid ->
  uniqueIds (docs st) ->
  ownIds (docs st) ->
  invalidCategory category = false ->
  invalidAmount amount = false ->
  updateGoalsProgress LocalTZA NumberToString env amount category st
  = (Resolved tt,
     {| docs := map (fun p => (fst p, creditedDoc LocalTZA NumberToString env amount category p))
                  (docs st);
        calls := calls st ++ GetDocs
                 :: flat_map (creditCalls LocalTZA NumberToString env amount category)
                      (docs st) |}).
Proof.
  intros Hu U O Hc Ha. unfold updateGoalsProgress. rewrite Hc, Ha.
  unfold getGoals. rewrite Hu.
  erewrite bind_resolved by (erewrite bind_resolved by reflexivity; reflexivity).
  pose proof (forOf_run _ (creditedDoc LocalTZA NumberToString env amount category)
                (creditCalls LocalTZA NumberToString env amount category)
                (fun p st' => creditGoal_run uid amount category p st' Hu)
                (docs st) [] (calls st ++ [GetDocs]) U O) as R.
  cbn [app] in R. etransitivity; [exact R|].
  rewrite <- app_assoc. reflexivity.
Qed.

Lemma checkAndResetGoals_run uid st :
  currentUser env = Some uid ->
  uniqueIds (docs st) ->
  ownIds (docs st) ->
  checkAndResetGoals LocalTZA env st
  = (Resolved tt,
     {| docs := map (fun p => (fst p, sweptDoc LocalTZA env p)) (docs st);
        calls := calls st ++ GetDocs :: flat_map (sweepCalls LocalTZA env) (docs st) |}).
Proof.
  intros Hu U O. unfold checkAndResetGoals, getGoals. rewrite Hu.
  erewrite bind_resolved by (erewrite bind_resolved by reflexivity; reflexivity).
  pose proof (forOf_run
                (fun goal => if checkGoalNeedsReset LocalTZA env goal
                             then resetGoal env (goal_id goal) else ret tt)
                (sweptDoc LocalTZA env) (sweepCalls LocalTZA env)
                (fun p st' => sweepGoal_run uid p st' Hu)
                (docs st) [] (calls st ++ [GetDocs]) U O) as R.
  cbn [app] in R. etransitivity; [exact R|].
  rewrite <- app_assoc. reflexivity.
Qed.

End AcceptedRuns.

(** ** Values *)

Lemma invalidAmount_number amount :
  invalidAmount amount = false -> exists a, amount = JNum a.
Proof. destruct amount; try discriminate. intros _. now eexists. Qed.

Lemma js_add_zero nts s a :
  invalidAmount (JNum a) = false ->
  js_add nts (JNum (S754_zero s)) (JNum a) = JNum a.
Proof. intros H. simpl. f_equal. now apply num_add_zero_l. Qed.

Lemma js_or_falsy v w : ToBoolean v = false -> js_or v w = w.
Proof. intros H. unfold js_or. now rewrite H. Qed.

Lemma js_or_number_add nts c a :
  num_isNaN c = false -> invalidAmount (JNum a) = false ->
  js_add nts (js_or (JNum c) (JNum num_zero)) (JNum a) = JNum (num_add c a).
Proof.
  intros Hc Ha. destruct c as [s|s| |s m e]; try discriminate Hc; try reflexivity.
  unfold js_or, num_zero. simpl ToBoolean. cbv iota.
  rewrite js_add_zero by exact Ha. f_equal. symmetry. now apply num_add_zero_l.
Qed.

Lemma invalidAmount_positiveNumber amount :
  invalidAmount amount = negb (positiveNumber amount).
Proof.
  destruct amount as [ | | b | x | s]; try reflexivity.
  destruct x as [[]|[]| |[] m e]; reflexivity.
Qed.

Lemma invalidCategory_nonEmptyString category :
  invalidCategory category = negb (nonEmptyString category).
Proof.
  destruct category as [ | | [] | x | s]; try reflexivity.
  - destruct x as [[]|[]| |[] m e]; reflexivity.
  - unfold invalidCategory. simpl. now rewrite orb_false_r.
Qed.

Lemma newValue_ok nts (amount goalCurrent : jsval) (due : bool) :
  invalidAmount amount = false ->
  match goalCurrent with JNum c => nonNegative c | _ => false end = true ->
  patchOk (accrual (js_add nts
                      (if due then JNum num_zero else js_or goalCurrent (JNum num_zero))
                      amount)) = true.
Proof.
  intros Ha Hc. destruct (invalidAmount_number _ Ha) as [a ->].
  destruct goalCurrent as [ | | b | c | s]; try discriminate Hc.
  assert (E : exists x,
             (if due then JNum num_zero else js_or (JNum c) (JNum num_zero)) = JNum x
             /\ nonNegative x = true).
  { destruct due; [now exists num_zero|].
    unfold js_or. destruct (ToBoolean (JNum c)); [now exists c | now exists num_zero]. }
  destruct E as (x & -> & Hx).
  unfold patchOk, accrual. cbn [set_current].
  change (js_add nts (JNum x) (JNum a)) with (JNum (num_add x a)).
  now apply num_add_nonneg.
Qed.

(** ** What every run of the engine keeps *)

Section Invariant.

Variable LocalTZA : Z.
Variable NumberToString : spec_float -> string.
Variable env : Env.
Variable s0 : Store.

Lemma applyPatch_lastReset p d :
  lastReset (applyPatch env p d) = lastReset d \/
  lastReset (applyPatch env p d) = Some (serverNow env).
Proof.
  unfold applyPatch. simpl. destruct (set_lastReset p) as [[]|]; auto.
Qed.

Lemma applyPatch_currentOk p d :
  patchOk p = true -> currentOk d = true -> currentOk (applyPatch env p d) = true.
Proof.
  unfold patchOk, currentOk, applyPatch. simpl.
  destruct (set_current p) as [v|]; [|auto].
  destruct v; try discriminate. auto.
Qed.

Lemma engineInv_replace s id d p :
  patchOk p = true -> lookup id s = Some d ->
  engineInv env s0 s -> engineInv env s0 (replace id (applyPatch env p d) s).
Proof.
  intros Hp L (I1 & I2 & I3).
  pose proof (lookup_Some_In _ _ _ L) as Hin.
  split; [|split].
  - intros k d' H. destruct (In_replace _ _ _ _ _ H) as [H'|[-> ->]].
    + exact (I1 _ _ H').
    + apply applyPatch_currentOk; [exact Hp | exact (I1 _ _ Hin)].
  - intros k d' t H E. destruct (In_replace _ _ _ _ _ H) as [H'|[-> ->]].
    + exact (I2 _ _ _ H' E).
    + destruct (applyPatch_lastReset p d) as [E'|E']; rewrite E' in E.
      * exact (I2 _ _ _ Hin E).
      * inversion E. lia.
  - intros k d1 d' H1 H2. destruct (String.eqb_spec k id) as [->|N].
    + rewrite lookup_replace_same, L in H2. inversion H2. subst d'.
      destruct (applyPatch_lastReset p d) as [E'|E']; [|now right].
      rewrite E'. exact (I3 _ _ _ H1 L).
    + rewrite lookup_replace_other in H2 by exact N. exact (I3 _ _ _ H1 H2).
Qed.

Lemma Preserves_updateDoc id p :
  patchOk p = true -> Preserves (engineInv env s0) (updateDoc env id p).
Proof.
  intros Hp st I. unfold updateDoc.
  destruct (lookup id (docs st)) as [d|] eqn:L;
    [destruct (writeFails env (List.length (calls st)))|]; simpl; try exact I.
  now apply engineInv_replace.
Qed.

Lemma Preserves_resetGoal id : Preserves (engineInv env s0) (resetGoal env id).
Proof.
  unfold resetGoal. destruct (currentUser env).
  - now apply Preserves_updateDoc.
  - apply Preserves_ret.
Qed.

Lemma Preserves_updateGoal id p :
  patchOk p = true -> Preserves (engineInv env s0) (updateGoal env id p).
Proof.
  intros Hp. unfold updateGoal. destruct (currentUser env).
  - apply Preserves_bind; [now apply Preserves_updateDoc | intros; apply Preserves_ret].
  - apply Preserves_ret.
Qed.

Lemma Preserves_creditGoal amount target goal :
  invalidAmount amount = false -> currentOk (goal_data goal) = true ->
  Preserves (engineInv env s0)
    (creditGoal LocalTZA NumberToString env amount target goal).
Proof.
  intros Ha Hg. unfold creditGoal.
  destruct (negb _); [apply Preserves_ret|].
  apply Preserves_bind.
  - destruct (checkGoalNeedsReset LocalTZA env goal);
      [apply Preserves_resetGoal | apply Preserves_ret].
  - intros _. apply Preserves_bind; [|intros; apply Preserves_ret].
    apply Preserves_updateGoal. apply newValue_ok; assumption.
Qed.

Lemma goals_currentOk s goal :
  allCurrentOk s -> In goal (map (goalOfDoc env) s) -> currentOk (goal_data goal) = true.
Proof.
  intros I H. apply in_map_iff in H. destruct H as ([k d] & <- & H).
  exact (I _ _ H).
Qed.

Lemma Preserves_updateGoalsProgress amount category :
  Preserves (engineInv env s0)
    (updateGoalsProgress LocalTZA NumberToString env amount category).
Proof.
  unfold updateGoalsProgress.
  destruct (invalidCategory category); [apply Preserves_ret|].
  destruct (invalidAmount amount) eqn:Ha; [apply Preserves_ret|].
  intros st I. unfold getGoals, bind at 1.
  destruct (currentUser env); simpl; [|exact I].
  apply (Preserves_forOf (engineInv env s0)); [|exact I].
  intros goal Hg. apply Preserves_creditGoal; [exact Ha|].
  eapply goals_currentOk; [exact (proj1 I) | exact Hg].
Qed.

Lemma Preserves_checkAndResetGoals :
  Preserves (engineInv env s0) (checkAndResetGoals LocalTZA env).
Proof.
  unfold checkAndResetGoals. apply Preserves_bind.
  - unfold getGoals. destruct (currentUser env); [|apply Preserves_ret].
    apply Preserves_bind; [apply Preserves_getDocs | intros; apply Preserves_ret].
  - intros goals. apply Preserves_forOf. intros goal _.
    destruct (checkGoalNeedsReset LocalTZA env goal);
      [apply Preserves_resetGoal | apply Preserves_ret].
Qed.

Lemma Preserves_addGoal goal : Preserves (engineInv env s0) (addGoal env goal).
Proof.
  intros st (I1 & I2 & I3). unfold addGoal.
  destruct (currentUser env); [|now repeat split].
  unfold bind, addDoc.
  destruct (writeFails env (List.length (calls st))); simpl; [now repeat split|].
  split; [|split].
  - intros k d [H|H]; [inversion H; reflexivity | exact (I1 _ _ H)].
  - intros k d t [H|H] E; [inversion H; subst; simpl in E; inversion E; lia|].
    exact (I2 _ _ _ H E).
  - intros k d d' H1 H2. simpl in H2.
    destruct (String.eqb (autoId env) k).
    + inversion H2. now right.
    + exact (I3 _ _ _ H1 H2).
Qed.

End Invariant.

Lemma engineInv_start env s :
  allCurrentOk s -> stampedBefore env s -> engineInv env s s.
Proof.
  intros I1 I2. split; [exact I1 | split; [exact I2|]].
  intros id d d' H1 H2. rewrite H1 in H2. inversion H2. now left.
Qed.

(** ** Goals a run leaves alone *)

Section Frame.

Variable LocalTZA : Z.
Variable NumberToString : spec_float -> string.
Variable env : Env.

Lemma Spares_resetGoal id goalId :
  goalId <> id -> Spares id (resetGoal env goalId).
Proof.
  intros N. unfold resetGoal. destruct (currentUser env); auto with runs.
Qed.

Lemma Spares_updateGoal id goalId data :
  goalId <> id -> Spares id (updateGoal env goalId data).
Proof.
  intros N. unfold updateGoal. destruct (currentUser env); auto with runs.
Qed.

Lemma Spares_getGoals id : Spares id (getGoals env).
Proof.
  unfold getGoals. destruct (currentUser env); auto with runs.
Qed.

(** A turn of the loop spares every document but the goal's own, and its
    own too when the categories differ. *)
Lemma Spares_creditGoal id amount category goal :
  (goal_id goal = id -> sameCategory NumberToString (goal_data goal) category = false) ->
  Spares id (creditGoal LocalTZA NumberToString env amount
               (normalizeCategory NumberToString category) goal).
Proof.
  intros H. unfold creditGoal.
  destruct (String.eqb _ _) eqn:E; cbn [negb]; [|apply Spares_ret].
  assert (N : goal_id goal <> id).
  { intros Hid. specialize (H Hid). unfold sameCategory in H. congruence. }
  apply Spares_bind.
  - destruct (checkGoalNeedsReset LocalTZA env goal);
      [now apply Spares_resetGoal | apply Spares_ret].
  - intros _. apply Spares_bind; [now apply Spares_updateGoal | intros; apply Spares_ret].
Qed.

(** The accrual call spares a document that no goal of the call's category
    addresses. *)
Lemma Spares_updateGoalsProgress id amount category st :
  (forall p, In p (docs st) -> goal_id (goalOfDoc env p) = id ->
             sameCategory NumberToString (snd p) category = false) ->
  let r := updateGoalsProgress LocalTZA NumberToString env amount category st in
  lookup id (docs (snd r)) = lookup id (docs st) /\
  exists l, calls (snd r) = calls st ++ l /\
            forallb (fun c => negb (writesTo id c)) l = true.
Proof.
  intros Hc. cbv zeta. unfold updateGoalsProgress.
  destruct (invalidCategory category); [apply Spares_ret|].
  destruct (invalidAmount amount); [apply Spares_ret|].
  destruct (currentUser env) as [uid|] eqn:Hu.
  - rewrite (getGoals_signed_in env uid) by exact Hu.
    match goal with
    | |- context [forOf ?xs ?body ?st'] =>
        destruct (Spares_forOf id xs body) with (st := st') as (L & l & E & W)
    end.
    { intros goal Hg. apply Spares_creditGoal. intros Hid.
      apply in_map_iff in Hg. destruct Hg as (p & <- & Hp).
      now apply Hc. }
    cbn [docs calls] in *. split; [exact L|].
    exists (GetDocs :: l). split.
    + rewrite E, <- app_assoc. reflexivity.
    + simpl. exact W.
  - rewrite getGoals_signed_out by exact Hu. apply (Spares_ret (A := unit)).
Qed.

(** Among documents addressed by their own ids, the only goal that
    addresses a document is the document's own. *)
Lemma own_address id d s p :
  uniqueIds s -> ownIds s -> In (id, d) s -> In p s ->
  goal_id (goalOfDoc env p) = id -> p = (id, d).
Proof.
  intros U O Hin Hp Hid. rewrite (goal_id_own env p (O p Hp)) in Hid.
  destruct p as [k d']. simpl in Hid. subst k.
  pose proof (In_lookup _ _ _ U Hin) as L1.
  pose proof (In_lookup _ _ _ U Hp) as L2.
  rewrite L1 in L2. now inversion L2.
Qed.

Lemma Spares_updateGoalsProgress_own id d amount category st :
  uniqueIds (docs st) -> ownIds (docs st) -> In (id, d) (docs st) ->
  sameCategory NumberToString d category = false ->
  let r := updateGoalsProgress LocalTZA NumberToString env amount category st in
  lookup id (docs (snd r)) = lookup id (docs st) /\
  exists l, calls (snd r) = calls st ++ l /\
            forallb (fun c => negb (writesTo id c)) l = true.
Proof.
  intros U O Hin Hc. apply Spares_updateGoalsProgress.
  intros p Hp Hid. rewrite (own_address id d (docs st) p U O Hin Hp Hid). exact Hc.
Qed.

(** The sweep spares a document that no goal addresses. *)
Lemma Spares_checkAndResetGoals id st :
  (forall p, In p (docs st) -> goal_id (goalOfDoc env p) <> id) ->
  let r := checkAndResetGoals LocalTZA env st in
  lookup id (docs (snd r)) = lookup id (docs st) /\
  exists l, calls (snd r) = calls st ++ l /\
            forallb (fun c => negb (writesTo id c)) l = true.
Proof.
  intros Hn. cbv zeta. unfold checkAndResetGoals.
  destruct (currentUser env) as [uid|] eqn:Hu.
  - rewrite (getGoals_signed_in env uid) by exact Hu.
    match goal with
    | |- context [forOf ?xs ?body ?st'] =>
        destruct (Spares_forOf id xs body) with (st := st') as (L & l & E & W)
    end.
    { intros goal Hg. apply in_map_iff in Hg. destruct Hg as (p & <- & Hp).
      destruct (checkGoalNeedsReset LocalTZA env (goalOfDoc env p));
        [apply Spares_resetGoal; now apply Hn | apply Spares_ret]. }
    cbn [docs calls] in *. split; [exact L|].
    exists (GetDocs :: l). split.
    + rewrite E, <- app_assoc. reflexivity.
    + simpl. exact W.
  - rewrite getGoals_signed_out by exact Hu. apply (Spares_ret (A := unit)).
Qed.

End Frame.

(** ** Trimming and lower-casing *)

Section Normal.

Import Validation.
Local Open Scope string_scope.

Lemma allIn_app p a b : allIn p (a ++ b) = allIn p a && allIn p b.
Proof. induction a as [|c a IH]; simpl; [reflexivity|]. rewrite IH. now destruct (p c). Qed.

Lemma isWhiteSpace_lowerChar c : isWhiteSpace (lowerChar c) = isWhiteSpace c.
Proof.
  destruct c as [[] [] [] [] [] [] [] []]; vm_compute; reflexivity.
Qed.

Lemma lowerOf_toLowerCase s : lowerOf s (toLowerCase s).
Proof. induction s as [|c s IH]; simpl; [exact I | now split]. Qed.

Lemma lowerOf_unique s t : lowerOf s t -> t = toLowerCase s.
Proof.
  revert t. induction s as [|c s IH]; intros [|b t]; simpl; try tauto.
  intros [-> H]. f_equal. now apply IH.
Qed.

Lemma trimStart_spaces l u :
  allIn isWhiteSpace l = true -> trimStart (l ++ u) = trimStart u.
Proof.
  induction l as [|c l IH]; simpl; [reflexivity|].
  intros H. apply andb_true_iff in H. destruct H as [Hc Hl].
  rewrite Hc. now apply IH.
Qed.

Lemma trimStart_split s :
  exists l, s = l ++ trimStart s /\ allIn isWhiteSpace l = true.
Proof.
  induction s as [|c s (l & E & H)]; simpl.
  - exists "". now split.
  - destruct (isWhiteSpace c) eqn:Hc.
    + exists (String c l). simpl. rewrite Hc, H. split; [now f_equal | reflexivity].
    + exists "". now split.
Qed.

Lemma trimStart_first s c r : trimStart s = String c r -> isWhiteSpace c = false.
Proof.
  induction s as [|a s IH]; simpl; [discriminate|].
  destruct (isWhiteSpace a) eqn:Ha; [exact IH|].
  intros E. inversion E. now subst.
Qed.

Lemma trimEnd_all_space r : allIn isWhiteSpace r = true -> trimEnd r = "".
Proof.
  induction r as [|c r IH]; simpl; [reflexivity|].
  intros H. apply andb_true_iff in H. destruct H as [Hc Hr].
  now rewrite (IH Hr), Hc.
Qed.

Lemma trimEnd_spaces u r :
  allIn isWhiteSpace r = true -> trimEnd (u ++ r) = trimEnd u.
Proof.
  intros H. induction u as [|c u IH]; simpl.
  - now apply trimEnd_all_space.
  - now rewrite IH.
Qed.

Lemma trimEnd_split u :
  exists r, u = trimEnd u ++ r /\ allIn isWhiteSpace r = true.
Proof.
  induction u as [|c u (r & E & H)]; simpl.
  - exists "". now split.
  - destruct (trimEnd u) as [|a w] eqn:T.
    + simpl in E. destruct (isWhiteSpace c) eqn:Hc.
      * exists (String c r). simpl. rewrite Hc, H. split; [now f_equal | reflexivity].
      * exists r. simpl. split; [now f_equal | exact H].
    + exists r. simpl. split; [|exact H]. f_equal. exact E.
Qed.

Lemma trimEnd_head u c r : trimEnd u = String c r -> exists r', u = String c r'.
Proof.
  destruct u as [|a u]; simpl; [discriminate|].
  destruct (trimEnd u) as [|b w].
  - destruct (isWhiteSpace a); [discriminate|]. intros E. inversion E. now eexists.
  - intros E. inversion E. now eexists.
Qed.

Lemma trimEnd_last u l c : trimEnd u = l ++ String c "" -> isWhiteSpace c = false.
Proof.
  revert l. induction u as [|a u IH]; intros l; simpl.
  - destruct l; discriminate.
  - destruct (trimEnd u) as [|b w] eqn:T.
    + destruct (isWhiteSpace a) eqn:Ha; [destruct l; discriminate|].
      destruct l as [|x l]; simpl; intros E; inversion E.
      * now subst.
      * destruct l; discriminate.
    + destruct l as [|x l]; simpl; intros E; inversion E.
      apply (IH l). assumption.
Qed.

Lemma trimEnd_kept t : (forall l c, t = l ++ String c "" -> isWhiteSpace c = false) ->
  trimEnd t = t.
Proof.
  induction t as [|a t IH]; intros H; [reflexivity|]. simpl.
  destruct t as [|b t].
  - simpl. rewrite (H "" a eq_refl). reflexivity.
  - rewrite IH.
    + reflexivity.
    + intros l c E. apply (H (String a l) c). simpl. now f_equal.
Qed.

Lemma noSpaceAtEnds_trim s : noSpaceAtEnds (trim s).
Proof.
  unfold trim. split.
  - intros c r E. destruct (trimEnd_head _ _ _ E) as (r' & E').
    now apply (trimStart_first s c r').
  - intros l c E. now apply (trimEnd_last _ _ _ E).
Qed.

Lemma append_assoc3 (a b c : string) : (a ++ b) ++ c = a ++ b ++ c.
Proof. induction a; simpl; congruence. Qed.

Lemma trimOf_trim s : trimOf s (trim s).
Proof.
  destruct (trimStart_split s) as (l & El & Hl).
  destruct (trimEnd_split (trimStart s)) as (r & Er & Hr).
  exists l, r. split; [|split; [exact Hl | split; [exact Hr | apply noSpaceAtEnds_trim]]].
  unfold trim. rewrite <- Er. exact El.
Qed.

Lemma trimOf_unique s t : trimOf s t -> t = trim s.
Proof.
  intros (l & r & -> & Hl & Hr & Hf & Hb). unfold trim.
  rewrite trimStart_spaces by exact Hl.
  destruct t as [|c t].
  - simpl. destruct (trimStart_split r) as (l' & E & _).
    assert (A : allIn isWhiteSpace (trimStart r) = true).
    { rewrite E in Hr. rewrite allIn_app in Hr. now apply andb_true_iff in Hr. }
    symmetry. now apply trimEnd_all_space.
  - assert (E : trimStart (String c t ++ r) = String c t ++ r).
    { simpl. now rewrite (Hf c t eq_refl). }
    rewrite E, trimEnd_spaces by exact Hr. symmetry. now apply trimEnd_kept.
Qed.

Lemma toLowerCase_trimStart s : toLowerCase (trimStart s) = trimStart (toLowerCase s).
Proof.
  induction s as [|c s IH]; simpl; [reflexivity|].
  rewrite isWhiteSpace_lowerChar. destruct (isWhiteSpace c); [exact IH | reflexivity].
Qed.

Lemma toLowerCase_trimEnd s : toLowerCase (trimEnd s) = trimEnd (toLowerCase s).
Proof.
  induction s as [|c s IH]; simpl; [reflexivity|].
  rewrite <- IH, isWhiteSpace_lowerChar.
  destruct (trimEnd s) as [|a w]; simpl.
  - destruct (isWhiteSpace c); reflexivity.
  - reflexivity.
Qed.

Lemma toLowerCase_trim s : toLowerCase (trim s) = trim (toLowerCase s).
Proof. unfold trim. now rewrite toLowerCase_trimEnd, toLowerCase_trimStart. Qed.

(** Trimming then lower-casing, as the specification has it, gives what the
    code computes by lower-casing then trimming. *)
Lemma normalOf_iff s t : normalOf s t <-> t = trim (toLowerCase s).
Proof.
  rewrite <- toLowerCase_trim. split.
  - intros (u & Hu & Ht). apply trimOf_unique in Hu. apply lowerOf_unique in Ht.
    now subst.
  - intros ->. exists (trim s). split; [apply trimOf_trim | apply lowerOf_toLowerCase].
Qed.

End Normal.

(** ** Properties of the accrual call and of the sweep *)

Section Accrual.

Variable LocalTZA : Z.
Variable NumberToString : spec_float -> string.

Lemma creditedDoc_lookup env uid amount category st id d :
  currentUser env = Some uid -> noWriteFails env ->
  uniqueIds (docs st) -> ownIds (docs st) ->
  invalidCategory category = false -> invalidAmount amount = false ->
  In (id, d) (docs st) ->
  let r := updateGoalsProgress LocalTZA NumberToString env amount category st in
  fst r = Resolved tt /\
  lookup id (docs (snd r))
  = Some (creditedDoc LocalTZA NumberToString env amount category (id, d)).
Proof.
  intros Hu Hf U O Hc Ha Hin. cbv zeta.
  rewrite (updateGoalsProgress_run LocalTZA NumberToString env Hf uid) by assumption.
  split; [reflexivity|]. cbn [snd docs].
  apply (lookup_map_doc (creditedDoc LocalTZA NumberToString env amount category)).
  now apply In_lookup.
Qed.

(** X27. Among goals that are addressed by the ids the store gave them,
    with valid inputs, a signed-in user and a store that accepts the writes,
    every goal whose normalized category is the call's ends as follows.  If a
    reset was due, [current] is exactly [amount] and [lastReset] is the stamp
    the store gave the call's reset.  If none was due, [lastReset] is
    unchanged and [current] is the old value (a falsy one read as 0) plus
    [amount]: [current + amount] for every old [current] that is a number
    other than NaN, and [amount] itself for one that is missing or otherwise
    falsy. *)
Theorem applyEarnings_end_state :
  forall env uid amount category st id d,
    currentUser env = Some uid -> noWriteFails env ->
    uniqueIds (docs st) -> ownIds (docs st) ->
    invalidCategory category = false -> invalidAmount amount = false ->
    In (id, d) (docs st) ->
    normalizeCategory NumberToString (js_or (Engine.category d) (JStr ""))
    = normalizeCategory NumberToString category ->
    let r := updateGoalsProgress LocalTZA NumberToString env amount category st in
    fst r = Resolved tt /\
    exists d',
      lookup id (docs (snd r)) = Some d' /\
      if resetDue LocalTZA env (id, d) then
        current d' = amount /\ lastReset d' = Some (serverNow env)
      else
        current d' = js_add NumberToString (js_or (current d) (JNum num_zero)) amount /\
        lastReset d' = lastReset d /\
        (forall c a, current d = JNum c -> amount = JNum a -> num_isNaN c = false ->
                     current d' = JNum (num_add c a)) /\
        (ToBoolean (current d) = false ->
         current d' = amount /\ typeof_is_number (current d') = true).
Proof.
  intros env uid amount category st id d Hu Hf U O Hc Ha Hin Hcat r.
  destruct (creditedDoc_lookup env uid amount category st id d Hu Hf U O Hc Ha Hin)
    as [Hr L].
  split; [exact Hr|]. eexists. split; [exact L|].
  unfold creditedDoc, sameCategory, newValue. cbn [fst snd].
  rewrite Hcat, String.eqb_refl.
  destruct (invalidAmount_number _ Ha) as [a0 ->].
  destruct (resetDue LocalTZA env (id, d)); cbn [applyPatch accrual current lastReset set_current
                                      set_lastReset resetData].
  - split; [now apply js_add_zero | reflexivity].
  - split; [reflexivity | split; [reflexivity | split]].
    + intros c a Ec Ea Hn. rewrite Ec. inversion Ea. subst a0.
      now apply js_or_number_add.
    + intros Hfalsy. rewrite js_or_falsy by exact Hfalsy.
      unfold num_zero. rewrite js_add_zero by exact Ha. now split.
Qed.

(** C3, as the code has it.  An amount that is not a number greater than
    zero (not a number at all, zero, negative, NaN) or a category that is not
    a non-empty string fails validation before any store call: the call
    resolves with the documents and the log of store calls as they were.
    [Infinity] is a number greater than zero and passes. *)
Theorem applyEarnings_rejects_invalid_input :
  forall env amount category st,
    positiveNumber amount = false \/ nonEmptyString category = false ->
    updateGoalsProgress LocalTZA NumberToString env amount category st
    = (Resolved tt, st).
Proof.
  intros env amount category st H. unfold updateGoalsProgress.
  rewrite invalidAmount_positiveNumber, invalidCategory_nonEmptyString.
  destruct (nonEmptyString category); [|reflexivity].
  destruct H as [H|H]; [rewrite H; reflexivity | discriminate].
Qed.

(** X29. The accrual call writes to a document only through a goal of the
    call's category that carries its id: a document that no such goal
    addresses keeps all its fields and no write is issued against it,
    whatever the inputs and whichever writes the store rejects.  Among goals
    addressed by the ids the store gave them this is every goal of another
    category. *)
Theorem applyEarnings_writes_only_addressed :
  forall env amount category st,
    let r := updateGoalsProgress LocalTZA NumberToString env amount category st in
    (forall id,
        (forall p, In p (docs st) -> goal_id (goalOfDoc env p) = id ->
                   sameCategory NumberToString (snd p) category = false) ->
        lookup id (docs (snd r)) = lookup id (docs st) /\
        exists l,
          calls (snd r) = calls st ++ l /\
          forallb (fun c => negb (writesTo id c)) l = true) /\
    (forall id d,
        uniqueIds (docs st) -> ownIds (docs st) -> In (id, d) (docs st) ->
        sameCategory NumberToString d category = false ->
        lookup id (docs (snd r)) = Some d /\
        exists l,
          calls (snd r) = calls st ++ l /\
          forallb (fun c => negb (writesTo id c)) l = true).
Proof.
  intros env amount category st r. split.
  - intros id H.
    exact (Spares_updateGoalsProgress LocalTZA NumberToString env id amount
             category st H).
  - intros id d U O Hin Hs.
    destruct (Spares_updateGoalsProgress_own LocalTZA NumberToString env id d amount
                category st U O Hin Hs) as [L W].
    split; [|exact W]. fold r in L. rewrite L. now apply In_lookup.
Qed.

Lemma In_creditCalls env amount category p c :
  In c (creditCalls LocalTZA NumberToString env amount category p) ->
  writesTo (fst p) c = true /\
  sameCategory NumberToString (snd p) category = true.
Proof.
  unfold creditCalls. destruct (sameCategory NumberToString (snd p) category); [|now simpl].
  intros H. split; [|reflexivity].
  apply in_app_or in H. destruct H as [H|[<-|[]]].
  - destruct (resetDue LocalTZA env p); [|now simpl in H].
    destruct H as [<-|[]]. simpl. apply String.eqb_refl.
  - simpl. apply String.eqb_refl.
Qed.

(** X28. Among goals addressed by the ids the store gave them, in a call
    that passes validation, with a signed-in user and a store that accepts
    the writes, a goal is credited (the accrual write [{ current: v }] is
    issued for it) exactly when its category and the call's category have the
    same text once the white space at both ends is removed and every capital
    letter is replaced by its small letter: an exact match of the two
    normalized texts, with no partial or prefix matching.  A goal without
    category counts as one of empty category. *)
Theorem applyEarnings_credits_iff_same_category :
  forall env uid amount category st id d,
    currentUser env = Some uid -> noWriteFails env ->
    uniqueIds (docs st) -> ownIds (docs st) ->
    invalidCategory category = false -> invalidAmount amount = false ->
    In (id, d) (docs st) ->
    let r := updateGoalsProgress LocalTZA NumberToString env amount category st in
    exists l,
      calls (snd r) = calls st ++ l /\
      ((exists v, In (UpdateDoc id (accrual v) true) l) <->
       (exists n,
           Stated.normalOf
             (js_String NumberToString (js_or (Engine.category d) (JStr ""))) n /\
           Stated.normalOf (js_String NumberToString category) n)).
Proof.
  intros env uid amount category st id d Hu Hf U O Hc Ha Hin r.
  unfold r. rewrite (updateGoalsProgress_run LocalTZA NumberToString env Hf uid) by assumption.
  cbn [snd calls]. eexists. split; [reflexivity|].
  assert (Hn : (exists n,
                   Stated.normalOf
                     (js_String NumberToString (js_or (Engine.category d) (JStr ""))) n /\
                   Stated.normalOf (js_String NumberToString category) n)
               <-> sameCategory NumberToString d category = true).
  { unfold sameCategory, normalizeCategory. rewrite String.eqb_eq. split.
    - intros (n & H1 & H2). apply normalOf_iff in H1, H2. congruence.
    - intros E. eexists. split; apply normalOf_iff; [reflexivity | now symmetry]. }
  rewrite Hn. split.
  - intros [v [H|H]]; [discriminate|].
    apply in_flat_map in H. destruct H as ([k d'] & Hk & H).
    apply In_creditCalls in H. destruct H as [Hw Hs]. cbn [fst snd] in *.
    simpl in Hw. apply String.eqb_eq in Hw. subst k.
    pose proof (In_lookup _ _ _ U Hin) as L1.
    pose proof (In_lookup _ _ _ U Hk) as L2.
    rewrite L1 in L2. inversion L2. subst d'. exact Hs.
  - intros Hs. exists (newValue LocalTZA NumberToString env amount (id, d)).
    right. apply in_flat_map. exists (id, d). split; [exact Hin|].
    unfold creditCalls. cbn [fst snd]. rewrite Hs. apply in_or_app. right. now left.
Qed.

Lemma Settles_updateGoalsProgress env amount category :
  Settles env (updateGoalsProgress LocalTZA NumberToString env amount category).
Proof.
  unfold updateGoalsProgress.
  destruct (invalidCategory category); [apply Settles_ret|].
  destruct (invalidAmount amount); [apply Settles_ret|].
  apply Settles_bind.
  - unfold getGoals. destruct (currentUser env); auto with runs.
  - intros goals. apply Settles_forOf. intros goal. unfold creditGoal.
    destruct (negb _); [apply Settles_ret|].
    apply Settles_bind.
    + unfold resetGoal.
      destruct (checkGoalNeedsReset LocalTZA env goal), (currentUser env);
        auto with runs.
    + intros _. unfold updateGoal. destruct (currentUser env); auto with runs.
Qed.

(** C6, as the code has it.  A rejected write ends the call.  Either the
    call resolves and the store accepted every call it made, or it is
    rejected with the store's error and the rejected write is the last store
    call it made: no goal after the failing one is processed.  In both cases
    the documents are what the accepted writes, replayed in order, make of
    them, so the goals credited before the failure keep their updates. *)
Theorem applyEarnings_stops_at_rejected_write :
  forall env amount category st,
    let r := updateGoalsProgress LocalTZA NumberToString env amount category st in
    exists l,
      calls (snd r) = calls st ++ l /\
      docs (snd r) = replay env l (docs st) /\
      ((fst r = Resolved tt /\ forallb accepted l = true) \/
       (fst r = Rejected StoreError /\
        exists l0 id data,
          l = l0 ++ [UpdateDoc id data false] /\ forallb accepted l0 = true)).
Proof.
  intros env amount category st r.
  destruct (Settles_updateGoalsProgress env amount category st) as (l & E & D & S).
  exists l. split; [exact E|]. split; [exact D|]. fold r in S.
  destruct (fst r) as [[]|e]; simpl in S.
  - left. now split.
  - right. destruct S as [-> S]. now split.
Qed.

(** *** The sweep *)

Lemma sweepCalls_filter env s :
  flat_map (sweepCalls LocalTZA env) s
  = map (fun p => UpdateDoc (fst p) resetData true) (filter (resetDue LocalTZA env) s).
Proof.
  induction s as [|p s IH]; simpl; [reflexivity|].
  unfold sweepCalls at 1. destruct (resetDue LocalTZA env p); simpl; now rewrite IH.
Qed.

Lemma sweepCalls_none env s :
  (forall p, In p s -> resetDue LocalTZA env p = false) ->
  flat_map (sweepCalls LocalTZA env) s = [].
Proof.
  induction s as [|p s IH]; intros H; simpl; [reflexivity|].
  unfold sweepCalls at 1. rewrite (H p) by now left.
  apply IH. intros q Hq. apply H. now right.
Qed.

(** Once reset at a stamp that lies in the current window of the client
    clock or later, a goal is not due at that reading of the clock. *)
Lemma resetDue_swept env p :
  stampInWindow LocalTZA env ->
  resetDue LocalTZA env (fst p, sweptDoc LocalTZA env p) = false.
Proof.
  intros Hclock. unfold sweptDoc.
  destruct (resetDue LocalTZA env p) eqn:Hd.
  - unfold resetDue. rewrite checkGoalNeedsReset_window.
    cbn [goalOfDoc goal_data goal_lastReset snd applyPatch type lastReset
           resetData set_lastReset].
    destruct (windowOf (type (snd p))) as [w|]; [|reflexivity].
    apply Z.ltb_ge. apply Hclock.
  - destruct p as [k d]. exact Hd.
Qed.

Lemma stampInWindow_ahead env :
  clientNow env <= serverNow env -> stampInWindow LocalTZA env.
Proof. intros H w. now apply startOfWindow_mono. Qed.

Lemma ownIds_map (F : string * GoalDoc -> GoalDoc) s :
  (forall p, id_field (F p) = id_field (snd p)) ->
  ownIds s -> ownIds (map (fun p => (fst p, F p)) s).
Proof.
  intros HF O q Hq. apply in_map_iff in Hq. destruct Hq as (p & <- & Hp).
  specialize (O p Hp). unfold ownId in *. cbn [fst snd]. now rewrite HF.
Qed.

(** C7, as the code has it.  For a signed-in user, a store that accepts
    the writes, goals addressed by the ids the store gave them and a stamp of
    the store that lies in the current day, week and month of the client
    clock or later, one sweep issues the reset write ([current] 0,
    [lastReset] the stamp of the store) for exactly the goals that were due,
    in order, after which no goal is due; a second sweep at the same instant
    only reads the goals and writes nothing. *)
Theorem sweepResets_idempotent :
  forall env uid st,
    currentUser env = Some uid -> noWriteFails env ->
    uniqueIds (docs st) -> ownIds (docs st) ->
    stampInWindow LocalTZA env ->
    let r1 := checkAndResetGoals LocalTZA env st in
    let r2 := checkAndResetGoals LocalTZA env (snd r1) in
    fst r1 = Resolved tt /\
    calls (snd r1)
    = calls st ++ GetDocs
      :: map (fun p => UpdateDoc (fst p) resetData true)
           (filter (resetDue LocalTZA env) (docs st)) /\
    docs (snd r1)
    = map (fun p => (fst p,
                     if resetDue LocalTZA env p
                     then applyPatch env resetData (snd p) else snd p))
        (docs st) /\
    (forall d, current (applyPatch env resetData d) = JNum num_zero /\
               lastReset (applyPatch env resetData d) = Some (serverNow env)) /\
    (forall p, In p (docs (snd r1)) -> resetDue LocalTZA env p = false) /\
    fst r2 = Resolved tt /\
    docs (snd r2) = docs (snd r1) /\
    calls (snd r2) = calls (snd r1) ++ [GetDocs].
Proof.
  intros env uid st Hu Hf U O Hclock r1 r2.
  assert (E1 : r1 = (Resolved tt,
                     {| docs := map (fun p => (fst p, sweptDoc LocalTZA env p)) (docs st);
                        calls := calls st ++ GetDocs
                                 :: flat_map (sweepCalls LocalTZA env) (docs st) |}))
    by (apply (checkAndResetGoals_run LocalTZA env Hf uid); assumption).
  assert (Hnone : forall p, In p (docs (snd r1)) -> resetDue LocalTZA env p = false).
  { intros p Hp. rewrite E1 in Hp. cbn [snd docs] in Hp.
    apply in_map_iff in Hp. destruct Hp as (q & <- & _). now apply resetDue_swept. }
  assert (U1 : uniqueIds (docs (snd r1))).
  { rewrite E1. cbn [snd docs]. unfold uniqueIds. now rewrite keys_map_doc. }
  assert (O1 : ownIds (docs (snd r1))).
  { rewrite E1. cbn [snd docs]. apply ownIds_map; [|exact O].
    intros p. unfold sweptDoc. now destruct (resetDue LocalTZA env p). }
  assert (E2 : r2 = (Resolved tt,
                     {| docs := docs (snd r1); calls := calls (snd r1) ++ [GetDocs] |})).
  { unfold r2. rewrite (checkAndResetGoals_run LocalTZA env Hf uid) by assumption.
    f_equal. f_equal.
    - rewrite <- (map_id (docs (snd r1))) at 2. apply map_ext_in.
      intros p Hp. unfold sweptDoc. rewrite (Hnone p Hp). now destruct p.
    - f_equal. f_equal. now apply sweepCalls_none. }
  rewrite E2. rewrite E1 at 1 2 3. cbn [fst snd docs calls].
  repeat split.
  - now rewrite sweepCalls_filter.
  - exact Hnone.
Qed.

(** C9. Every operation of the engine (creating a goal, an accrual call, an
    explicit reset, a sweep) keeps the invariant, whatever its outcome: from
    documents whose [current] is a number [>= 0] and whose [lastReset] is not
    ahead of the store's clock, it reaches documents of the same kind, and no
    document's [lastReset] is earlier after the operation than before. *)
Theorem engine_keeps_invariant :
  forall env op st,
    allCurrentOk (docs st) ->
    stampedBefore env (docs st) ->
    let st' := runOp LocalTZA NumberToString env op st in
    allCurrentOk (docs st') /\
    stampedBefore env (docs st') /\
    (forall id d d',
        lookup id (docs st) = Some d -> lookup id (docs st') = Some d' ->
        lastReset_le (lastReset d) (lastReset d')).
Proof.
  intros env op st I1 I2 st'.
  assert (I : engineInv env (docs st) (docs st')).
  { pose proof (engineInv_start env (docs st) I1 I2) as I0.
    unfold st', runOp. destruct op as [goal|amount category|goalId|].
    - now apply Preserves_addGoal.
    - now apply Preserves_updateGoalsProgress.
    - now apply Preserves_resetGoal.
    - now apply Preserves_checkAndResetGoals. }
  destruct I as (J1 & J2 & J3).
  split; [exact J1 | split; [exact J2|]].
  intros id d d' L L'.
  destruct (J3 id d d' L L') as [E|E]; rewrite E.
  - destruct (lastReset d); simpl; [lia | exact Logic.I].
  - destruct (lastReset d) as [t|] eqn:Et; simpl; [|exact Logic.I].
    exact (I2 id d t (lookup_Some_In _ _ _ L) Et).
Qed.

End Accrual.

(** ** The scenarios of the specification *)

Import Samples.
Local Open Scope string_scope.
Local Open Scope list_scope.

Lemma sampleStore_unique : uniqueIds (docs sampleStore).
Proof.
  unfold uniqueIds. simpl.
  repeat (constructor; [simpl; intuition discriminate|]). constructor.
Qed.

Lemma freshStore_unique : uniqueIds (docs freshStore).
Proof.
  unfold uniqueIds. simpl. constructor; [simpl; tauto | constructor].
Qed.

Lemma sampleStore_currentOk : allCurrentOk (docs sampleStore).
Proof.
  intros id d H. simpl in H.
  repeat (destruct H as [H|H]; [inversion H; reflexivity|]). contradiction.
Qed.

Lemma sampleStore_stamped : stampedBefore todayMorning (docs sampleStore).
Proof.
  intros id d t H E. simpl in H.
  repeat (destruct H as [H|H];
          [inversion H; subst; inversion E; subst; vm_compute; discriminate|]).
  contradiction.
Qed.

Lemma sampleStore_own : ownIds (docs sampleStore).
Proof.
  intros p H. simpl in H.
  repeat (destruct H as [H|H]; [subst p; reflexivity|]). contradiction.
Qed.

(** Accrual with no reset due, then reset-then-accrue: 50 + 20 = 70 on the
    same day with [lastReset] kept, and 20 with [lastReset] today 09:00 on the
    next day. *)
Lemma applyEarnings_end_state_witness :
  (let r := updateGoalsProgress tzBrasilia showNumber yesterdayAfternoon twenty
              (JStr "receita") sampleStore in
   fst r = Resolved tt /\
   exists d', lookup "a" (docs (snd r)) = Some d' /\
              current d' = JNum (num_of_Z 70) /\
              lastReset d' = Some (at_hour yesterday 10)) /\
  (let r := updateGoalsProgress tzBrasilia showNumber todayMorning twenty
              (JStr "receita") sampleStore in
   fst r = Resolved tt /\
   exists d', lookup "a" (docs (snd r)) = Some d' /\
              current d' = JNum (num_of_Z 20) /\
              lastReset d' = Some (at_hour today 9)).
Proof.
  split.
  - destruct (applyEarnings_end_state tzBrasilia showNumber yesterdayAfternoon "uid-1"
                twenty (JStr "receita") sampleStore "a" receita50
                eq_refl (fun _ => eq_refl) sampleStore_unique sampleStore_own
                eq_refl eq_refl (or_introl eq_refl) eq_refl) as [H1 (d' & L & H)].
    change (resetDue tzBrasilia yesterdayAfternoon ("a", receita50)) with false in H.
    cbv iota in H. destruct H as (Hc & Hl & _).
    split; [exact H1|]. exists d'. split; [exact L|]. split; [exact Hc | exact Hl].
  - destruct (applyEarnings_end_state tzBrasilia showNumber todayMorning "uid-1"
                twenty (JStr "receita") sampleStore "a" receita50
                eq_refl (fun _ => eq_refl) sampleStore_unique sampleStore_own
                eq_refl eq_refl (or_introl eq_refl) eq_refl) as [H1 (d' & L & H)].
    change (resetDue tzBrasilia todayMorning ("a", receita50)) with true in H.
    cbv iota in H. destruct H as (Hc & Hl).
    split; [exact H1|]. exists d'. split; [exact L|]. split; [exact Hc | exact Hl].
Defined.

(** The rejections of the specification: 0, -5, NaN and an empty category. *)
Lemma applyEarnings_rejects_invalid_input_witness :
  updateGoalsProgress tzBrasilia showNumber todayMorning (JNum (num_of_Z 0))
    (JStr "receita") sampleStore = (Resolved tt, sampleStore) /\
  updateGoalsProgress tzBrasilia showNumber todayMorning (JNum (SFopp (num_of_Z 5)))
    (JStr "receita") sampleStore = (Resolved tt, sampleStore) /\
  updateGoalsProgress tzBrasilia showNumber todayMorning (JNum S754_nan)
    (JStr "receita") sampleStore = (Resolved tt, sampleStore) /\
  updateGoalsProgress tzBrasilia showNumber todayMorning twenty
    (JStr "") sampleStore = (Resolved tt, sampleStore).
Proof.
  split; [|split; [|split]]; apply applyEarnings_rejects_invalid_input;
    [left | left | left | right]; reflexivity.
Defined.

(** [Infinity] is not a finite positive number, and yet the call goes to the
    store and credits the matching goals with it. *)
Lemma applyEarnings_accepts_infinity :
  finitePositive (JNum num_infinity) = false /\
  let r := updateGoalsProgress tzBrasilia showNumber yesterdayAfternoon
             (JNum num_infinity) (JStr "receita") sampleStore in
  r <> (Resolved tt, sampleStore) /\
  calls (snd r)
  = [GetDocs;
     UpdateDoc "a" (accrual (JNum num_infinity)) true;
     UpdateDoc "c" (accrual (JNum num_infinity)) true] /\
  option_map current (lookup "a" (docs (snd r))) = Some (JNum num_infinity).
Proof.
  split; [reflexivity|]. cbv zeta. split; [|split].
  - vm_compute. discriminate.
  - vm_compute. reflexivity.
  - vm_compute. reflexivity.
Qed.

(** The goal of category ["km"] when earnings of category ["receita"] come
    in, even as the store rejects a write. *)
Lemma applyEarnings_writes_only_addressed_witness :
  let r := updateGoalsProgress tzBrasilia showNumber
             (envAt (at_hour today 9) (failsAt 2)) twenty (JStr "receita") sampleStore in
  lookup "b" (docs (snd r)) = Some km50 /\
  exists l,
    calls (snd r) = calls sampleStore ++ l /\
    forallb (fun c => negb (writesTo "b" c)) l = true.
Proof.
  apply (proj2 (applyEarnings_writes_only_addressed tzBrasilia showNumber
                  (envAt (at_hour today 9) (failsAt 2)) twenty (JStr "receita")
                  sampleStore) "b" km50).
  - exact sampleStore_unique.
  - exact sampleStore_own.
  - simpl. right. now left.
  - reflexivity.
Defined.

(** The goal of category ["Receita "] and a call of category ["receita"]:
    both texts normalize to ["receita"]. *)
Lemma applyEarnings_credits_iff_same_category_witness :
  let r := updateGoalsProgress tzBrasilia showNumber todayMorning twenty
             (JStr "receita") sampleStore in
  exists l,
    calls (snd r) = calls sampleStore ++ l /\
    exists v, In (UpdateDoc "a" (accrual v) true) l.
Proof.
  destruct (applyEarnings_credits_iff_same_category tzBrasilia showNumber todayMorning
              "uid-1" twenty (JStr "receita") sampleStore "a" receita50
              eq_refl (fun _ => eq_refl) sampleStore_unique sampleStore_own
              eq_refl eq_refl (or_introl eq_refl)) as (l & E & H).
  exists l. split; [exact E|]. apply H. exists "receita".
  split; apply normalOf_iff; reflexivity.
Defined.

(** The daily goal "a", last reset on Saturday at 10:00, on Sunday at 09:00:
    Saturday 00:00 is earlier than Sunday 00:00 and the reset is due. *)
Lemma checkGoalNeedsReset_iff_window_start_earlier_witness :
  checkGoalNeedsReset tzBrasilia todayMorning (goalOfDoc todayMorning ("a", receita50))
  = true
  <-> at_hour yesterday 0 < at_hour today 0.
Proof.
  apply (proj2 (proj1 (checkGoalNeedsReset_iff_window_start_earlier tzBrasilia
                         todayMorning (goalOfDoc todayMorning ("a", receita50)))
                  eq_refl)).
  - split; vm_compute; reflexivity.
  - split; vm_compute; reflexivity.
Defined.

(** The store rejects the write for goal "a"; goal "c" matches as well and
    is left as it was, and the call is rejected, not resolved. *)
Lemma applyEarnings_halts_on_rejected_write :
  let env := envAt (at_hour yesterday 15) (failsAt 1) in
  let r := updateGoalsProgress tzBrasilia showNumber env twenty
             (JStr "receita") sampleStore in
  sameCategory showNumber receita7 (JStr "receita") = true /\
  In ("c", receita7) (docs sampleStore) /\
  fst r = Rejected StoreError /\
  docs (snd r) = docs sampleStore /\
  calls (snd r) = [GetDocs; UpdateDoc "a" (accrual (JNum (num_of_Z 70))) false].
Proof.
  cbv zeta. split; [reflexivity|]. split; [simpl; tauto|].
  split; [|split]; vm_compute; reflexivity.
Qed.

(** The sample goals were last reset yesterday: the sweep of this morning,
    stamped by a store two minutes ahead, resets the three of them, and a
    second one nothing. *)
Lemma sweepResets_idempotent_witness :
  let r1 := checkAndResetGoals tzBrasilia storeAhead sampleStore in
  let r2 := checkAndResetGoals tzBrasilia storeAhead (snd r1) in
  calls (snd r1)
  = [GetDocs; UpdateDoc "a" resetData true; UpdateDoc "b" resetData true;
     UpdateDoc "c" resetData true] /\
  docs (snd r2) = docs (snd r1) /\
  calls (snd r2) = calls (snd r1) ++ [GetDocs].
Proof.
  destruct (sweepResets_idempotent tzBrasilia storeAhead "uid-1" sampleStore
              eq_refl (fun _ => eq_refl) sampleStore_unique sampleStore_own
              (stampInWindow_ahead tzBrasilia storeAhead
                 ltac:(vm_compute; discriminate)))
    as (_ & C1 & _ & _ & _ & _ & D2 & C2).
  split; [|split; [exact D2 | exact C2]].
  rewrite C1. vm_compute. reflexivity.
Defined.

(** The client clock reads five minutes past midnight and the store stamps
    the reset two minutes before midnight: the goals reset by the first sweep
    carry a [lastReset] of the day before, so the second sweep at the same
    instant finds the three of them due and resets them again. *)
Lemma sweepResets_repeats_when_stamp_is_behind :
  let r1 := checkAndResetGoals tzBrasilia skewedMidnight sampleStore in
  let r2 := checkAndResetGoals tzBrasilia skewedMidnight (snd r1) in
  fst r1 = Resolved tt /\
  calls (snd r1)
  = [GetDocs; UpdateDoc "a" resetData true; UpdateDoc "b" resetData true;
     UpdateDoc "c" resetData true] /\
  filter (resetDue tzBrasilia skewedMidnight) (docs (snd r1)) = docs (snd r1) /\
  calls (snd r2)
  = calls (snd r1)
    ++ [GetDocs; UpdateDoc "a" resetData true; UpdateDoc "b" resetData true;
        UpdateDoc "c" resetData true] /\
  calls (snd r2) <> calls (snd r1) ++ [GetDocs].
Proof.
  cbv zeta. split; [|split; [|split; [|split]]]; try (vm_compute; reflexivity).
  vm_compute. discriminate.
Qed.

(** *** A goal with an [id] field of its own *)

(** C1.  The end state the specification gives a matching goal is not
    reached by a goal that was imported from an export.  The document
    [addGoal] stores for it carries the [id] of the goal it was exported
    from, [getGoals] hands that id out, and both writes of the accrual call
    go to the other document.  With no reset due the imported goal keeps
    [current] 0 where 0 + 20 = 20 is due to it; with a reset due it keeps its
    [lastReset] as well. *)
Theorem applyEarnings_misses_imported_goal :
  docs importedStore = ("new", copyOf exportedA) :: docs sampleStore /\
  sameCategory showNumber (copyOf exportedA) (JStr "receita") = true /\
  (let r := updateGoalsProgress tzBrasilia showNumber yesterdayAfternoon twenty
              (JStr "receita") importedStore in
   resetDue tzBrasilia yesterdayAfternoon ("new", copyOf exportedA) = false /\
   fst r = Resolved tt /\
   lookup "new" (docs (snd r)) = Some (copyOf exportedA) /\
   option_map current (lookup "new" (docs (snd r))) = Some (JNum num_zero) /\
   calls (snd r)
   = calls importedStore
     ++ [GetDocs;
         UpdateDoc "a" (accrual twenty) true;
         UpdateDoc "a" (accrual (JNum (num_of_Z 70))) true;
         UpdateDoc "c" (accrual (JNum (num_of_Z 27))) true]) /\
  (let r := updateGoalsProgress tzBrasilia showNumber todayMorning twenty
              (JStr "receita") importedStore in
   resetDue tzBrasilia todayMorning ("new", copyOf exportedA) = true /\
   fst r = Resolved tt /\
   lookup "new" (docs (snd r)) = Some (copyOf exportedA) /\
   option_map lastReset (lookup "new" (docs (snd r)))
   = Some (Some (at_hour yesterday 12))).
Proof.
  cbv zeta. repeat split; vm_compute; reflexivity.
Qed.

(** C10.  A matching goal whose [current] is falsy does not get the amount
    when it was imported into an account that does not hold the goal it was
    exported from.  Its [current] is 0 and no reset is due, and the accrual
    call is rejected, though the store fails no write: the write goes to the
    [id] the document carries, which names no document.  The goal keeps
    [current] 0. *)
Theorem applyEarnings_rejected_for_imported_goal :
  docs importedAlone = [("new", copyOf exportedA)] /\
  sameCategory showNumber (copyOf exportedA) (JStr "receita") = true /\
  ToBoolean (current (copyOf exportedA)) = false /\
  resetDue tzBrasilia yesterdayAfternoon ("new", copyOf exportedA) = false /\
  noWriteFails yesterdayAfternoon /\
  let r := updateGoalsProgress tzBrasilia showNumber yesterdayAfternoon twenty
             (JStr "receita") importedAlone in
  fst r = Rejected StoreError /\
  docs (snd r) = docs importedAlone /\
  calls (snd r)
  = calls importedAlone ++ [GetDocs; UpdateDoc "a" (accrual twenty) false].
Proof.
  cbv zeta. split; [|split; [|split; [|split; [|split]]]].
  1-4: vm_compute; reflexivity.
  - intros n. reflexivity.
  - repeat split; vm_compute; reflexivity.
Qed.

(** C5.  A goal of another category is written when a goal of the call's
    category carries its id.  Goal "b" has category ["km"]; the goal
    imported from the export of "b", with its category changed to
    ["receita"] in the file, carries the [id] "b".  A call of category
    ["receita"] then writes 20 over the 50 of goal "b". *)
Theorem applyEarnings_writes_goal_of_other_category :
  docs crossedStore = ("new", copyOf exportedB) :: docs sampleStore /\
  lookup "b" (docs crossedStore) = Some km50 /\
  sameCategory showNumber km50 (JStr "receita") = false /\
  let r := updateGoalsProgress tzBrasilia showNumber yesterdayAfternoon twenty
             (JStr "receita") crossedStore in
  fst r = Resolved tt /\
  lookup "b" (docs (snd r)) <> Some km50 /\
  option_map current (lookup "b" (docs (snd r))) = Some twenty /\
  In (UpdateDoc "b" (accrual twenty) true) (calls (snd r)).
Proof.
  cbv zeta. split; [|split; [|split; [|split; [|split; [|split]]]]];
    try (vm_compute; reflexivity).
  - vm_compute. discriminate.
  - vm_compute. tauto.
Qed.

(** C4.  Whether a goal is credited follows the [id] its document carries,
    not its category alone.  The imported copy of goal "a" has the call's
    category and no write is issued for it; goal "b" of category ["km"] is
    credited by a call of category ["receita"] made on the store that holds
    the recategorized copy of it. *)
Theorem applyEarnings_credit_follows_id_field :
  (let r := updateGoalsProgress tzBrasilia showNumber yesterdayAfternoon twenty
              (JStr "receita") importedStore in
   normalizeCategory showNumber (js_or (category (copyOf exportedA)) (JStr ""))
   = normalizeCategory showNumber (JStr "receita") /\
   lookup "new" (docs importedStore) = Some (copyOf exportedA) /\
   fst r = Resolved tt /\
   forallb (fun c => negb (writesTo "new" c))
     (skipn (List.length (calls importedStore)) (calls (snd r))) = true) /\
  (let r := updateGoalsProgress tzBrasilia showNumber yesterdayAfternoon twenty
              (JStr "receita") crossedStore in
   normalizeCategory showNumber (js_or (category km50) (JStr ""))
   <> normalizeCategory showNumber (JStr "receita") /\
   lookup "b" (docs crossedStore) = Some km50 /\
   fst r = Resolved tt /\
   In (UpdateDoc "b" (accrual twenty) true)
     (skipn (List.length (calls crossedStore)) (calls (snd r)))).
Proof.
  cbv zeta. split; (split; [|split; [|split]]); try (vm_compute; reflexivity).
  - vm_compute. discriminate.
  - vm_compute. tauto.
Qed.

Lemma engine_keeps_invariant_witness :
  let st' := runOp tzBrasilia showNumber todayMorning
               (ApplyEarnings twenty (JStr "receita")) sampleStore in
  allCurrentOk (docs st') /\
  stampedBefore todayMorning (docs st') /\
  (forall id d d',
      lookup id (docs sampleStore) = Some d -> lookup id (docs st') = Some d' ->
      lastReset_le (lastReset d) (lastReset d')).
Proof.
  apply (engine_keeps_invariant tzBrasilia showNumber todayMorning
           (ApplyEarnings twenty (JStr "receita")) sampleStore).
  - exact sampleStore_currentOk.
  - exact sampleStore_stamped.
Defined.

(** ** The end of the day, of the week and of the month *)

Import DateEnds.
Local Open Scope Z_scope.

Lemma setHours_last tza d :
  setHours tza d 23 59 59 999 = Day (d + tza) * msPerDay + (msPerDay - 1) - tza.
Proof. unfold setHours, UTC, MakeDate, MakeTime, LocalTime. reflexivity. Qed.

Lemma Day_shift d r tza :
  0 <= r < msPerDay -> Day (d * msPerDay + r - tza + tza) = d.
Proof.
  intros H. replace (d * msPerDay + r - tza + tza) with (MakeDate d r)
    by (unfold MakeDate; lia).
  now apply Day_MakeDate.
Qed.

Lemma getEndOfDay_eq tza t :
  getEndOfDay tza t = getStartOfDay tza t + msPerDay - 1.
Proof.
  unfold getEndOfDay. rewrite setHours_last, getStartOfDay_eq. lia.
Qed.

(** X1. [getEndOfDay] returns the last millisecond of the local day of the
    instant: one day minus a millisecond after [getStartOfDay], not before the
    instant, in the same day, and followed by the start of a day. *)
Theorem getEndOfDay_last_millisecond :
  forall tza t,
    getEndOfDay tza t = getStartOfDay tza t + msPerDay - 1 /\
    t <= getEndOfDay tza t /\
    getStartOfDay tza (getEndOfDay tza t) = getStartOfDay tza t /\
    getStartOfDay tza (getEndOfDay tza t + 1) = getEndOfDay tza t + 1.
Proof.
  intros tza t. pose proof (getStartOfDay_le tza t) as L.
  rewrite getEndOfDay_eq. split; [reflexivity|]. split; [lia|]. split.
  - rewrite (getStartOfDay_eq tza (_ + _ - _)), (getStartOfDay_eq tza t).
    replace (Day (t + tza) * msPerDay - tza + msPerDay - 1 + tza)
      with (Day (t + tza) * msPerDay + (msPerDay - 1) - tza + tza) by lia.
    rewrite Day_shift by (unfold msPerDay; lia). reflexivity.
  - rewrite (getStartOfDay_eq tza (_ + 1)), (getStartOfDay_eq tza t).
    replace (Day (t + tza) * msPerDay - tza + msPerDay - 1 + 1 + tza)
      with ((Day (t + tza) + 1) * msPerDay + 0 - tza + tza) by lia.
    rewrite Day_shift by (unfold msPerDay; lia). lia.
Qed.

Lemma getEndOfWeek_eq tza t :
  getEndOfWeek tza t = getStartOfWeek tza t + 7 * msPerDay - 1.
Proof.
  unfold getEndOfWeek. cbv zeta.
  rewrite setHours_last, setDate_shift, getStartOfWeek_eq.
  rewrite Day_shift by apply TimeWithinDay_bound.
  unfold daysSinceMonday.
  assert (R : 0 <= getDay tza t < 7)
    by (unfold getDay, WeekDay; apply Z.mod_pos_bound; lia).
  destruct (Z.eqb_spec (getDay tza t) 0) as [E|N]; unfold msPerDay; lia.
Qed.

(** X2. [getEndOfWeek] returns Sunday 23:59:59.999 of the week that
    [getStartOfWeek] starts on Monday: seven days minus a millisecond after
    it, on a Sunday ([getDay] 0), not before the instant, and followed by the
    start of a week. *)
Theorem getEndOfWeek_last_millisecond :
  forall tza t,
    getEndOfWeek tza t = getStartOfWeek tza t + 7 * msPerDay - 1 /\
    getDay tza (getEndOfWeek tza t) = 0 /\
    t <= getEndOfWeek tza t /\
    getStartOfWeek tza (getEndOfWeek tza t) = getStartOfWeek tza t /\
    getStartOfWeek tza (getEndOfWeek tza t + 1) = getEndOfWeek tza t + 1.
Proof.
  intros tza t. pose proof (getStartOfWeek_le tza t) as L.
  rewrite getEndOfWeek_eq. split; [reflexivity|].
  assert (F : getStartOfWeek tza t
              = (7 * ((Day (t + tza) + 3) / 7) - 3) * msPerDay - tza)
    by apply getStartOfWeek_floor.
  set (q := (Day (t + tza) + 3) / 7) in *.
  assert (D1 : Day (getStartOfWeek tza t + 7 * msPerDay - 1 + tza) = 7 * q + 3).
  { rewrite F.
    replace ((7 * q - 3) * msPerDay - tza + 7 * msPerDay - 1 + tza)
      with ((7 * q + 3) * msPerDay + (msPerDay - 1) - tza + tza) by lia.
    apply Day_shift. unfold msPerDay. lia. }
  assert (D2 : Day (getStartOfWeek tza t + 7 * msPerDay - 1 + 1 + tza) = 7 * q + 4).
  { rewrite F.
    replace ((7 * q - 3) * msPerDay - tza + 7 * msPerDay - 1 + 1 + tza)
      with ((7 * q + 4) * msPerDay + 0 - tza + tza) by lia.
    apply Day_shift. unfold msPerDay. lia. }
  split; [|split; [lia|split]].
  - unfold getDay, WeekDay, LocalTime. rewrite D1. Z.div_mod_to_equations. lia.
  - rewrite (getStartOfWeek_floor tza (_ + _ - _)), D1, F.
    f_equal. f_equal. Z.div_mod_to_equations. lia.
  - rewrite (getStartOfWeek_floor tza (_ + 1)), D2, F.
    replace ((7 * q + 4 + 3) / 7) with (q + 1) by (Z.div_mod_to_equations; lia).
    lia.
Qed.


Lemma leapOf_range y : 0 <= leapOf y <= 1.
Proof. unfold leapOf. destruct (DaysInYear y =? 366); lia. Qed.

Lemma DaysInYear_leapOf y : DaysInYear y = 365 + leapOf y.
Proof.
  unfold leapOf. destruct (DaysInYear_range y) as [E|E]; rewrite E; reflexivity.
Qed.

Lemma month_cases m :
  0 <= m <= 11 ->
  m = 0 \/ m = 1 \/ m = 2 \/ m = 3 \/ m = 4 \/ m = 5 \/ m = 6 \/
  m = 7 \/ m = 8 \/ m = 9 \/ m = 10 \/ m = 11.
Proof. lia. Qed.

Ltac each_month m H :=
  destruct (month_cases m H) as
    [-> | [-> | [-> | [-> | [-> | [-> | [-> | [-> | [-> | [-> | [-> | ->]]]]]]]]]]].

Lemma daysInMonth_range y m : 0 <= m <= 11 -> 28 <= daysInMonth y m <= 31.
Proof.
  intros H. pose proof (leapOf_range y). each_month m H; unfold daysInMonth; lia.
Qed.

Lemma monthStart_next y m :
  0 <= m <= 10 ->
  monthStart (leapOf y) (m + 1) = monthStart (leapOf y) m + daysInMonth y m.
Proof.
  intros H. assert (H' : 0 <= m <= 11) by lia.
  each_month m H'; try lia;
    match goal with
    | |- context [monthStart _ (?a + 1)] =>
        let v := eval vm_compute in (a + 1) in change (a + 1) with v
    end;
    unfold monthStart, daysInMonth; lia.
Qed.

Lemma nextMonth_range ym : 0 <= snd ym <= 11 -> 0 <= snd (nextMonth ym) <= 11.
Proof.
  intros H. unfold nextMonth. destruct (Z.eqb_spec (snd ym) 11); simpl; lia.
Qed.

Lemma firstOfMonth_next ym :
  0 <= snd ym <= 11 ->
  firstOfMonth (nextMonth ym) = firstOfMonth ym + daysInMonth (fst ym) (snd ym).
Proof.
  destruct ym as [y m]. cbn [fst snd]. intros H. unfold nextMonth, firstOfMonth.
  cbn [fst snd].
  destruct (Z.eqb_spec m 11) as [->|N]; cbn [fst snd].
  - rewrite DayFromYear_step, DaysInYear_leapOf. unfold monthStart, daysInMonth. lia.
  - rewrite monthStart_next by lia. lia.
Qed.

Lemma monthOfDay_in_month y m k :
  0 <= m <= 11 -> 0 <= k < daysInMonth y m ->
  monthOfDay (leapOf y) (monthStart (leapOf y) m + k) = m.
Proof.
  intros H Hk. pose proof (leapOf_range y) as L.
  each_month m H; unfold daysInMonth in Hk; unfold monthStart, monthOfDay;
    repeat match goal with
           | |- context [if ?a <? ?b then _ else _] => destruct (Z.ltb_spec a b)
           end; lia.
Qed.

Lemma monthEnd_in_year y m :
  0 <= m <= 11 -> monthStart (leapOf y) m + daysInMonth y m <= 365 + leapOf y.
Proof.
  intros H. pose proof (leapOf_range y) as L.
  each_month m H; unfold monthStart, daysInMonth; lia.
Qed.

Lemma monthStart_nonneg y m : 0 <= m <= 11 -> 0 <= monthStart (leapOf y) m.
Proof.
  intros H. pose proof (leapOf_range y) as L.
  each_month m H; unfold monthStart; lia.
Qed.

(** A day of a month has the first day of that month as its month start. *)
Lemma monthStartDay_in_month ym k :
  0 <= snd ym <= 11 -> 0 <= k < daysInMonth (fst ym) (snd ym) ->
  monthStartDay (firstOfMonth ym + k) = firstOfMonth ym.
Proof.
  destruct ym as [y m]. cbn [fst snd]. intros H Hk.
  pose proof (monthEnd_in_year y m H) as E.
  pose proof (monthStart_nonneg y m H) as N.
  assert (Y : yearFromDay (firstOfMonth (y, m) + k) = y).
  { apply yearFromDay_unique. rewrite DayFromYear_step, DaysInYear_leapOf.
    unfold firstOfMonth. cbn [fst snd]. lia. }
  unfold monthStartDay. cbv zeta. rewrite Y. fold (leapOf y).
  unfold firstOfMonth. cbn [fst snd].
  replace (DayFromYear y + monthStart (leapOf y) m + k - DayFromYear y)
    with (monthStart (leapOf y) m + k) by lia.
  rewrite monthOfDay_in_month by assumption. reflexivity.
Qed.

Lemma monthOfDay_span y dwy :
  0 <= dwy < 365 + leapOf y ->
  let m := monthOfDay (leapOf y) dwy in
  monthStart (leapOf y) m <= dwy < monthStart (leapOf y) m + daysInMonth y m.
Proof.
  intros H. pose proof (leapOf_range y) as L. cbv zeta. unfold monthOfDay.
  repeat match goal with
         | |- context [if ?a <? ?b then _ else _] => destruct (Z.ltb_spec a b)
         end; unfold monthStart, daysInMonth; lia.
Qed.

(** A day is the day [DateFromTime] of the month [MonthFromTime] of the year
    [YearFromTime]. *)
Lemma Day_in_month t :
  Day t = firstOfMonth (YearFromTime t, MonthFromTime t) + (DateFromTime t - 1) /\
  1 <= DateFromTime t <= daysInMonth (YearFromTime t) (MonthFromTime t).
Proof.
  pose proof (yearFromDay_spec (Day t)) as S.
  rewrite DayFromYear_step, DaysInYear_leapOf in S.
  pose proof (monthOfDay_span (yearFromDay (Day t)) (Day t - DayFromYear (yearFromDay (Day t)))
                ltac:(lia)) as M.
  cbv zeta in M.
  unfold firstOfMonth, DateFromTime, MonthFromTime, InLeapYear, DayWithinYear, YearFromTime.
  fold (leapOf (yearFromDay (Day t))). cbn [fst snd].
  split; lia.
Qed.

Lemma MakeDay_firstOfMonth y m dt :
  0 <= m <= 11 -> MakeDay y m dt = firstOfMonth (y, m) + dt - 1.
Proof.
  intros H. unfold MakeDay, firstOfMonth. cbv zeta. cbn [fst snd].
  rewrite Z.div_small, Z.mod_small, Z.add_0_r by lia. reflexivity.
Qed.

Lemma MakeDay_next_month y m dt :
  0 <= m <= 11 -> MakeDay y (m + 1) dt = firstOfMonth (nextMonth (y, m)) + dt - 1.
Proof.
  intros H. unfold nextMonth. cbn [fst snd].
  destruct (Z.eqb_spec m 11) as [->|N].
  - unfold MakeDay, firstOfMonth. cbv zeta. cbn [fst snd].
    change ((11 + 1) / 12) with 1. change ((11 + 1) mod 12) with 0. reflexivity.
  - apply MakeDay_firstOfMonth. lia.
Qed.

Lemma getEndOfMonth_eq tza t :
  getEndOfMonth tza t
  = monthStartDay (MakeDay (getFullYear tza t) (getMonth tza t + 1) (getDate tza t))
    * msPerDay - 1 - tza.
Proof.
  unfold getEndOfMonth. cbv zeta.
  rewrite setHours_last, setDate_eq.
  set (d1 := setMonth tza t (getMonth tza t + 1)).
  assert (L1 : d1 + tza
               = MakeDate (MakeDay (getFullYear tza t) (getMonth tza t + 1) (getDate tza t))
                   (TimeWithinDay (t + tza))).
  { unfold d1, setMonth, UTC, LocalTime, getFullYear, getDate, LocalTime. lia. }
  assert (D1 : Day (d1 + tza)
               = MakeDay (getFullYear tza t) (getMonth tza t + 1) (getDate tza t)).
  { rewrite L1. apply Day_MakeDate, TimeWithinDay_bound. }
  rewrite Day_shift by apply TimeWithinDay_bound.
  pose proof (monthStartDay_eq (d1 + tza)) as E. rewrite D1 in E.
  unfold getDate at 1. unfold LocalTime. rewrite D1, E. unfold msPerDay. lia.
Qed.

(** The day [setMonth(getMonth() + 1)] lands on, as an offset into the month
    that follows the month of [t]. *)
Lemma getEndOfMonth_landing tza t :
  let ym := (getFullYear tza t, getMonth tza t) in
  0 <= snd ym <= 11 /\
  Day (t + tza) = firstOfMonth ym + (getDate tza t - 1) /\
  1 <= getDate tza t <= daysInMonth (fst ym) (snd ym) /\
  MakeDay (getFullYear tza t) (getMonth tza t + 1) (getDate tza t)
  = firstOfMonth (nextMonth ym) + (getDate tza t - 1).
Proof.
  cbv zeta. cbn [fst snd].
  pose proof (MonthFromTime_range (LocalTime tza t)) as R.
  pose proof (Day_in_month (LocalTime tza t)) as [E B].
  unfold getFullYear, getMonth, getDate. unfold LocalTime in *.
  split; [exact R|]. split; [exact E|]. split; [exact B|].
  rewrite MakeDay_next_month by exact R. lia.
Qed.

Lemma getStartOfMonth_firstOfMonth tza t :
  getStartOfMonth tza t
  = firstOfMonth (getFullYear tza t, getMonth tza t) * msPerDay - tza.
Proof.
  rewrite getStartOfMonth_eq.
  destruct (getEndOfMonth_landing tza t) as (R & E & B & _). cbn [fst snd] in *.
  rewrite E. rewrite monthStartDay_in_month; [reflexivity | cbn [fst snd]; lia ..].
Qed.

Lemma getEndOfMonth_ends :
  forall tza t,
    t <= getEndOfMonth tza t /\
    getStartOfMonth tza (getEndOfMonth tza t + 1) = getEndOfMonth tza t + 1.
Proof.
  intros tza t. rewrite getEndOfMonth_eq.
  destruct (getEndOfMonth_landing tza t) as (R & E & B & L). cbn [fst snd] in *.
  rewrite L.
  set (ym := (getFullYear tza t, getMonth tza t)) in *.
  set (k := getDate tza t - 1) in *.
  pose proof (nextMonth_range ym R) as R'.
  pose proof (daysInMonth_range (fst (nextMonth ym)) _ R') as B'.
  pose proof (monthStartDay_in_month (nextMonth ym) 0 R' ltac:(lia)) as F0.
  rewrite Z.add_0_r in F0.
  pose proof (monthStartDay_mono (firstOfMonth (nextMonth ym))
                (firstOfMonth (nextMonth ym) + k) ltac:(lia)) as Mo.
  rewrite F0 in Mo.
  pose proof (firstOfMonth_next ym R) as N.
  change (daysInMonth (fst ym) (snd ym))
    with (daysInMonth (getFullYear tza t) (getMonth tza t)) in N.
  assert (Hk : k = getDate tza t - 1) by reflexivity.
  pose proof (Day_decompose (t + tza)) as Dd.
  pose proof (TimeWithinDay_bound (t + tza)) as Tw.
  split.
  - unfold msPerDay in *. lia.
  - rewrite getStartOfMonth_eq.
    replace (monthStartDay (firstOfMonth (nextMonth ym) + k) * msPerDay - 1 - tza + 1 + tza)
      with (monthStartDay (firstOfMonth (nextMonth ym) + k) * msPerDay + 0 - tza + tza)
      by lia.
    rewrite Day_shift by (unfold msPerDay; lia).
    rewrite monthStartDay_idem. lia.
Qed.

(** X3. [getEndOfMonth] always returns the last millisecond of a month that
    does not end before the instant: the result is not before the instant and
    the next millisecond starts a month. *)
Theorem getEndOfMonth_ends_a_month :
  forall tza t,
    t <= getEndOfMonth tza t /\
    getStartOfMonth tza (getEndOfMonth tza t + 1) = getEndOfMonth tza t + 1.
Proof. exact getEndOfMonth_ends. Qed.

(** X4. When the day of the month of the instant exists in the following
    month (always the case up to the 28th), [getEndOfMonth] returns the last
    millisecond of the month of the instant. *)
Theorem getEndOfMonth_of_own_month :
  forall tza t,
    overflowsNextMonth tza t = false ->
    getStartOfMonth tza (getEndOfMonth tza t) = getStartOfMonth tza t /\
    getStartOfMonth tza (getEndOfMonth tza t + 1) = getEndOfMonth tza t + 1 /\
    t <= getEndOfMonth tza t.
Proof.
  intros tza t H.
  destruct (getEndOfMonth_ends tza t) as [A B].
  split; [|split; [exact B | exact A]].
  rewrite getEndOfMonth_eq.
  destruct (getEndOfMonth_landing tza t) as (R & E & Bd & L). cbn [fst snd] in *.
  rewrite L. unfold overflowsNextMonth in H. apply Z.ltb_ge in H.
  set (ym := (getFullYear tza t, getMonth tza t)) in *.
  pose proof (nextMonth_range ym R) as R'.
  rewrite monthStartDay_in_month by (try exact R'; lia).
  rewrite (firstOfMonth_next ym R).
  change (daysInMonth (fst ym) (snd ym))
    with (daysInMonth (getFullYear tza t) (getMonth tza t)).
  pose proof (daysInMonth_range (getFullYear tza t) (getMonth tza t) R) as Bm.
  rewrite getStartOfMonth_eq.
  replace ((firstOfMonth ym + daysInMonth (getFullYear tza t) (getMonth tza t)) * msPerDay
           - 1 - tza + tza)
    with ((firstOfMonth ym + (daysInMonth (getFullYear tza t) (getMonth tza t) - 1))
          * msPerDay + (msPerDay - 1) - tza + tza) by ring.
  rewrite Day_shift by (unfold msPerDay; lia).
  rewrite monthStartDay_in_month; [| exact R | unfold ym; cbn [fst snd]; lia].
  rewrite getStartOfMonth_firstOfMonth. reflexivity.
Qed.

(** X5. When the day of the month of the instant does not exist in the
    following month (the 31st before a month of 30 days, the end of January),
    [getEndOfMonth] returns the end of the following month: the result lies
    in a month that starts after the instant. *)
Theorem getEndOfMonth_overflow :
  forall tza t,
    overflowsNextMonth tza t = true ->
    t < getStartOfMonth tza (getEndOfMonth tza t) /\
    getStartOfMonth tza (getEndOfMonth tza t)
    = firstOfMonth (nextMonth (getFullYear tza t, getMonth tza t)) * msPerDay - tza.
Proof.
  intros tza t H.
  destruct (getEndOfMonth_landing tza t) as (R & E & Bd & L). cbn [fst snd] in *.
  unfold overflowsNextMonth in H. apply Z.ltb_lt in H.
  set (ym := (getFullYear tza t, getMonth tza t)) in *.
  pose proof (nextMonth_range ym R) as R1.
  pose proof (nextMonth_range (nextMonth ym) R1) as R2.
  pose proof (daysInMonth_range (getFullYear tza t) (getMonth tza t) R) as B0.
  pose proof (daysInMonth_range (fst (nextMonth ym)) _ R1) as B1.
  pose proof (daysInMonth_range (fst (nextMonth (nextMonth ym))) _ R2) as B2.
  pose proof (firstOfMonth_next ym R) as N0.
  change (daysInMonth (fst ym) (snd ym))
    with (daysInMonth (getFullYear tza t) (getMonth tza t)) in N0.
  pose proof (firstOfMonth_next (nextMonth ym) R1) as N1.
  assert (S : getStartOfMonth tza (getEndOfMonth tza t)
              = firstOfMonth (nextMonth ym) * msPerDay - tza).
  { rewrite getEndOfMonth_eq, L.
    replace (firstOfMonth (nextMonth ym) + (getDate tza t - 1))
      with (firstOfMonth (nextMonth (nextMonth ym))
            + (getDate tza t - 1
               - daysInMonth (fst (nextMonth ym)) (snd (nextMonth ym)))) by lia.
    rewrite monthStartDay_in_month; [| exact R2 | lia].
    rewrite N1, getStartOfMonth_eq.
    replace ((firstOfMonth (nextMonth ym)
              + daysInMonth (fst (nextMonth ym)) (snd (nextMonth ym))) * msPerDay
             - 1 - tza + tza)
      with ((firstOfMonth (nextMonth ym)
             + (daysInMonth (fst (nextMonth ym)) (snd (nextMonth ym)) - 1)) * msPerDay
            + (msPerDay - 1) - tza + tza) by ring.
    rewrite Day_shift by (unfold msPerDay; lia).
    rewrite monthStartDay_in_month; [reflexivity | exact R1 | lia]. }
  split; [|exact S]. rewrite S.
  pose proof (Day_decompose (t + tza)) as Dd.
  pose proof (TimeWithinDay_bound (t + tza)) as Tw.
  unfold msPerDay in *. lia.
Qed.

Lemma no_overflow_up_to_28 tza t :
  getDate tza t <= 28 -> overflowsNextMonth tza t = false.
Proof.
  intros H. unfold overflowsNextMonth. apply Z.ltb_ge.
  pose proof (MonthFromTime_range (LocalTime tza t)) as R.
  pose proof (nextMonth_range (getFullYear tza t, getMonth tza t) R) as R1.
  pose proof (daysInMonth_range
                (fst (nextMonth (getFullYear tza t, getMonth tza t))) _ R1).
  lia.
Qed.

(** 15 January 2024, 10:00 in Brasilia: the month ends on 31 January. *)
Lemma getEndOfMonth_of_own_month_witness :
  getStartOfMonth Samples.tzBrasilia
    (getEndOfMonth Samples.tzBrasilia (Samples.at_hour 19737 10))
  = getStartOfMonth Samples.tzBrasilia (Samples.at_hour 19737 10) /\
  getStartOfMonth Samples.tzBrasilia
    (getEndOfMonth Samples.tzBrasilia (Samples.at_hour 19737 10) + 1)
  = getEndOfMonth Samples.tzBrasilia (Samples.at_hour 19737 10) + 1 /\
  Samples.at_hour 19737 10
  <= getEndOfMonth Samples.tzBrasilia (Samples.at_hour 19737 10).
Proof.
  apply getEndOfMonth_of_own_month.
  apply no_overflow_up_to_28. vm_compute. discriminate.
Defined.

(** 31 January 2024, 10:00 in Brasilia: there is no 31 February, and the
    result is the end of February. *)
Lemma getEndOfMonth_overflow_witness :
  Samples.at_hour 19753 10
  < getStartOfMonth Samples.tzBrasilia
      (getEndOfMonth Samples.tzBrasilia (Samples.at_hour 19753 10)) /\
  getStartOfMonth Samples.tzBrasilia
    (getEndOfMonth Samples.tzBrasilia (Samples.at_hour 19753 10))
  = firstOfMonth
      (nextMonth (getFullYear Samples.tzBrasilia (Samples.at_hour 19753 10),
                  getMonth Samples.tzBrasilia (Samples.at_hour 19753 10)))
    * msPerDay - Samples.tzBrasilia.
Proof.
  apply getEndOfMonth_overflow. vm_compute. reflexivity.
Defined.

Example getEndOfMonth_31_january :
  getEndOfMonth Samples.tzBrasilia (Samples.at_hour 19753 10)
  = Samples.at_hour 19783 0 - 1.
Proof. vm_compute. reflexivity. Qed.

(** ** Validation of form fields *)

Import Validation.
Local Open Scope string_scope.
Local Open Scope nat_scope.

Lemma length_append (a b : string) :
  String.length (a ++ b) = String.length a + String.length b.
Proof. induction a as [|c a IH]; simpl; [reflexivity | now rewrite IH]. Qed.

Lemma append_assoc (a b c : string) : (a ++ b) ++ c = a ++ (b ++ c).
Proof. induction a as [|x a IH]; simpl; [reflexivity | now rewrite IH]. Qed.

Lemma append_empty_r (a : string) : a ++ "" = a.
Proof. induction a as [|x a IH]; simpl; [reflexivity | now rewrite IH]. Qed.

Lemma removeNonDigits_app a b :
  removeNonDigits (a ++ b) = removeNonDigits a ++ removeNonDigits b.
Proof.
  induction a as [|c a IH]; simpl; [reflexivity|].
  destruct (isDigit c); simpl; now rewrite IH.
Qed.

Lemma removeNonDigits_allIn s : allIn isDigit (removeNonDigits s) = true.
Proof.
  induction s as [|c s IH]; simpl; [reflexivity|].
  destruct (isDigit c) eqn:E; simpl; [now rewrite E | exact IH].
Qed.

Lemma removeNonDigits_digits s : allIn isDigit s = true -> removeNonDigits s = s.
Proof.
  induction s as [|c s IH]; simpl; [reflexivity|].
  intros H. apply andb_prop in H. destruct H as [H1 H2].
  now rewrite H1, IH.
Qed.

Lemma removeNonDigits_none s : testClass isDigit s = false -> removeNonDigits s = "".
Proof.
  induction s as [|c s IH]; simpl; [reflexivity|].
  intros H. apply orb_false_elim in H. destruct H as [H1 H2].
  now rewrite H1, IH.
Qed.

Lemma slice_0 n s : slice 0 n s = sliceTo n s.
Proof. unfold slice. now rewrite Nat.sub_0_r. Qed.

Lemma sliceTo_sliceFrom n s : sliceTo n s ++ sliceFrom n s = s.
Proof.
  revert s. induction n as [|n IH]; intros [|c s]; simpl; try reflexivity.
  now rewrite IH.
Qed.

Lemma sliceTo_all n s : String.length s <= n -> sliceTo n s = s.
Proof.
  revert s. induction n as [|n IH]; intros [|c s]; simpl; intros H;
    try reflexivity; [lia|].
  rewrite IH by lia. reflexivity.
Qed.

Lemma sliceTo_length n s : String.length (sliceTo n s) = Nat.min n (String.length s).
Proof.
  revert s. induction n as [|n IH]; intros [|c s]; simpl; try reflexivity.
  now rewrite IH.
Qed.

Lemma sliceFrom_length n s : String.length (sliceFrom n s) = String.length s - n.
Proof.
  revert s. induction n as [|n IH]; intros [|c s]; simpl; try reflexivity.
  apply IH.
Qed.

Lemma sliceFrom_sliceFrom a b s : sliceFrom a (sliceFrom b s) = sliceFrom (b + a) s.
Proof.
  revert s. induction b as [|b IH]; intros s; simpl; [reflexivity|].
  destruct s as [|c s]; [now destruct a | apply IH].
Qed.

Lemma allIn_sliceTo p n s : allIn p s = true -> allIn p (sliceTo n s) = true.
Proof.
  revert s. induction n as [|n IH]; intros [|c s]; simpl; try reflexivity.
  intros H. apply andb_prop in H. destruct H as [H1 H2]. now rewrite H1, IH.
Qed.

Lemma allIn_sliceFrom p n s : allIn p s = true -> allIn p (sliceFrom n s) = true.
Proof.
  revert s. induction n as [|n IH]; intros [|c s]; simpl; try reflexivity; auto.
  intros H. apply andb_prop in H. destruct H as [H1 H2]. now apply IH.
Qed.

(** The three pieces the mask cuts the digits into are the digits. *)
Lemma slices_rejoin a b s :
  a <= b -> slice 0 a s ++ slice a b s ++ sliceFrom b s = s.
Proof.
  intros H. rewrite slice_0. unfold slice.
  rewrite <- (sliceTo_sliceFrom a s) at 4. f_equal.
  rewrite <- (sliceTo_sliceFrom (b - a) (sliceFrom a s)) at 2. f_equal.
  rewrite sliceFrom_sliceFrom. f_equal. lia.
Qed.

Lemma phoneMaskOnInput_format v :
  phoneMaskOnInput v = phoneFormat (sliceTo 11 (removeNonDigits v)).
Proof.
  unfold phoneMaskOnInput, phoneFormat. cbv zeta.
  destruct (Nat.ltb_spec 11 (String.length (removeNonDigits v))) as [H|H].
  - rewrite slice_0. reflexivity.
  - rewrite (sliceTo_all 11) by exact H. reflexivity.
Qed.

Lemma removeNonDigits_phoneFormat d :
  allIn isDigit d = true -> removeNonDigits (phoneFormat d) = d.
Proof.
  intros H. unfold phoneFormat.
  assert (R : forall w, allIn isDigit w = true -> removeNonDigits w = w)
    by apply removeNonDigits_digits.
  assert (S2 : allIn isDigit (slice 0 2 d) = true)
    by (unfold slice; apply allIn_sliceTo, allIn_sliceFrom, H).
  assert (S3 : allIn isDigit (slice 2 7 d) = true)
    by (unfold slice; apply allIn_sliceTo, allIn_sliceFrom, H).
  destruct (6 <? String.length d); [|destruct (2 <? String.length d);
                                      [|destruct (0 <? String.length d)]].
  - rewrite !removeNonDigits_app.
    rewrite (R (slice 0 2 d)), (R (slice 2 7 d)), (R (sliceFrom 7 d))
      by (assumption || apply allIn_sliceFrom, H).
    change (removeNonDigits "(") with "". change (removeNonDigits ") ") with "".
    change (removeNonDigits "-") with "". simpl append.
    apply (slices_rejoin 2 7). lia.
  - rewrite !removeNonDigits_app.
    rewrite (R (slice 0 2 d)), (R (sliceFrom 2 d))
      by (assumption || apply allIn_sliceFrom, H).
    change (removeNonDigits "(") with "". change (removeNonDigits ") ") with "".
    simpl append. rewrite slice_0. apply sliceTo_sliceFrom.
  - rewrite removeNonDigits_app. change (removeNonDigits "(") with "".
    simpl append. now apply R.
  - now apply R.
Qed.

Lemma phoneFormat_length d :
  String.length d <= 11 -> String.length (phoneFormat d) <= 15.
Proof.
  intros H. unfold phoneFormat.
  destruct (Nat.ltb_spec 6 (String.length d));
    [|destruct (Nat.ltb_spec 2 (String.length d));
      [|destruct (Nat.ltb_spec 0 (String.length d))]];
    repeat (rewrite length_append || (unfold slice; rewrite sliceTo_length)
            || rewrite sliceFrom_length); simpl String.length; lia.
Qed.

Lemma phoneMaskOnInput_digits v :
  removeNonDigits (phoneMaskOnInput v) = sliceTo 11 (removeNonDigits v).
Proof.
  rewrite phoneMaskOnInput_format. apply removeNonDigits_phoneFormat.
  apply allIn_sliceTo, removeNonDigits_allIn.
Qed.

(** X6. The phone mask keeps the first eleven digits of the text and
    nothing else of it; applying it to its own output changes nothing, and
    the output is never longer than 15 characters. *)
Theorem phoneMaskOnInput_keeps_digits :
  forall fieldValue,
    removeNonDigits (phoneMaskOnInput fieldValue)
    = sliceTo 11 (removeNonDigits fieldValue) /\
    phoneMaskOnInput (phoneMaskOnInput fieldValue) = phoneMaskOnInput fieldValue /\
    String.length (phoneMaskOnInput fieldValue) <= 15.
Proof.
  intros v.
  assert (L : String.length (sliceTo 11 (removeNonDigits v)) <= 11)
    by (rewrite sliceTo_length; lia).
  pose proof (phoneMaskOnInput_digits v) as E.
  split; [exact E | split].
  - rewrite (phoneMaskOnInput_format (phoneMaskOnInput v)), E.
    rewrite (sliceTo_all 11) by exact L. symmetry. apply phoneMaskOnInput_format.
  - rewrite phoneMaskOnInput_format. now apply phoneFormat_length.
Qed.

(** X7. What the phone mask puts in the field passes [isValidPhone] exactly
    when the text typed holds at least ten digits. *)
Theorem isValidPhone_after_mask :
  forall fieldValue,
    isValidPhone (phoneMaskOnInput fieldValue)
    = (10 <=? String.length (removeNonDigits fieldValue)).
Proof.
  intros v. unfold isValidPhone. cbv zeta.
  rewrite phoneMaskOnInput_digits, sliceTo_length.
  destruct (Nat.leb_spec 10 (String.length (removeNonDigits v)));
    destruct (Nat.eqb_spec (Nat.min 11 (String.length (removeNonDigits v))) 10);
    destruct (Nat.eqb_spec (Nat.min 11 (String.length (removeNonDigits v))) 11);
    simpl; try reflexivity; lia.
Qed.

(** X8. [isValidPhone] looks at the digits only: characters that are not
    digits, wherever they stand, do not change its answer, which is that the
    text holds ten or eleven digits. *)
Theorem isValidPhone_ignores_formatting :
  forall a junk b,
    testClass isDigit junk = false ->
    isValidPhone (a ++ junk ++ b) = isValidPhone (a ++ b) /\
    isValidPhone (a ++ junk ++ b)
    = (String.length (removeNonDigits (a ++ b)) =? 10)
      || (String.length (removeNonDigits (a ++ b)) =? 11).
Proof.
  intros a junk b H. unfold isValidPhone. cbv zeta.
  rewrite !removeNonDigits_app, (removeNonDigits_none junk H). simpl append.
  split; reflexivity.
Qed.

(** X9. A password is valid exactly when it has at least six characters
    and one of: at least eight characters, a lower-case and an upper-case
    letter, a digit, one of the listed special characters.  The score is at
    most 5, and the message list is empty exactly from six characters on, so
    a valid password carries no message. *)
Theorem validatePassword_valid_iff :
  forall password,
    let r := validatePassword password in
    valid r
    = (6 <=? String.length password)
      && ((8 <=? String.length password)
          || (testClass isLower password && testClass isUpper password)
          || testClass isDigit password
          || testClass isSpecial password) /\
    score r <= 5 /\
    (messages r = [] <-> 6 <= String.length password) /\
    (valid r = true -> messages r = []).
Proof.
  intros password. unfold validatePassword. cbv zeta.
  destruct (Nat.ltb_spec (String.length password) 6) as [H6|H6];
    destruct (Nat.leb_spec 8 (String.length password)) as [H8|H8];
    destruct (testClass isLower password && testClass isUpper password);
    destruct (testClass isDigit password);
    destruct (testClass isSpecial password);
    cbn [valid score messages app];
    destruct (Nat.leb_spec 6 (String.length password)) as [G6|G6]; try lia;
    (split; [reflexivity|]); (split; [lia|]);
    (split; [split; [intros E; first [discriminate E | lia] | intros; first [reflexivity | lia]]|]);
    intros E; first [reflexivity | discriminate E].
Qed.

(** *** Anchored patterns *)

Lemma matchesAll_nil s : matchesAll [] s = true <-> s = "".
Proof. destruct s; simpl; split; intros H; try reflexivity; discriminate. Qed.

Lemma matchesAll_lit a re s :
  matchesAll (Lit a :: re) s = true
  <-> exists s', s = String a s' /\ matchesAll re s' = true.
Proof.
  destruct s as [|c s]; simpl.
  - split; [discriminate | intros (s' & E & _); discriminate].
  - split.
    + intros H. apply andb_prop in H. destruct H as [H1 H2].
      apply Ascii.eqb_eq in H1. subst c. now exists s.
    + intros (s' & E & H). inversion E. subst. now rewrite Ascii.eqb_refl.
Qed.

Lemma matchesAll_plus class re s :
  matchesAll (OneOrMore class :: re) s = true
  <-> exists w s', s = w ++ s' /\ w <> "" /\ allIn class w = true /\
                   matchesAll re s' = true.
Proof.
  induction s as [|c s IH].
  - simpl. split; [discriminate|].
    intros (w & s' & E & N & _). destruct w; [contradiction | discriminate].
  - cbn [matchesAll]. split.
    + intros H. apply andb_prop in H. destruct H as [Hc H].
      apply orb_prop in H. destruct H as [H|H].
      * apply IH in H. destruct H as (w & s' & E & N & A & M).
        exists (String c w), s'. subst s. simpl. rewrite Hc, A.
        repeat split; [discriminate | assumption].
      * exists (String c ""), s. simpl. rewrite Hc.
        repeat split; [discriminate | assumption].
    + intros (w & s' & E & N & A & M).
      destruct w as [|c' w]; [contradiction|].
      simpl in E, A. inversion E. subst c' s.
      apply andb_prop in A. destruct A as [Hc A]. rewrite Hc. simpl.
      destruct w as [|c2 w].
      * simpl. rewrite M. apply orb_true_r.
      * apply orb_true_iff. left. apply IH.
        exists (String c2 w), s'. repeat split; [discriminate | assumption..].
Qed.

Lemma isValidEmail_parts email :
  isValidEmail email = true
  <-> exists a b c,
        email = a ++ "@" ++ b ++ "." ++ c /\
        emailPart a /\ emailPart b /\ emailPart c.
Proof.
  unfold isValidEmail, emailPattern, emailPart. split.
  - intros H.
    apply matchesAll_plus in H. destruct H as (a & s1 & E1 & Na & Aa & H).
    apply matchesAll_lit in H. destruct H as (s2 & E2 & H).
    apply matchesAll_plus in H. destruct H as (b & s3 & E3 & Nb & Ab & H).
    apply matchesAll_lit in H. destruct H as (s4 & E4 & H).
    apply matchesAll_plus in H. destruct H as (c & s5 & E5 & Nc & Ac & H).
    apply matchesAll_nil in H. subst s5. rewrite append_empty_r in E5.
    exists a, b, c. subst. repeat split; assumption.
  - intros (a & b & c & E & [Na Aa] & [Nb Ab] & [Nc Ac]). subst email.
    apply matchesAll_plus. exists a, ("@" ++ b ++ "." ++ c).
    repeat split; try assumption.
    apply matchesAll_lit. exists (b ++ "." ++ c). split; [reflexivity|].
    apply matchesAll_plus. exists b, ("." ++ c). repeat split; try assumption.
    apply matchesAll_lit. exists c. split; [reflexivity|].
    apply matchesAll_plus. exists c, "". rewrite append_empty_r.
    repeat split; try assumption.
Qed.

(** X10. [isValidEmail] accepts exactly the texts of the form
    [a @ b . c] where each of [a], [b], [c] is a non-empty run of characters
    that are neither white space nor [@]. *)
Theorem isValidEmail_iff_three_parts :
  forall email,
    isValidEmail email = true
    <-> exists a b c,
          email = a ++ "@" ++ b ++ "." ++ c /\
          emailPart a /\ emailPart b /\ emailPart c.
Proof. exact isValidEmail_parts. Qed.

Lemma countChar_app x a b : countChar x (a ++ b) = countChar x a + countChar x b.
Proof. induction a as [|c a IH]; simpl; [reflexivity | rewrite IH; lia]. Qed.

Lemma testClass_app p a b : testClass p (a ++ b) = testClass p a || testClass p b.
Proof.
  induction a as [|c a IH]; simpl; [reflexivity | now rewrite IH, orb_assoc].
Qed.

Lemma emailPart_clean w :
  allIn notSpaceNorAt w = true ->
  countChar "@" w = 0 /\ testClass isWhiteSpace w = false.
Proof.
  induction w as [|c w IH]; simpl; [now split|].
  intros H. apply andb_prop in H. destruct H as [Hc H].
  destruct (IH H) as [I1 I2]. unfold notSpaceNorAt in Hc.
  apply negb_true_iff, orb_false_elim in Hc. destruct Hc as [H1 H2].
  rewrite H1, H2, I1, I2. now split.
Qed.

Lemma emailPart_length w : w <> "" -> 1 <= String.length w.
Proof. destruct w; [contradiction | simpl; lia]. Qed.

(** X11. A text [isValidEmail] accepts holds exactly one [@], no white
    space, and at least five characters. *)
Theorem isValidEmail_one_at_no_space :
  forall email,
    isValidEmail email = true ->
    countChar "@" email = 1 /\
    testClass JS.isWhiteSpace email = false /\
    5 <= String.length email.
Proof.
  intros email H. apply isValidEmail_parts in H.
  destruct H as (a & b & c & E & [Na Aa] & [Nb Ab] & [Nc Ac]). subst email.
  destruct (emailPart_clean a Aa) as [A1 A2].
  destruct (emailPart_clean b Ab) as [B1 B2].
  destruct (emailPart_clean c Ac) as [C1 C2].
  pose proof (emailPart_length a Na). pose proof (emailPart_length b Nb).
  pose proof (emailPart_length c Nc).
  repeat rewrite countChar_app. repeat rewrite testClass_app.
  repeat rewrite length_append.
  rewrite A1, A2, B1, B2, C1, C2. simpl. repeat split; lia.
Qed.

Lemma isValidPhone_ignores_formatting_witness :
  isValidPhone ("(11" ++ ") " ++ "98765-4321") = isValidPhone ("(11" ++ "98765-4321") /\
  isValidPhone ("(11" ++ ") " ++ "98765-4321")
  = (String.length (removeNonDigits ("(11" ++ "98765-4321")) =? 10)
    || (String.length (removeNonDigits ("(11" ++ "98765-4321")) =? 11).
Proof.
  apply (isValidPhone_ignores_formatting "(11" ") " "98765-4321"). reflexivity.
Defined.

Lemma isValidEmail_one_at_no_space_witness :
  countChar "@" "joao.silva@mail.com.br" = 1 /\
  testClass JS.isWhiteSpace "joao.silva@mail.com.br" = false /\
  5 <= String.length "joao.silva@mail.com.br".
Proof.
  apply isValidEmail_one_at_no_space. reflexivity.
Defined.

(** ** Single goals and sessions *)

Import Db.
Local Open Scope string_scope.
Local Open Scope list_scope.

Lemma lookup_filter_out id s :
  lookup id (filter (fun p => negb (fst p =? id)) s) = None.
Proof.
  induction s as [|[k d] s IH]; simpl; [reflexivity|].
  destruct (String.eqb k id) eqn:E; simpl; [exact IH|]. now rewrite E.
Qed.

Lemma lookup_filter_other id id' s :
  id' <> id -> lookup id' (filter (fun p => negb (fst p =? id)) s) = lookup id' s.
Proof.
  intros N. induction s as [|[k d] s IH]; simpl; [reflexivity|].
  destruct (String.eqb_spec k id) as [->|N']; simpl.
  - rewrite (proj2 (String.eqb_neq id id')) by congruence. exact IH.
  - destruct (String.eqb k id'); [reflexivity | exact IH].
Qed.

Lemma lookupSession_replace_same id d' s :
  lookupSession id (replaceSession id d' s)
  = match lookupSession id s with Some _ => Some d' | None => None end.
Proof.
  induction s as [|[k d] s IH]; simpl; [reflexivity|].
  destruct (String.eqb k id) eqn:E; simpl; now rewrite E.
Qed.

Section DbFacts.

Variable LocalTZA : Z.
Variable NumberToString : spec_float -> string.
Variable StringToNumber : string -> spec_float.

(** X12. Reading back a goal just created: for a signed-in user and an
    accepted write, [addGoal] resolves with the new id and [getGoal] of that
    id returns every field of the argument, an [id] field among them, with
    [current] 0 and [lastReset] and [createdAt] at the stamp of the store,
    whatever [current], [lastReset] or [createdAt] the argument carried.
    When the argument has an [id] field other than the new id, as every goal
    of an export has, [getGoals] hands the new goal out under that id and the
    engine does not reach the new document: provided no other goal carries
    the new id, the next accrual call or sweep, whenever it runs and whatever
    it is given, leaves the document as it was created and issues no write
    against it. *)
Theorem addGoal_then_getGoal :
  forall env uid goal db,
    currentUser (goalsEnv env) = Some uid ->
    writeFails (goalsEnv env) (List.length (calls (goalsDb db))) = false ->
    let newId := autoId (goalsEnv env) in
    let r1 := onGoals (addGoal (goalsEnv env) goal) db in
    let r2 := getGoal env newId (snd r1) in
    exists stored,
      fst r1 = Resolved newId /\
      fst r2 = Resolved (Some (newId, stored)) /\
      (id_field stored = id_field goal /\ name stored = name goal /\
       category stored = category goal /\ type stored = type goal /\
       target stored = target goal /\ otherFields stored = otherFields goal) /\
      (current stored = JNum num_zero /\
       lastReset stored = Some (serverNow (goalsEnv env)) /\
       createdAt stored = Some (serverNow (goalsEnv env))) /\
      (forall other,
          id_field goal = Some other -> other <> newId ->
          (forall p, In p (docs (goalsDb db)) ->
                     goal_id (goalOfDoc (goalsEnv env) p) <> newId) ->
          goal_id (goalOfDoc (goalsEnv env) (newId, stored)) = other /\
          forall env' amount category,
            let st := goalsDb (snd r1) in
            (let r := updateGoalsProgress LocalTZA NumberToString env' amount
                        category st in
             lookup newId (docs (snd r)) = Some stored /\
             exists l, calls (snd r) = calls st ++ l /\
                       forallb (fun c => negb (writesTo newId c)) l = true) /\
            (let r := checkAndResetGoals LocalTZA env' st in
             lookup newId (docs (snd r)) = Some stored /\
             exists l, calls (snd r) = calls st ++ l /\
                       forallb (fun c => negb (writesTo newId c)) l = true)).
Proof.
  intros env uid goal db Hu Hw newId r1 r2.
  set (stored := {| id_field := id_field goal;
                    name := name goal;
                    category := category goal;
                    type := type goal;
                    target := target goal;
                    current := JNum num_zero;
                    lastReset := Some (serverNow (goalsEnv env));
                    createdAt := Some (serverNow (goalsEnv env));
                    otherFields := otherFields goal |}).
  assert (E : addGoal (goalsEnv env) goal (goalsDb db)
              = (Resolved newId,
                 {| docs := (newId, stored) :: docs (goalsDb db);
                    calls := calls (goalsDb db) ++ [AddDoc newId stored true] |})).
  { unfold addGoal, addDoc, bind, ret. rewrite Hu, Hw. reflexivity. }
  assert (D : docs (goalsDb (snd r1)) = (newId, stored) :: docs (goalsDb db)).
  { unfold r1, onGoals. rewrite E. reflexivity. }
  assert (L0 : lookup newId (docs (goalsDb (snd r1))) = Some stored).
  { rewrite D. simpl. now rewrite String.eqb_refl. }
  exists stored. split; [|split; [|split; [|split]]].
  - unfold r1, onGoals. rewrite E. reflexivity.
  - unfold r2, getGoal, getDoc, dbind, dret. rewrite Hu.
    cbn [fst snd goalsDb]. now rewrite L0.
  - now repeat split.
  - now repeat split.
  - intros other Ho Hne Hfresh.
    assert (G : goal_id (goalOfDoc (goalsEnv env) (newId, stored)) = other).
    { unfold goalOfDoc. cbn [goal_id snd stored id_field]. now rewrite Ho. }
    split; [exact G|].
    assert (Hn : forall env' p, In p (docs (goalsDb (snd r1))) ->
                           goal_id (goalOfDoc env' p) <> newId).
    { intros env' p Hp. rewrite D in Hp. destruct Hp as [<-|Hp].
      - change (goal_id (goalOfDoc env' (newId, stored)))
          with (goal_id (goalOfDoc (goalsEnv env) (newId, stored))).
        now rewrite G.
      - exact (Hfresh p Hp). }
    intros env' amount category st. split.
    + destruct (Spares_updateGoalsProgress LocalTZA NumberToString env' newId amount
                  category st) as [S1 S2].
      { intros p Hp Hid. exfalso. exact (Hn env' p Hp Hid). }
      split; [|exact S2]. fold st in L0. cbv zeta in S1. now rewrite S1.
    + destruct (Spares_checkAndResetGoals LocalTZA env' newId st (Hn env'))
        as [S1 S2].
      split; [|exact S2]. fold st in L0. cbv zeta in S1. now rewrite S1.
Qed.

(** X13. Deleting a goal: for a signed-in user and an accepted call,
    [deleteGoal] resolves with [true] whether or not the goal existed,
    [getGoal] of that id then returns nothing, and every other goal is as it
    was. *)
Theorem deleteGoal_then_getGoal :
  forall env uid goalId db,
    currentUser (goalsEnv env) = Some uid ->
    otherFails env (List.length (otherCalls db)) = false ->
    let r := deleteGoal env goalId db in
    fst r = Resolved true /\
    fst (getGoal env goalId (snd r)) = Resolved None /\
    (forall id, id <> goalId ->
       lookup id (docs (goalsDb (snd r))) = lookup id (docs (goalsDb db))) /\
    calls (goalsDb (snd r)) = calls (goalsDb db).
Proof.
  intros env uid goalId db Hu Hw r.
  unfold r, deleteGoal, getGoal, deleteDoc, dbind, getDoc, dret.
  rewrite Hu, Hw. cbn [fst snd goalsDb docs calls].
  rewrite lookup_filter_out. repeat split.
  intros id N. now apply lookup_filter_other.
Qed.

(** X14. Updating one goal: for a signed-in user, a store that accepts the
    writes and an update of [current], of [lastReset] (to the stamp of the
    store) or of both, [updateGoal] on an existing goal resolves with [true]
    and [getGoal] then returns the goal with the fields of the update replaced
    and the others kept; on a goal that does not exist it is rejected by the
    store and no document changes. *)
Theorem updateGoal_then_getGoal :
  forall env uid goalId data db,
    currentUser (goalsEnv env) = Some uid ->
    noWriteFails (goalsEnv env) ->
    let r := onGoals (updateGoal (goalsEnv env) goalId data) db in
    match lookup goalId (docs (goalsDb db)) with
    | Some d =>
        fst r = Resolved true /\
        fst (getGoal env goalId (snd r))
        = Resolved (Some (goalId, applyPatch (goalsEnv env) data d))
    | None =>
        fst r = Rejected StoreError /\ docs (goalsDb (snd r)) = docs (goalsDb db)
    end.
Proof.
  intros env uid goalId data db Hu Hf r.
  unfold r, onGoals, updateGoal, getGoal, updateDoc, bind, dbind, getDoc, dret, ret.
  rewrite Hu. destruct (lookup goalId (docs (goalsDb db))) as [d|] eqn:L.
  - rewrite Hf. cbn [fst snd goalsDb docs].
    rewrite lookup_replace_same, L. split; reflexivity.
  - cbn [fst snd goalsDb docs]. split; reflexivity.
Qed.

(** X15. Without a signed-in user no operation reads, writes or logs
    anything: the queries answer empty, [updateGoal], [deleteGoal] and
    [endSession] answer [false], the accrual call (whatever its arguments),
    the reset and the sweep resolve with the store as it was, and only
    [addGoal] reports the missing user. *)
Theorem signed_out_operations_do_nothing :
  forall env goal goalId data amount category duration earnings st db,
    currentUser (goalsEnv env) = None ->
    addGoal (goalsEnv env) goal st = (Rejected NotAuthenticated, st) /\
    getGoals (goalsEnv env) st = (Resolved [], st) /\
    updateGoal (goalsEnv env) goalId data st = (Resolved false, st) /\
    resetGoal (goalsEnv env) goalId st = (Resolved tt, st) /\
    updateGoalsProgress LocalTZA NumberToString (goalsEnv env) amount category st
    = (Resolved tt, st) /\
    checkAndResetGoals LocalTZA (goalsEnv env) st = (Resolved tt, st) /\
    getGoal env goalId db = (Resolved None, db) /\
    deleteGoal env goalId db = (Resolved false, db) /\
    endSession LocalTZA NumberToString StringToNumber env goalId duration earnings db
    = (Resolved false, db).
Proof.
  intros env goal goalId data amount category duration earnings st db Hu.
  unfold addGoal, getGoals, updateGoal, resetGoal, checkAndResetGoals, getGoal,
    deleteGoal, endSession, updateGoalsProgress, getGoals.
  rewrite Hu. repeat split.
  destruct (invalidCategory category), (invalidAmount amount); reflexivity.
Qed.


(** *** Ending a session *)

Lemma completeSessionDoc_accepted env id duration earnings d db :
  lookupSession id (sessionDocs db) = Some d ->
  otherFails env (List.length (otherCalls db)) = false ->
  completeSessionDoc env id duration earnings db
  = (Resolved tt,
     {| goalsDb := goalsDb db;
        sessionDocs := replaceSession id (completed env duration earnings d)
                         (sessionDocs db);
        otherCalls := logCall (UpdateSessionDoc id true) db |}).
Proof. intros L F. unfold completeSessionDoc. now rewrite L, F. Qed.

Lemma completeSessionDoc_rejected env id duration earnings db :
  lookupSession id (sessionDocs db) = None \/
  otherFails env (List.length (otherCalls db)) = true ->
  completeSessionDoc env id duration earnings db
  = (Rejected StoreError,
     {| goalsDb := goalsDb db; sessionDocs := sessionDocs db;
        otherCalls := logCall (UpdateSessionDoc id false) db |}).
Proof.
  intros H. unfold completeSessionDoc.
  destruct (lookupSession id (sessionDocs db)) as [d|].
  - destruct H as [H|H]; [discriminate | now rewrite H].
  - reflexivity.
Qed.

(** The goals after [endSession], when the session write went through. *)
Lemma endSession_run env uid sessionId duration earnings d db :
  currentUser (goalsEnv env) = Some uid ->
  lookupSession sessionId (sessionDocs db) = Some d ->
  otherFails env (List.length (otherCalls db)) = false ->
  let g := if js_gt_zero StringToNumber earnings
           then updateGoalsProgress LocalTZA NumberToString (goalsEnv env)
                  earnings (JStr "receita") (goalsDb db)
           else (Resolved tt, goalsDb db) in
  endSession LocalTZA NumberToString StringToNumber env sessionId duration earnings db
  = (match fst g with Resolved _ => Resolved true | Rejected e => Rejected e end,
     {| goalsDb := snd g;
        sessionDocs := replaceSession sessionId (completed env duration earnings d)
                         (sessionDocs db);
        otherCalls := logCall (UpdateSessionDoc sessionId true) db |}).
Proof.
  intros Hu L F. cbv zeta. unfold endSession. rewrite Hu.
  unfold dbind at 1.
  rewrite (completeSessionDoc_accepted env sessionId duration earnings d db L F).
  unfold dbind, onGoals, dret. cbn [goalsDb sessionDocs otherCalls].
  destruct (js_gt_zero StringToNumber earnings); cbn [fst snd goalsDb sessionDocs otherCalls].
  - destruct (updateGoalsProgress LocalTZA NumberToString (goalsEnv env) earnings
                (JStr "receita") (goalsDb db)) as [[[]|e] st'];
      cbn [fst snd goalsDb sessionDocs otherCalls]; reflexivity.
  - reflexivity.
Qed.

Lemma endSession_rejected env uid sessionId duration earnings db :
  currentUser (goalsEnv env) = Some uid ->
  lookupSession sessionId (sessionDocs db) = None \/
  otherFails env (List.length (otherCalls db)) = true ->
  endSession LocalTZA NumberToString StringToNumber env sessionId duration earnings db
  = (Rejected StoreError,
     {| goalsDb := goalsDb db; sessionDocs := sessionDocs db;
        otherCalls := logCall (UpdateSessionDoc sessionId false) db |}).
Proof.
  intros Hu H. unfold endSession. rewrite Hu. unfold dbind at 1.
  rewrite (completeSessionDoc_rejected env sessionId duration earnings db H).
  reflexivity.
Qed.

(** The goals after [endSession] are the goals before it, or what the
    accrual call of category ["receita"] makes of them. *)
Lemma endSession_goals env sessionId duration earnings db :
  let r := endSession LocalTZA NumberToString StringToNumber env sessionId
             duration earnings db in
  goalsDb (snd r) = goalsDb db \/
  goalsDb (snd r)
  = snd (updateGoalsProgress LocalTZA NumberToString (goalsEnv env) earnings
           (JStr "receita") (goalsDb db)).
Proof.
  cbv zeta.
  destruct (currentUser (goalsEnv env)) as [uid|] eqn:Hu.
  - destruct (lookupSession sessionId (sessionDocs db)) as [d|] eqn:L.
    + destruct (otherFails env (List.length (otherCalls db))) eqn:F.
      * left. unfold endSession. rewrite Hu. unfold dbind at 1.
        rewrite completeSessionDoc_rejected by (now right). reflexivity.
      * rewrite (endSession_run env uid sessionId duration earnings d db Hu L F).
        cbn [snd goalsDb].
        destruct (js_gt_zero StringToNumber earnings); [now right | now left].
    + left. unfold endSession. rewrite Hu. unfold dbind at 1.
      rewrite completeSessionDoc_rejected by (now left). reflexivity.
  - left. unfold endSession. rewrite Hu. reflexivity.
Qed.

(** X16. [endSession] credits no goal unless the earnings are a number
    greater than zero: with any other earnings (zero, negative, NaN, a text)
    the goals collection is not written, while the session (when it exists
    and the store accepts the write) is completed with the given duration and
    earnings. *)
Theorem endSession_without_earnings :
  forall env sessionId duration earnings db,
    positiveNumber earnings = false ->
    let r := endSession LocalTZA NumberToString StringToNumber env sessionId
               duration earnings db in
    docs (goalsDb (snd r)) = docs (goalsDb db) /\
    calls (goalsDb (snd r)) = calls (goalsDb db) /\
    (forall uid d,
        currentUser (goalsEnv env) = Some uid ->
        lookupSession sessionId (sessionDocs db) = Some d ->
        otherFails env (List.length (otherCalls db)) = false ->
        fst r = Resolved true /\
        lookupSession sessionId (sessionDocs (snd r))
        = Some (completed env duration earnings d)).
Proof.
  intros env sessionId duration earnings db Hp r.
  assert (G : updateGoalsProgress LocalTZA NumberToString (goalsEnv env) earnings
                (JStr "receita") (goalsDb db) = (Resolved tt, goalsDb db)).
  { unfold updateGoalsProgress. rewrite (invalidAmount_positiveNumber earnings), Hp.
    reflexivity. }
  assert (K : docs (goalsDb (snd r)) = docs (goalsDb db) /\
              calls (goalsDb (snd r)) = calls (goalsDb db)).
  { destruct (endSession_goals env sessionId duration earnings db) as [E|E];
      fold r in E; rewrite E; [|rewrite G]; now split. }
  destruct K as [K1 K2]. split; [exact K1 | split; [exact K2|]].
  intros uid d Hu L F. unfold r.
  rewrite (endSession_run env uid sessionId duration earnings d db Hu L F).
  cbn [fst snd sessionDocs]. rewrite lookupSession_replace_same, L.
  destruct (js_gt_zero StringToNumber earnings); [rewrite G|]; now split.
Qed.

(** X17. When the session write is rejected (the session does not exist or
    the store fails), [endSession] is rejected with the store's error before
    anything else happens: no goal is read or written and no session changes,
    whatever the earnings. *)
Theorem endSession_rejected_session_write :
  forall env uid sessionId duration earnings db,
    currentUser (goalsEnv env) = Some uid ->
    lookupSession sessionId (sessionDocs db) = None \/
    otherFails env (List.length (otherCalls db)) = true ->
    let r := endSession LocalTZA NumberToString StringToNumber env sessionId
               duration earnings db in
    fst r = Rejected StoreError /\
    goalsDb (snd r) = goalsDb db /\
    sessionDocs (snd r) = sessionDocs db.
Proof.
  intros env uid sessionId duration earnings db Hu H r.
  unfold r. rewrite (endSession_rejected env uid sessionId duration earnings db Hu H).
  now repeat split.
Qed.

(** X18. [endSession] is not atomic: once the session write is accepted the
    session stays completed whatever becomes of the goals, and a write that
    the goals store rejects afterwards makes the call fail with the session
    already closed. *)
Theorem endSession_not_atomic :
  forall env uid sessionId duration earnings d db,
    currentUser (goalsEnv env) = Some uid ->
    lookupSession sessionId (sessionDocs db) = Some d ->
    otherFails env (List.length (otherCalls db)) = false ->
    let r := endSession LocalTZA NumberToString StringToNumber env sessionId
               duration earnings db in
    lookupSession sessionId (sessionDocs (snd r))
    = Some (completed env duration earnings d) /\
    (forall e,
        js_gt_zero StringToNumber earnings = true ->
        fst (updateGoalsProgress LocalTZA NumberToString (goalsEnv env) earnings
               (JStr "receita") (goalsDb db)) = Rejected e ->
        fst r = Rejected e).
Proof.
  intros env uid sessionId duration earnings d db Hu L F r. unfold r.
  rewrite (endSession_run env uid sessionId duration earnings d db Hu L F).
  cbn [fst snd sessionDocs]. rewrite lookupSession_replace_same, L.
  split; [reflexivity|]. intros e Hg He. rewrite Hg, He. reflexivity.
Qed.

(** X19. Among goals addressed by the ids the store gave them,
    [endSession] leaves alone every goal whose normalized category is not
    ["receita"]: the document is unchanged and no write is issued against it,
    whatever the earnings and the failures of the store. *)
Theorem endSession_spares_other_categories :
  forall env sessionId duration earnings db id d,
    uniqueIds (docs (goalsDb db)) ->
    ownIds (docs (goalsDb db)) ->
    In (id, d) (docs (goalsDb db)) ->
    normalizeCategory NumberToString (js_or (category d) (JStr "")) <> "receita" ->
    let r := endSession LocalTZA NumberToString StringToNumber env sessionId
               duration earnings db in
    lookup id (docs (goalsDb (snd r))) = Some d /\
    exists l,
      calls (goalsDb (snd r)) = calls (goalsDb db) ++ l /\
      forallb (fun c => negb (writesTo id c)) l = true.
Proof.
  intros env sessionId duration earnings db id d U O Hin Hne r.
  assert (Hs : sameCategory NumberToString d (JStr "receita") = false).
  { unfold sameCategory. apply String.eqb_neq. exact Hne. }
  pose proof (Spares_updateGoalsProgress_own LocalTZA NumberToString (goalsEnv env) id d
                earnings (JStr "receita") (goalsDb db) U O Hin Hs) as [S1 S2].
  assert (Same : lookup id (docs (goalsDb db)) = Some d /\
                 exists l, calls (goalsDb db) = calls (goalsDb db) ++ l /\
                           forallb (fun c => negb (writesTo id c)) l = true).
  { split; [now apply In_lookup|]. exists []. now rewrite app_nil_r. }
  destruct (endSession_goals env sessionId duration earnings db) as [E|E];
    fold r in E; rewrite E; [exact Same|].
  split; [rewrite S1; now apply In_lookup | exact S2].
Qed.

End DbFacts.

Import DbSamples.

(** The goal exported as "a" and imported again: the new document "new"
    is handed out under the id "a", and an accrual of its own category goes
    by it. *)
Lemma addGoal_then_getGoal_witness :
  let env := dbEnv importTime never in
  let r1 := onGoals (addGoal importTime exportedA) sampleDb in
  fst r1 = Resolved "new" /\
  fst (getGoal env "new" (snd r1)) = Resolved (Some ("new", copyOf exportedA)) /\
  goal_id (goalOfDoc importTime ("new", copyOf exportedA)) = "a" /\
  lookup "new"
    (docs (snd (updateGoalsProgress tzBrasilia showNumber yesterdayAfternoon twenty
                  (JStr "receita") (goalsDb (snd r1)))))
  = Some (copyOf exportedA).
Proof.
  destruct (addGoal_then_getGoal tzBrasilia showNumber (dbEnv importTime never) "uid-1"
              exportedA sampleDb eq_refl eq_refl)
    as (stored & H1 & H2 & _ & _ & H5).
  assert (E : stored = copyOf exportedA).
  { cbv zeta in H2. vm_compute in H2. inversion H2. reflexivity. }
  subst stored.
  destruct (H5 "a" eq_refl ltac:(discriminate)) as [G K].
  { intros p Hp. simpl in Hp.
    repeat (destruct Hp as [Hp|Hp]; [subst p; vm_compute; discriminate|]).
    contradiction. }
  split; [exact H1 | split; [exact H2 | split; [exact G|]]].
  exact (proj1 (proj1 (K yesterdayAfternoon twenty (JStr "receita")))).
Defined.

Lemma deleteGoal_then_getGoal_witness :
  let env := dbEnv todayMorning never in
  let r := deleteGoal env "a" sampleDb in
  fst r = Resolved true /\
  fst (getGoal env "a" (snd r)) = Resolved None /\
  lookup "b" (docs (goalsDb (snd r))) = Some km50.
Proof.
  destruct (deleteGoal_then_getGoal (dbEnv todayMorning never) "uid-1" "a" sampleDb
              eq_refl eq_refl) as (H1 & H2 & H3 & _).
  split; [exact H1 | split; [exact H2|]].
  rewrite (H3 "b") by discriminate. reflexivity.
Defined.

Lemma updateGoal_then_getGoal_witness :
  let env := dbEnv todayMorning never in
  let r := onGoals (updateGoal todayMorning "b" (accrual twenty)) sampleDb in
  fst r = Resolved true /\
  fst (getGoal env "b" (snd r))
  = Resolved (Some ("b", applyPatch todayMorning (accrual twenty) km50)).
Proof.
  exact (updateGoal_then_getGoal (dbEnv todayMorning never) "uid-1" "b"
           (accrual twenty) sampleDb eq_refl (fun _ => eq_refl)).
Defined.

Lemma signed_out_operations_do_nothing_witness :
  updateGoalsProgress tzBrasilia showNumber signedOut twenty (JStr "receita")
    sampleStore = (Resolved tt, sampleStore) /\
  endSession tzBrasilia showNumber noNumber (dbEnv signedOut never) "s1" threeHours
    twenty sampleDb = (Resolved false, sampleDb).
Proof.
  destruct (signed_out_operations_do_nothing tzBrasilia showNumber noNumber
              (dbEnv signedOut never) receita50 "a" (accrual twenty) twenty
              (JStr "receita") threeHours twenty sampleStore sampleDb eq_refl)
    as (_ & _ & _ & _ & H5 & _ & _ & _ & H9).
  split; [exact H5 | exact H9].
Defined.

Lemma endSession_without_earnings_witness :
  let r := endSession tzBrasilia showNumber noNumber (dbEnv todayMorning never) "s1"
             threeHours (JNum num_zero) sampleDb in
  docs (goalsDb (snd r)) = docs sampleStore /\
  calls (goalsDb (snd r)) = calls sampleStore /\
  fst r = Resolved true.
Proof.
  destruct (endSession_without_earnings tzBrasilia showNumber noNumber
              (dbEnv todayMorning never) "s1" threeHours (JNum num_zero) sampleDb
              eq_refl) as (H1 & H2 & H3).
  split; [exact H1 | split; [exact H2|]].
  exact (proj1 (H3 "uid-1" activeSession eq_refl eq_refl eq_refl)).
Defined.

Lemma endSession_rejected_session_write_witness :
  let r := endSession tzBrasilia showNumber noNumber (dbEnv todayMorning never)
             "missing" threeHours twenty sampleDb in
  fst r = Rejected StoreError /\
  goalsDb (snd r) = sampleStore /\
  sessionDocs (snd r) = sessionDocs sampleDb.
Proof.
  exact (endSession_rejected_session_write tzBrasilia showNumber noNumber
           (dbEnv todayMorning never) "uid-1" "missing" threeHours twenty sampleDb
           eq_refl (or_introl eq_refl)).
Defined.

(** The session write is accepted, the first write to a goal is rejected:
    the call fails and the session is completed all the same. *)
Lemma endSession_not_atomic_witness :
  let env := dbEnv (envAt (at_hour yesterday 15) (failsAt 1)) never in
  let r := endSession tzBrasilia showNumber noNumber env "s1" threeHours twenty
             sampleDb in
  lookupSession "s1" (sessionDocs (snd r))
  = Some (completed env threeHours twenty activeSession) /\
  fst r = Rejected StoreError.
Proof.
  destruct (endSession_not_atomic tzBrasilia showNumber noNumber
              (dbEnv (envAt (at_hour yesterday 15) (failsAt 1)) never) "uid-1" "s1"
              threeHours twenty activeSession sampleDb eq_refl eq_refl eq_refl)
    as [H1 H2].
  split; [exact H1|]. apply H2; vm_compute; reflexivity.
Defined.

Lemma endSession_spares_other_categories_witness :
  let r := endSession tzBrasilia showNumber noNumber (dbEnv todayMorning never) "s1"
             threeHours twenty sampleDb in
  lookup "b" (docs (goalsDb (snd r))) = Some km50 /\
  exists l,
    calls (goalsDb (snd r)) = calls (goalsDb sampleDb) ++ l /\
    forallb (fun c => negb (writesTo "b" c)) l = true.
Proof.
  apply (endSession_spares_other_categories tzBrasilia showNumber noNumber
           (dbEnv todayMorning never) "s1" threeHours twenty sampleDb "b" km50).
  - exact sampleStore_unique.
  - exact sampleStore_own.
  - simpl. right. now left.
  - vm_compute. discriminate.
Defined.

(** ** How the calls of the engine compose *)
Local Open Scope string_scope.
Local Open Scope list_scope.
Local Open Scope Z_scope.

Section Composition.

Variable LocalTZA : Z.
Variable NumberToString : spec_float -> string.








End Composition.

Import Samples.



Import Durations.
Local Open Scope string_scope.
Local Open Scope nat_scope.

(** ** Durations as text *)

(** A run of digits ends where the first other character stands. *)
Lemma digits_split a a' c c' r r' :
  allIn isDigit a = true -> allIn isDigit a' = true ->
  isDigit c = false -> isDigit c' = false ->
  a ++ String c r = a' ++ String c' r' ->
  a = a' /\ c = c' /\ r = r'.
Proof.
  revert a'. induction a as [|x a IH]; intros [|x' a'] Ha Ha' Hc Hc' E; simpl in *.
  - inversion E. now repeat split.
  - inversion E. subst. apply andb_true_iff in Ha'. destruct Ha' as [Hx _]. congruence.
  - inversion E. subst. apply andb_true_iff in Ha. destruct Ha as [Hx _]. congruence.
  - inversion E. subst. apply andb_true_iff in Ha, Ha'.
    destruct (IH a' (proj2 Ha) (proj2 Ha') Hc Hc' H1) as (-> & -> & ->).
    now repeat split.
Qed.

Lemma string_of_uint_digits d : allIn isDigit (DecimalString.NilEmpty.string_of_uint d) = true.
Proof. induction d; simpl; auto. Qed.

Lemma String_of_N_digits n : allIn isDigit (String_of_N n) = true.
Proof. apply string_of_uint_digits. Qed.

Lemma readN_String_of_N n : readN (String_of_N n) = Some n.
Proof.
  unfold readN, String_of_N. rewrite DecimalString.NilEmpty.usu. simpl.
  now rewrite DecimalN.Unsigned.of_to.
Qed.

Lemma String_of_N_inj n n' : String_of_N n = String_of_N n' -> n = n'.
Proof.
  intros E. pose proof (readN_String_of_N n) as H. rewrite E, readN_String_of_N in H.
  now inversion H.
Qed.

Lemma readN_zero s : readN (String "0" s) = readN s.
Proof.
  unfold readN. simpl. destruct (DecimalString.NilEmpty.uint_of_string s); reflexivity.
Qed.

Lemma repeatChar_digits n : allIn isDigit (repeatChar "0" n) = true.
Proof. induction n; simpl; auto. Qed.

Lemma readN_repeat n s : readN (repeatChar "0" n ++ s) = readN s.
Proof. induction n as [|n IH]; simpl; [reflexivity|]. now rewrite readN_zero. Qed.

Lemma readN_padStart k n : readN (padStart k "0" (String_of_N n)) = Some n.
Proof. unfold padStart. now rewrite readN_repeat, readN_String_of_N. Qed.

Lemma padStart_inj k n n' :
  padStart k "0" (String_of_N n) = padStart k "0" (String_of_N n') -> n = n'.
Proof.
  intros E. pose proof (readN_padStart k n) as H. rewrite E, readN_padStart in H.
  now inversion H.
Qed.

Lemma padStart_digits k n : allIn isDigit (padStart k "0" (String_of_N n)) = true.
Proof.
  unfold padStart. now rewrite allIn_app, repeatChar_digits, String_of_N_digits.
Qed.

Lemma clock_split (s : N) :
  let q := (s / 3600)%N in
  let m := ((s mod 3600) / 60)%N in
  let x := ((s mod 3600) mod 60)%N in
  (s = 3600 * q + 60 * m + x /\ m < 60 /\ x < 60)%N.
Proof.
  cbv zeta.
  pose proof (N.div_mod s 3600 ltac:(discriminate)) as E1.
  pose proof (N.mod_lt s 3600 ltac:(discriminate)) as B1.
  pose proof (N.div_mod (s mod 3600) 60 ltac:(discriminate)) as E2.
  pose proof (N.mod_lt (s mod 3600) 60 ltac:(discriminate)) as B2.
  generalize dependent (s / 3600)%N. generalize dependent ((s mod 3600) / 60)%N.
  generalize dependent ((s mod 3600) mod 60)%N. generalize dependent (s mod 3600)%N.
  intros r B1 x m E2 B2 q E1. lia.
Qed.

Lemma secs_of (s : N) : (s mod 60 = (s mod 3600) mod 60)%N.
Proof.
  destruct (clock_split s) as (E & Hm & Hx). symmetry.
  apply (N.mod_unique s 60 (60 * (s / 3600) + (s mod 3600) / 60)); [exact Hx | lia].
Qed.

Lemma minutes_of (s : N) : (s / 60 = 60 * (s / 3600) + (s mod 3600) / 60)%N.
Proof.
  destruct (clock_split s) as (E & Hm & Hx). symmetry.
  apply (N.div_unique s 60 _ ((s mod 3600) mod 60)); [exact Hx | lia].
Qed.

Lemma clock_parts (s : N) :
  (s = 3600 * (s / 3600) + 60 * ((s mod 3600) / 60) + s mod 60 /\
   (s mod 3600) / 60 < 60 /\ s mod 60 < 60)%N.
Proof. rewrite secs_of. apply clock_split. Qed.

Lemma below_100 (P : N -> bool) :
  forallb P (map N.of_nat (seq 0 100)) = true ->
  forall n, (n < 100)%N -> P n = true.
Proof.
  intros H n Hn. rewrite forallb_forall in H. apply H.
  rewrite <- (Nnat.N2Nat.id n). apply in_map. apply in_seq. lia.
Qed.

Lemma padStart_length k s :
  String.length (padStart k "0" s) = Nat.max k (String.length s).
Proof.
  unfold padStart. rewrite length_append.
  assert (E : forall n, String.length (repeatChar "0" n) = n)
    by (induction n; simpl; congruence).
  rewrite E. lia.
Qed.

Lemma two_digits_small n :
  (n < 100)%N -> String.length (padStart 2 "0" (String_of_N n)) = 2.
Proof.
  intros H.
  apply Nat.eqb_eq.
  apply (below_100 (fun n => String.length (padStart 2 "0" (String_of_N n)) =? 2));
    [vm_compute; reflexivity | exact H].
Qed.

Lemma two_digits_only n :
  String.length (String_of_N n) <= 2 -> (n < 100)%N.
Proof.
  unfold String_of_N. rewrite <- (DecimalN.Unsigned.of_to n) at 2.
  destruct (N.to_uint n) as [|d|d|d|d|d|d|d|d|d|d]; simpl; intros H;
    try (vm_compute; reflexivity);
    (destruct d as [|d|d|d|d|d|d|d|d|d|d]; simpl in H;
     try (vm_compute; reflexivity);
     (destruct d; simpl in H; try lia; vm_compute; reflexivity)).
Qed.

(** X23. [formatDuration] prints different durations differently: two whole
    numbers of seconds with the same text are the same number. *)
Theorem formatDuration_injective :
  forall s s',
    safeSeconds s -> safeSeconds s' ->
    formatDuration s = formatDuration s' -> s = s'.
Proof.
  intros s s' _ _ E. unfold formatDuration in E. cbv zeta in E.
  change (":" ++ ?r) with (String ":" r) in E.
  apply digits_split in E; try reflexivity; try apply padStart_digits.
  destruct E as (Eh & _ & E).
  apply digits_split in E; try reflexivity; try apply padStart_digits.
  destruct E as (Em & _ & Ex).
  apply padStart_inj in Eh, Em, Ex.
  destruct (clock_parts s) as (P & _). destruct (clock_parts s') as (P' & _).
  rewrite P, P', Eh, Em, Ex. reflexivity.
Qed.

(** X24. The text of [formatDuration] has the eight characters of
    [HH:MM:SS] exactly for the durations below 100 hours (360000 seconds). *)
Theorem formatDuration_length :
  forall s,
    safeSeconds s ->
    (String.length (formatDuration s) = 8 <-> (s < 360000)%N).
Proof.
  intros s _. unfold formatDuration. cbv zeta.
  destruct (clock_parts s) as (P & Hm & Hx).
  rewrite !length_append.
  rewrite (two_digits_small ((s mod 3600) / 60)), (two_digits_small (s mod 60)) by lia.
  change (String.length ":") with 1.
  split.
  - intros H. assert (Hq : (s / 3600 < 100)%N).
    { apply two_digits_only. rewrite padStart_length in H. lia. }
    lia.
  - intros H. assert (Hq : (s / 3600 < 100)%N)
      by (apply N.Div0.div_lt_upper_bound; exact H).
    rewrite (two_digits_small _ Hq). reflexivity.
Qed.

Lemma hours_minutes_of (s : N) :
  (s / 3600 = (s / 60) / 60 /\ (s mod 3600) / 60 = (s / 60) mod 60)%N.
Proof.
  destruct (clock_parts s) as (_ & Hm & _). pose proof (minutes_of s) as E.
  split.
  - apply (N.div_unique _ 60 _ ((s mod 3600) / 60)); [exact Hm | lia].
  - apply (N.mod_unique _ 60 (s / 3600)); [exact Hm | lia].
Qed.

(** X25. [formatDurationHuman] shows the whole minutes of a duration and
    nothing else: two durations have the same text exactly when they have the
    same number of whole minutes. *)
Theorem formatDurationHuman_same_iff_same_minutes :
  forall s s',
    safeSeconds s -> safeSeconds s' ->
    (formatDurationHuman s = formatDurationHuman s' <-> (s / 60 = s' / 60)%N).
Proof.
  intros s s' _ _. split.
  - intros E. rewrite (minutes_of s), (minutes_of s').
    unfold formatDurationHuman in E. cbv zeta in E.
    destruct (N.ltb_spec 0 (s / 3600)) as [Hq|Hq];
      destruct (N.ltb_spec 0 (s' / 3600)) as [Hq'|Hq'];
      change ("h " ++ ?r) with (String "h" (String " " r)) in E;
      change (?a ++ "m") with (a ++ String "m" "") in E.
    + apply digits_split in E; try reflexivity; try apply String_of_N_digits.
      destruct E as (Eh & _ & E). inversion E as [Em].
      apply digits_split in Em; try reflexivity; try apply String_of_N_digits.
      destruct Em as (Em & _). apply String_of_N_inj in Eh, Em. now rewrite Eh, Em.
    + apply digits_split in E; try reflexivity; try apply String_of_N_digits.
      destruct E as (_ & E & _). discriminate E.
    + apply digits_split in E; try reflexivity; try apply String_of_N_digits.
      destruct E as (_ & E & _). discriminate E.
    + apply digits_split in E; try reflexivity; try apply String_of_N_digits.
      destruct E as (Em & _). apply String_of_N_inj in Em.
      apply N.le_0_r in Hq, Hq'. now rewrite Em, Hq, Hq'.
  - intros E. unfold formatDurationHuman. cbv zeta.
    destruct (hours_minutes_of s) as (-> & ->).
    destruct (hours_minutes_of s') as (-> & ->). now rewrite E.
Qed.

(** 1 h 2 min 5 s. *)
Lemma formatDuration_injective_witness : (3600 + 125 = 3725)%N.
Proof.
  apply formatDuration_injective; [vm_compute; discriminate .. | reflexivity].
Defined.

Lemma formatDuration_length_witness : String.length (formatDuration 3725) = 8.
Proof.
  apply (proj2 (formatDuration_length 3725 ltac:(vm_compute; discriminate))).
  reflexivity.
Defined.

Lemma formatDurationHuman_same_iff_same_minutes_witness :
  formatDurationHuman 3725 = formatDurationHuman 3779.
Proof.
  apply (proj2 (formatDurationHuman_same_iff_same_minutes 3725 3779
                  ltac:(vm_compute; discriminate) ltac:(vm_compute; discriminate))).
  reflexivity.
Defined.

(** ** The page guard *)

Import AuthGuard.
Local Open Scope string_scope.


Import GuardSamples.

